(** * GoodFi backend API: escrow lifecycle, lender review and mock verification

    A shallow embedding of the route handlers of the GoodFi backend
    (Express handlers over a Supabase store) and the properties of the
    specification that concern them.

    Conventions of the embedding.
    - The numbers the handlers compute with (percentages, amounts of escrows,
      milestones and loans) are IEEE 754 binary64 values, the primitive
      floats of the kernel: sums and products round as they do in the
      program, and NaN and the infinities are values.  A numeric column
      holds the number it was sent or NULL, and gives it back unchanged.
    - The numbers of the verification oracle, which are only compared with
      the integer thresholds of its rule sets, are exact rationals ([Q]).
    - Status columns are strings, as in the source.
    - A table is a finite map from primary key to row; [.single()] succeeds
      when exactly one row matches.  The activity and history logs, which
      are only appended to, are lists, newest last.
    - Every handler takes the clock value ([now]) it would read with
      [new Date().toISOString()] and a fault schedule that tells which of
      its store calls come back with [error] set.
    - Handlers are modelled after the [authenticate] middleware has put the
      caller in [req.user]. *)

From Stdlib Require Import PrimFloat.
From Stdlib Require FloatOps FloatAxioms.
From Stdlib Require Import QArith Qabs Lqa Ascii.
From stdpp Require Import gmap strings list fin_maps sorting.

Set Warnings "-inexact-float".

Close Scope Q_scope.
Open Scope string_scope.

(** ** A small model of the JavaScript values the handlers branch on *)

Module Js.

Inductive value : Type :=
| Undefined
| Null
| Boolean (b : bool)
| Number (q : Q)
| Str (s : string).

(** ToBoolean. *)
Definition truthy (v : value) : bool :=
  match v with
  | Undefined | Null => false
  | Boolean b => b
  | Number q => negb (Qeq_bool q 0%Q)
  | Str s => negb (s =? "")
  end.

(** [typeof v === 'boolean']. *)
Definition is_boolean (v : value) : bool :=
  match v with Boolean _ => true | _ => false end.

Definition of_string (o : option string) : value :=
  match o with Some s => Str s | None => Null end.

Definition of_number (o : option Q) : value :=
  match o with Some q => Number q | None => Null end.

(** ToPropertyKey of a nullable string. *)
Definition property_key (o : option string) : string :=
  match o with Some s => s | None => "null" end.

(** The property names every object literal inherits from
    [Object.prototype]; each of them holds a function, or the prototype
    object itself for [__proto__], hence a truthy value. *)
Definition object_prototype_keys : list string :=
  [ "constructor"; "__defineGetter__"; "__defineSetter__"; "hasOwnProperty";
    "__lookupGetter__"; "__lookupSetter__"; "isPrototypeOf";
    "propertyIsEnumerable"; "toString"; "valueOf"; "__proto__";
    "toLocaleString" ].

(** What [obj[key]] yields on an object literal whose own properties hold
    values of type [A]. *)
Inductive lookup_result (A : Type) : Type :=
| Own (a : A)
| Inherited (name : string)
| Missing.
Arguments Own {A} a.
Arguments Inherited {A} name.
Arguments Missing {A}.

Fixpoint own_property {A} (props : list (string * A)) (key : string) : option A :=
  match props with
  | [] => None
  | (k, a) :: rest => if k =? key then Some a else own_property rest key
  end.

Definition get {A} (props : list (string * A)) (key : string) : lookup_result A :=
  match own_property props key with
  | Some a => Own a
  | None =>
      if existsb (String.eqb key) object_prototype_keys
      then Inherited key
      else Missing
  end.

(** The outcome of calling a function that may throw; [message] is the
    [message] property of the error thrown. *)
Inductive completion (A : Type) : Type :=
| Returned (a : A)
| Threw (message : string).
Arguments Returned {A} a.
Arguments Threw {A} message.

End Js.

(** ** JavaScript numbers in requests and in the store *)

Module Number.

(** [x || y] for a nullable number [x]: null, NaN and zero are falsy. *)
Definition truthy (n : float) : bool :=
  negb (PrimFloat.is_nan n || (n =? 0)%float).

Definition or_else (x : option float) (y : float) : float :=
  match x with
  | Some n => if truthy n then n else y
  | None => y
  end.

(** [parseFloat(x)] of a field that holds a number, or a text that denotes
    one ([Some]), or that is absent, null or a text that starts with no
    number ([None]).  The argument goes through its text, and the text of
    -0 is '0'. *)
Definition parseFloat (x : option float) : float :=
  match x with
  | Some n => if (n =? 0)%float then 0%float else n
  | None => PrimFloat.nan
  end.

(** The number as the client library writes it into a request to the
    store, with [JSON.stringify]: NaN and the infinities are written as
    null, -0 as 0. *)
Definition to_json (n : float) : option float :=
  if PrimFloat.is_finite n
  then Some (if (n =? 0)%float then 0%float else n)
  else None.

(** The value of a number as a rational; NaN and the infinities have
    none. *)
Definition exact (n : float) : option Q :=
  match FloatOps.Prim2SF n with
  | SpecFloat.S754_zero _ => Some 0%Q
  | SpecFloat.S754_finite negative mantissa exponent =>
      let magnitude := (inject_Z (Z.pos mantissa) * Qpower 2 exponent)%Q in
      Some (Qred (if negative then - magnitude else magnitude)%Q)
  | _ => None
  end.


End Number.

Arguments Number.truthy : simpl never.
Arguments Number.or_else : simpl never.
Arguments Number.parseFloat : simpl never.
Arguments Number.to_json : simpl never.
Arguments Number.exact : simpl never.

(** ** Verification oracle adapter (routes/verification-lender.js) *)

Module Verification.

(** The columns of an [assets] row that [performMockVerification] reads.
    [None] is SQL NULL. *)
Record Asset : Type := mkAsset {
  asset_type : option string;
  asset_value : option Q;
  asset_description : option string
}.

(** [asset[field]]. *)
Definition asset_get (asset : Asset) (field : string) : Js.value :=
  if field =? "type" then Js.of_string (asset_type asset)
  else if field =? "value" then Js.of_number (asset_value asset)
  else if field =? "description" then Js.of_string (asset_description asset)
  else Js.Undefined.

Record Rules : Type := mkRules {
  minValue : Q;
  maxValue : Q;
  requiredFields : list string
}.

Definition verificationRules : list (string * Rules) :=
  [ ("deposit", mkRules 1000%Q 1000000%Q ["description"; "value"]);
    ("purchase_order", mkRules 5000%Q 5000000%Q ["description"; "value"]);
    ("invoice", mkRules 1000%Q 2000000%Q ["description"; "value"]) ].

(** [verificationRules.deposit]. *)
Definition deposit_rules : Rules := mkRules 1000%Q 1000000%Q ["description"; "value"].

(** [asset.value >= lo && asset.value <= hi]; a NULL value converts to 0. *)
Definition value_in_range (v : option Q) (lo hi : Q) : bool :=
  let n := match v with Some q => q | None => 0%Q end in
  Qle_bool lo n && Qle_bool n hi.

(** [asset.description && asset.description.length >= 10]: the left operand
    itself when it is falsy. *)
Definition has_valid_description (d : option string) : Js.value :=
  match d with
  | None => Js.Null
  | Some s => if s =? "" then Js.Str s else Js.Boolean (10 <=? String.length s)%nat
  end.

Record Checks : Type := mkChecks {
  hasRequiredFields : Js.value;
  valueInRange : Js.value;
  hasValidDescription : Js.value;
  timestamp : Js.value
}.

(** [Object.values(checks)]. *)
Definition checks_values (c : Checks) : list Js.value :=
  [hasRequiredFields c; valueInRange c; hasValidDescription c; timestamp c].

Record VerificationData : Type := mkData {
  checks : Checks;
  verifiedAmount : option Q;
  confidence : Q;
  riskScore : string;
  verificationMethod : string;
  dataSource : string;
  verifiedAt : string
}.

Record VerificationResult : Type := mkResult {
  status : string;
  data : VerificationData;
  error : option string
}.

(** The [checks] object. *)
Definition make_checks (now : string) (asset : Asset) (rules : Rules) : Checks :=
  {| hasRequiredFields :=
       Js.Boolean (forallb (fun field => Js.truthy (asset_get asset field))
                           (requiredFields rules));
     valueInRange :=
       Js.Boolean (value_in_range (asset_value asset) (minValue rules) (maxValue rules));
     hasValidDescription := has_valid_description (asset_description asset);
     timestamp := Js.Str now |}.

(** [Object.values(checks).every(check =>
      typeof check === 'boolean' ? check : true)]. *)
Definition passed (checks : Checks) : bool :=
  forallb (fun check => if Js.is_boolean check then Js.truthy check else true)
          (checks_values checks).

(** [verificationRules[asset.type] || verificationRules.deposit]: an own
    rule set, an inherited member of [Object.prototype] (truthy, so it is
    kept), or the deposit rule set. *)
Definition select_rules (asset : Asset) : Js.lookup_result Rules :=
  match Js.get verificationRules (Js.property_key (asset_type asset)) with
  | Js.Own rules => Js.Own rules
  | Js.Inherited name => Js.Inherited name
  | Js.Missing => Js.Own deposit_rules
  end.

(** The simulated delay of one second is not modelled. *)
Definition performMockVerification (now : string) (asset : Asset)
  : Js.completion VerificationResult :=
  match select_rules asset with
  | Js.Own rules =>
      let checks := make_checks now asset rules in
      let passed := passed checks in
      Js.Returned {|
        status := if passed then "verified" else "verification_failed";
        data := {|
          checks := checks;
          verifiedAmount := asset_value asset;
          confidence := if passed then 0.95%Q else 0.45%Q;
          riskScore := if passed then "low" else "high";
          verificationMethod := "mock_oracle";
          dataSource := "Mock " ++ Js.property_key (asset_type asset) ++ " verification";
          verifiedAt := now |};
        error := if passed then None
                 else Some "Asset did not meet verification criteria" |}
  | _ =>
      (* rules.requiredFields is undefined on an inherited member, and
         undefined.every(...) throws *)
      Js.Threw "Cannot read properties of undefined (reading 'every')"
  end.

(** The table of the specification (section 4.3), by type name. *)
Definition spec_range (type : string) : option (Q * Q) :=
  if type =? "deposit" then Some (1000%Q, 1000000%Q)
  else if type =? "purchase_order" then Some (5000%Q, 5000000%Q)
  else if type =? "invoice" then Some (1000%Q, 2000000%Q)
  else None.

(** The pass condition in the words of the specification: both fields
    present, value within [lo, hi], description of at least ten characters. *)
Definition spec_passes (asset : Asset) (lo hi : Q) : Prop :=
  exists d v,
    asset_description asset = Some d /\ asset_value asset = Some v /\
    (lo <= v)%Q /\ (v <= hi)%Q /\ (10 <= String.length d)%nat.

End Verification.

(** ** The escrow store: tables [escrows], [escrow_milestones],
    [escrow_activities] *)

Module Db.

(** Which store calls of one request come back with [error] set, by their
    position in the handler (0 is the first call). *)
Definition Faults : Type := nat -> bool.
Definition no_faults : Faults := fun _ => false.

(** [req.user] as the authentication middleware leaves it. *)
Record User : Type := mkUser {
  user_id : string;
  user_email : string
}.

(** In the rows below a numeric column is [None] when it is NULL; the
    schema is not part of the repository, and the columns are taken to
    accept NULL. *)
Module Escrow.
Record t : Type := mk {
  sme_id : string;
  customer_id : option string;
  customer_email : string;
  project_name : string;
  project_description : string;
  total_amount : option float;
  deposited_amount : option float;
  released_amount : option float;
  status : string;
  invite_token : string;
  invite_sent_at : option string;
  invite_accepted_at : option string;
  deposited_at : option string;
  deposit_due_date : option string;
  created_at : string
}.
End Escrow.

Module Milestone.
Record t : Type := mk {
  escrow_id : nat;
  title : string;
  description : string;
  amount : option float;
  percentage : option float;
  order_index : nat;
  status : string;
  evidence_description : option string;
  evidence_url : option string;
  submitted_at : option string;
  submitted_by : option string;
  approved_at : option string;
  approved_by : option string;
  released_at : option string;
  rejection_reason : option string
}.
End Milestone.

Module Activity.
(** The [metadata] object of an activity row. *)
Inductive metadata : Type :=
| NoMetadata
| MilestoneCount (milestone_count : nat)
| CustomerEmail (customer_email : string)
| Amount (amount : option float)
| Reason (reason : string).

(** The free-text [description] column is left out. *)
Record t : Type := mk {
  escrow_id : nat;
  milestone_id : option nat;
  user_id : string;
  action_type : string;
  meta : metadata
}.
End Activity.

(** The primary key of a row is its key in the table; [escrows_seq] and
    [milestones_seq] are the sequences the store draws new keys from. *)
Record Store : Type := mkStore {
  escrows : gmap nat Escrow.t;
  escrow_milestones : gmap nat Milestone.t;
  escrow_activities : list Activity.t;
  escrows_seq : nat;
  milestones_seq : nat
}.

Definition empty : Store := mkStore ∅ ∅ [] 1 1.

Definition set_escrows (st : Store) (t : gmap nat Escrow.t) : Store :=
  mkStore t (escrow_milestones st) (escrow_activities st)
          (escrows_seq st) (milestones_seq st).

Definition set_milestones (st : Store) (t : gmap nat Milestone.t) : Store :=
  mkStore (escrows st) t (escrow_activities st)
          (escrows_seq st) (milestones_seq st).

(** [from('escrow_activities').insert(row)]; the handlers never look at the
    outcome of this call. *)
Definition log_activity (failed : bool) (st : Store) (row : Activity.t) : Store :=
  if failed then st
  else mkStore (escrows st) (escrow_milestones st) (escrow_activities st ++ [row])
               (escrows_seq st) (milestones_seq st).

(** [from('escrows').insert(row).select().single()]: the new key and the
    store with the row added. *)
Definition insert_escrow (st : Store) (row : Escrow.t) : nat * Store :=
  (escrows_seq st,
   mkStore (<[escrows_seq st := row]> (escrows st)) (escrow_milestones st)
           (escrow_activities st) (S (escrows_seq st)) (milestones_seq st)).

Fixpoint insert_all {A} (rows : list A) (key : nat) (table : gmap nat A) : gmap nat A :=
  match rows with
  | [] => table
  | row :: rest => insert_all rest (S key) (<[key := row]> table)
  end.

(** [from('escrow_milestones').insert(rows)], one statement. *)
Definition insert_milestones (st : Store) (rows : list Milestone.t) : Store :=
  mkStore (escrows st)
          (insert_all rows (milestones_seq st) (escrow_milestones st))
          (escrow_activities st) (escrows_seq st)
          (milestones_seq st + length rows).

(** [.single()]. *)
Definition single {A} (rows : list A) : option A :=
  match rows with
  | [row] => Some row
  | _ => None
  end.

(** [from('escrows').select('*').eq('invite_token', token)]. *)
Definition escrows_by_token (st : Store) (token : string) : list (nat * Escrow.t) :=
  filter (fun row => Escrow.invite_token row.2 = token) (map_to_list (escrows st)).

Record Response : Type := mkResponse {
  res_status : nat;
  res_success : bool;
  res_error : option string
}.

Definition ok (code : nat) : Response := mkResponse code true None.
Definition fail (code : nat) (error : string) : Response :=
  mkResponse code false (Some error).

(** [array.map((m, index) => f(m, index))]. *)
Fixpoint mapi_from {A B} (f : A -> nat -> B) (index : nat) (l : list A) : list B :=
  match l with
  | [] => []
  | a :: rest => f a index :: mapi_from f (S index) rest
  end.

Definition mapi {A B} (f : A -> nat -> B) (l : list A) : list B := mapi_from f 0 l.

End Db.

(** ** Escrow routes (routes/escrow.js) *)

Module EscrowRoutes.
Import Db.

(** An entry of [milestones]; [percentage] is [None] when the field is
    absent, null or a text that starts with no number, which are the cases
    [parseFloat] answers with NaN. *)
Record MilestoneInput : Type := mkMilestoneInput {
  title : string;
  description : string;
  percentage : option float
}.

(** [req.body] of POST /api/escrow/create; [milestones] and [total_amount]
    are [None] when the field is absent or null. *)
Record CreateBody : Type := mkCreateBody {
  project_name : string;
  project_description : string;
  customer_email : string;
  total_amount : option float;
  deposit_due_date : option string;
  milestones : option (list MilestoneInput)
}.

(** [milestones.reduce((sum, m) => sum + parseFloat(m.percentage), 0)]. *)
Definition totalPercentage (ms : list MilestoneInput) : float :=
  fold_left (fun sum m => (sum + Number.parseFloat (percentage m))%float) ms 0%float.

(** [Math.abs(totalPercentage - 100) > 0.01]; a comparison with NaN is
    false. *)
Definition percentages_off (ms : list MilestoneInput) : bool :=
  (0.01 <? PrimFloat.abs (totalPercentage ms - 100))%float.

Arguments totalPercentage : simpl never.
Arguments percentages_off : simpl never.

Definition milestonesData (escrow_id : nat) (total_amount : option float)
    (ms : list MilestoneInput) : list Milestone.t :=
  mapi (fun m index => {|
    Milestone.escrow_id := escrow_id;
    Milestone.title := title m;
    Milestone.description := description m;
    Milestone.amount :=
      Number.to_json ((Number.parseFloat (percentage m) / 100)
                      * Number.parseFloat total_amount)%float;
    Milestone.percentage := Number.to_json (Number.parseFloat (percentage m));
    Milestone.order_index := index + 1;
    Milestone.status := "pending";
    Milestone.evidence_description := None;
    Milestone.evidence_url := None;
    Milestone.submitted_at := None;
    Milestone.submitted_by := None;
    Milestone.approved_at := None;
    Milestone.approved_by := None;
    Milestone.released_at := None;
    Milestone.rejection_reason := None |}) ms.

(** POST /api/escrow/create.  [inviteToken] is the value drawn by
    [crypto.randomBytes(32).toString('hex')].  Columns the insert does not
    name start as NULL. *)
Definition create (supabaseAdmin : bool) (now : string) (flt : Faults)
    (inviteToken : string) (st : Store) (user : User) (body : CreateBody)
  : Response * Store :=
  let smeId := user_id user in
  if negb supabaseAdmin then (fail 503 "Service not configured", st) else
  match milestones body with
  | None | Some [] => (fail 400 "At least one milestone is required", st)
  | Some ms =>
      if percentages_off ms
      then (fail 400 "Milestone percentages must add up to 100%", st)
      else if flt 0 then (fail 500 "Failed to create escrow", st)
      else
        let '(escrow_id, st1) := insert_escrow st {|
          Escrow.sme_id := smeId;
          Escrow.customer_id := None;
          Escrow.customer_email := customer_email body;
          Escrow.project_name := project_name body;
          Escrow.project_description := project_description body;
          Escrow.total_amount := total_amount body ≫= Number.to_json;
          Escrow.deposited_amount := None;
          Escrow.released_amount := None;
          Escrow.status := "draft";
          Escrow.invite_token := inviteToken;
          Escrow.invite_sent_at := None;
          Escrow.invite_accepted_at := None;
          Escrow.deposited_at := None;
          Escrow.deposit_due_date := deposit_due_date body;
          Escrow.created_at := now |} in
        if flt 1 then (fail 500 "Failed to create escrow", st1)
        else
          let st2 := insert_milestones st1
                       (milestonesData escrow_id (total_amount body) ms) in
          let st3 := log_activity (flt 2) st2 {|
            Activity.escrow_id := escrow_id;
            Activity.milestone_id := None;
            Activity.user_id := smeId;
            Activity.action_type := "escrow_created";
            Activity.meta := Activity.MilestoneCount (length ms) |} in
          (ok 201, st3)
  end.

Definition mark_invited (now : string) (e : Escrow.t) : Escrow.t :=
  {| Escrow.sme_id := Escrow.sme_id e;
     Escrow.customer_id := Escrow.customer_id e;
     Escrow.customer_email := Escrow.customer_email e;
     Escrow.project_name := Escrow.project_name e;
     Escrow.project_description := Escrow.project_description e;
     Escrow.total_amount := Escrow.total_amount e;
     Escrow.deposited_amount := Escrow.deposited_amount e;
     Escrow.released_amount := Escrow.released_amount e;
     Escrow.status := "invited";
     Escrow.invite_token := Escrow.invite_token e;
     Escrow.invite_sent_at := Some now;
     Escrow.invite_accepted_at := Escrow.invite_accepted_at e;
     Escrow.deposited_at := Escrow.deposited_at e;
     Escrow.deposit_due_date := Escrow.deposit_due_date e;
     Escrow.created_at := Escrow.created_at e |}.

(** POST /api/escrow/:id/invite. *)
Definition sendInvite (supabaseAdmin : bool) (now : string) (flt : Faults)
    (st : Store) (user : User) (id : nat) : Response * Store :=
  let smeId := user_id user in
  if negb supabaseAdmin then (fail 503 "Service not configured", st) else
  let fetched :=
    if flt 0 then None
    else match escrows st !! id with
         | Some e => if decide (Escrow.sme_id e = smeId) then Some e else None
         | None => None
         end in
  match fetched with
  | None => (fail 404 "Escrow not found", st)
  | Some escrow =>
      if flt 1 then (fail 500 "Failed to send invite", st)
      else
        let st1 := set_escrows st (alter (mark_invited now) id (escrows st)) in
        let st2 := log_activity (flt 2) st1 {|
          Activity.escrow_id := id;
          Activity.milestone_id := None;
          Activity.user_id := smeId;
          Activity.action_type := "invite_sent";
          Activity.meta := Activity.CustomerEmail (Escrow.customer_email escrow) |} in
        (ok 200, st2)
  end.

Definition mark_accepted (now : string) (customerId : string) (e : Escrow.t) : Escrow.t :=
  {| Escrow.sme_id := Escrow.sme_id e;
     Escrow.customer_id := Some customerId;
     Escrow.customer_email := Escrow.customer_email e;
     Escrow.project_name := Escrow.project_name e;
     Escrow.project_description := Escrow.project_description e;
     Escrow.total_amount := Escrow.total_amount e;
     Escrow.deposited_amount := Escrow.deposited_amount e;
     Escrow.released_amount := Escrow.released_amount e;
     Escrow.status := "pending_deposit";
     Escrow.invite_token := Escrow.invite_token e;
     Escrow.invite_sent_at := Escrow.invite_sent_at e;
     Escrow.invite_accepted_at := Some now;
     Escrow.deposited_at := Escrow.deposited_at e;
     Escrow.deposit_due_date := Escrow.deposit_due_date e;
     Escrow.created_at := Escrow.created_at e |}.

(** POST /api/escrow/accept/:token. *)
Definition acceptInvite (supabaseAdmin : bool) (now : string) (flt : Faults)
    (st : Store) (user : User) (token : string) : Response * Store :=
  let customerId := user_id user in
  let customerEmail := user_email user in
  if negb supabaseAdmin then (fail 503 "Service not configured", st) else
  match (if flt 0 then None else single (escrows_by_token st token)) with
  | None => (fail 404 "Invalid or expired invite", st)
  | Some (id, escrow) =>
      if decide (Escrow.customer_email escrow <> customerEmail)
      then (fail 403 "This invitation was sent to a different email address", st)
      else if decide (Escrow.status escrow = "pending_deposit"
                      \/ Escrow.status escrow = "active")
      then (fail 400 "Invite already accepted", st)
      else if flt 1 then (fail 500 "Failed to accept invite", st)
      else
        let st1 := set_escrows st
                     (alter (mark_accepted now customerId) id (escrows st)) in
        let st2 := log_activity (flt 2) st1 {|
          Activity.escrow_id := id;
          Activity.milestone_id := None;
          Activity.user_id := customerId;
          Activity.action_type := "invite_accepted";
          Activity.meta := Activity.NoMetadata |} in
        (ok 200, st2)
  end.

Definition mark_deposited (now : string) (e : Escrow.t) : Escrow.t :=
  {| Escrow.sme_id := Escrow.sme_id e;
     Escrow.customer_id := Escrow.customer_id e;
     Escrow.customer_email := Escrow.customer_email e;
     Escrow.project_name := Escrow.project_name e;
     Escrow.project_description := Escrow.project_description e;
     Escrow.total_amount := Escrow.total_amount e;
     Escrow.deposited_amount := Escrow.total_amount e;
     Escrow.released_amount := Escrow.released_amount e;
     Escrow.status := "active";
     Escrow.invite_token := Escrow.invite_token e;
     Escrow.invite_sent_at := Escrow.invite_sent_at e;
     Escrow.invite_accepted_at := Escrow.invite_accepted_at e;
     Escrow.deposited_at := Some now;
     Escrow.deposit_due_date := Escrow.deposit_due_date e;
     Escrow.created_at := Escrow.created_at e |}.

(** POST /api/escrow/:id/deposit. *)
Definition deposit (supabaseAdmin : bool) (now : string) (flt : Faults)
    (st : Store) (user : User) (id : nat) : Response * Store :=
  let customerId := user_id user in
  if negb supabaseAdmin then (fail 503 "Service not configured", st) else
  let fetched :=
    if flt 0 then None
    else match escrows st !! id with
         | Some e => if decide (Escrow.customer_id e = Some customerId)
                     then Some e else None
         | None => None
         end in
  match fetched with
  | None => (fail 404 "Escrow not found", st)
  | Some escrow =>
      if decide (Escrow.status escrow <> "pending_deposit")
      then (fail 400 "Escrow not ready for deposit", st)
      else if flt 1 then (fail 500 "Failed to deposit funds", st)
      else
        let st1 := set_escrows st (alter (mark_deposited now) id (escrows st)) in
        let st2 := log_activity (flt 2) st1 {|
          Activity.escrow_id := id;
          Activity.milestone_id := None;
          Activity.user_id := customerId;
          Activity.action_type := "funds_deposited";
          Activity.meta := Activity.Amount (Escrow.total_amount escrow) |} in
        (ok 200, st2)
  end.

End EscrowRoutes.

(** ** Milestone routes (routes/milestones-escrow.js) *)

Module MilestoneRoutes.
Import Db.

(** [select('*, escrows(...)').eq('id', id).single()]: the milestone with
    its parent escrow embedded; the embedded object is [None] (null) when
    the parent row is missing. *)
Definition fetch_milestone (failed : bool) (st : Store) (id : nat)
  : option (Milestone.t * option Escrow.t) :=
  if failed then None
  else match escrow_milestones st !! id with
       | Some m => Some (m, escrows st !! Milestone.escrow_id m)
       | None => None
       end.

(** An absent body field is dropped from the update, the column keeps its
    value. *)
Definition or_keep {A} (field : option A) (column : option A) : option A :=
  match field with
  | Some v => Some v
  | None => column
  end.

Definition mark_submitted (now smeId : string)
    (evidence_description evidence_url : option string) (m : Milestone.t)
  : Milestone.t :=
  {| Milestone.escrow_id := Milestone.escrow_id m;
     Milestone.title := Milestone.title m;
     Milestone.description := Milestone.description m;
     Milestone.amount := Milestone.amount m;
     Milestone.percentage := Milestone.percentage m;
     Milestone.order_index := Milestone.order_index m;
     Milestone.status := "submitted";
     Milestone.evidence_description :=
       or_keep evidence_description (Milestone.evidence_description m);
     Milestone.evidence_url := or_keep evidence_url (Milestone.evidence_url m);
     Milestone.submitted_at := Some now;
     Milestone.submitted_by := Some smeId;
     Milestone.approved_at := Milestone.approved_at m;
     Milestone.approved_by := Milestone.approved_by m;
     Milestone.released_at := Milestone.released_at m;
     Milestone.rejection_reason := Milestone.rejection_reason m |}.

(** POST /api/milestones/:id/submit. *)
Definition submit (supabaseAdmin : bool) (now : string) (flt : Faults)
    (st : Store) (user : User) (id : nat)
    (evidence_description evidence_url : option string) : Response * Store :=
  let smeId := user_id user in
  if negb supabaseAdmin then (fail 503 "Service not configured", st) else
  match fetch_milestone (flt 0) st id with
  | None => (fail 404 "Milestone not found", st)
  | Some (milestone, None) =>
      (* milestone.escrows is null: the TypeError is caught *)
      (fail 500 "Failed to submit milestone", st)
  | Some (milestone, Some escrow) =>
      if decide (Escrow.sme_id escrow <> smeId)
      then (fail 403 "Access denied", st)
      else if decide (Milestone.status milestone <> "pending"
                      /\ Milestone.status milestone <> "rejected")
      then (fail 400 "Milestone already submitted", st)
      else if flt 1 then (fail 500 "Failed to submit milestone", st)
      else
        let st1 := set_milestones st
          (alter (mark_submitted now smeId evidence_description evidence_url)
                 id (escrow_milestones st)) in
        let st2 := log_activity (flt 2) st1 {|
          Activity.escrow_id := Milestone.escrow_id milestone;
          Activity.milestone_id := Some id;
          Activity.user_id := smeId;
          Activity.action_type := "milestone_submitted";
          Activity.meta := Activity.NoMetadata |} in
        (ok 200, st2)
  end.

Definition mark_approved (now customerId : string) (m : Milestone.t) : Milestone.t :=
  {| Milestone.escrow_id := Milestone.escrow_id m;
     Milestone.title := Milestone.title m;
     Milestone.description := Milestone.description m;
     Milestone.amount := Milestone.amount m;
     Milestone.percentage := Milestone.percentage m;
     Milestone.order_index := Milestone.order_index m;
     Milestone.status := "approved";
     Milestone.evidence_description := Milestone.evidence_description m;
     Milestone.evidence_url := Milestone.evidence_url m;
     Milestone.submitted_at := Milestone.submitted_at m;
     Milestone.submitted_by := Milestone.submitted_by m;
     Milestone.approved_at := Some now;
     Milestone.approved_by := Some customerId;
     Milestone.released_at := Some now;
     Milestone.rejection_reason := Milestone.rejection_reason m |}.

Definition set_released (released : option float) (e : Escrow.t) : Escrow.t :=
  {| Escrow.sme_id := Escrow.sme_id e;
     Escrow.customer_id := Escrow.customer_id e;
     Escrow.customer_email := Escrow.customer_email e;
     Escrow.project_name := Escrow.project_name e;
     Escrow.project_description := Escrow.project_description e;
     Escrow.total_amount := Escrow.total_amount e;
     Escrow.deposited_amount := Escrow.deposited_amount e;
     Escrow.released_amount := released;
     Escrow.status := Escrow.status e;
     Escrow.invite_token := Escrow.invite_token e;
     Escrow.invite_sent_at := Escrow.invite_sent_at e;
     Escrow.invite_accepted_at := Escrow.invite_accepted_at e;
     Escrow.deposited_at := Escrow.deposited_at e;
     Escrow.deposit_due_date := Escrow.deposit_due_date e;
     Escrow.created_at := Escrow.created_at e |}.

(** [parseFloat(released_amount || 0)]. *)
Definition released_or_zero (e : Escrow.t) : float :=
  Number.parseFloat (Some (Number.or_else (Escrow.released_amount e) 0%float)).

Arguments released_or_zero : simpl never.

(** POST /api/milestones/:id/approve. *)
Definition approve (supabaseAdmin : bool) (now : string) (flt : Faults)
    (st : Store) (user : User) (id : nat) : Response * Store :=
  let customerId := user_id user in
  if negb supabaseAdmin then (fail 503 "Service not configured", st) else
  match fetch_milestone (flt 0) st id with
  | None => (fail 404 "Milestone not found", st)
  | Some (milestone, None) => (fail 500 "Failed to approve milestone", st)
  | Some (milestone, Some escrow) =>
      if decide (Escrow.customer_id escrow <> Some customerId)
      then (fail 403 "Access denied", st)
      else if decide (Milestone.status milestone <> "submitted")
      then (fail 400 "Milestone not ready for approval", st)
      else if flt 1 then (fail 500 "Failed to approve milestone", st)
      else
        let st1 := set_milestones st
          (alter (mark_approved now customerId) id (escrow_milestones st)) in
        let newReleasedAmount :=
          (released_or_zero escrow
           + Number.parseFloat (Milestone.amount milestone))%float in
        if flt 2 then (fail 500 "Failed to approve milestone", st1)
        else
          let st2 := set_escrows st1
            (alter (set_released (Number.to_json newReleasedAmount))
                   (Milestone.escrow_id milestone) (escrows st1)) in
          let st3 := log_activity (flt 3) st2 {|
            Activity.escrow_id := Milestone.escrow_id milestone;
            Activity.milestone_id := Some id;
            Activity.user_id := customerId;
            Activity.action_type := "milestone_approved";
            Activity.meta := Activity.Amount (Milestone.amount milestone) |} in
          (ok 200, st3)
  end.

Definition mark_rejected (rejection_reason : string) (m : Milestone.t) : Milestone.t :=
  {| Milestone.escrow_id := Milestone.escrow_id m;
     Milestone.title := Milestone.title m;
     Milestone.description := Milestone.description m;
     Milestone.amount := Milestone.amount m;
     Milestone.percentage := Milestone.percentage m;
     Milestone.order_index := Milestone.order_index m;
     Milestone.status := "rejected";
     Milestone.evidence_description := Milestone.evidence_description m;
     Milestone.evidence_url := Milestone.evidence_url m;
     Milestone.submitted_at := Milestone.submitted_at m;
     Milestone.submitted_by := Milestone.submitted_by m;
     Milestone.approved_at := Milestone.approved_at m;
     Milestone.approved_by := Milestone.approved_by m;
     Milestone.released_at := Milestone.released_at m;
     Milestone.rejection_reason := Some rejection_reason |}.

(** POST /api/milestones/:id/reject.  The reason is checked before the
    service client. *)
Definition reject (supabaseAdmin : bool) (now : string) (flt : Faults)
    (st : Store) (user : User) (id : nat) (rejection_reason : option string)
  : Response * Store :=
  let customerId := user_id user in
  match rejection_reason with
  | None => (fail 400 "Rejection reason required", st)
  | Some reason =>
      if decide (reason = "") then (fail 400 "Rejection reason required", st)
      else if negb supabaseAdmin then (fail 503 "Service not configured", st)
      else
        match fetch_milestone (flt 0) st id with
        | None => (fail 404 "Milestone not found", st)
        | Some (milestone, None) => (fail 500 "Failed to reject milestone", st)
        | Some (milestone, Some escrow) =>
            if decide (Escrow.customer_id escrow <> Some customerId)
            then (fail 403 "Access denied", st)
            else if flt 1 then (fail 500 "Failed to reject milestone", st)
            else
              let st1 := set_milestones st
                (alter (mark_rejected reason) id (escrow_milestones st)) in
              let st2 := log_activity (flt 2) st1 {|
                Activity.escrow_id := Milestone.escrow_id milestone;
                Activity.milestone_id := Some id;
                Activity.user_id := customerId;
                Activity.action_type := "milestone_rejected";
                Activity.meta := Activity.Reason reason |} in
              (ok 200, st2)
        end
  end.

End MilestoneRoutes.

(** ** Requests against the escrow engine and the states they reach *)

Module Engine.
Import Db.

Inductive Request : Type :=
| Create (inviteToken : string) (user : User) (body : EscrowRoutes.CreateBody)
| SendInvite (user : User) (id : nat)
| AcceptInvite (user : User) (token : string)
| Deposit (user : User) (id : nat)
| Submit (user : User) (id : nat) (evidence_description evidence_url : option string)
| Approve (user : User) (id : nat)
| Reject (user : User) (id : nat) (rejection_reason : option string).

Definition handle (supabaseAdmin : bool) (now : string) (flt : Faults)
    (st : Store) (req : Request) : Response * Store :=
  match req with
  | Create inviteToken user body =>
      EscrowRoutes.create supabaseAdmin now flt inviteToken st user body
  | SendInvite user id => EscrowRoutes.sendInvite supabaseAdmin now flt st user id
  | AcceptInvite user token =>
      EscrowRoutes.acceptInvite supabaseAdmin now flt st user token
  | Deposit user id => EscrowRoutes.deposit supabaseAdmin now flt st user id
  | Submit user id evidence_description evidence_url =>
      MilestoneRoutes.submit supabaseAdmin now flt st user id
                             evidence_description evidence_url
  | Approve user id => MilestoneRoutes.approve supabaseAdmin now flt st user id
  | Reject user id rejection_reason =>
      MilestoneRoutes.reject supabaseAdmin now flt st user id rejection_reason
  end.

(** The store after serving the requests in order, every store call
    succeeding. *)
Definition run (now : string) (st : Store) (reqs : list Request) : Store :=
  fold_left (fun st req => (handle true now no_faults st req).2) reqs st.

(** The status codes answered to the requests, in order. *)
Fixpoint serve (now : string) (st : Store) (reqs : list Request) : list nat :=
  match reqs with
  | [] => []
  | req :: rest =>
      let res := handle true now no_faults st req in
      res_status res.1 :: serve now res.2 rest
  end.

(** States reachable from the empty store by any requests, clock readings
    and store faults. *)
Inductive reachable : Store -> Prop :=
| reachable_empty : reachable Db.empty
| reachable_step st supabaseAdmin now flt req :
    reachable st ->
    reachable (handle supabaseAdmin now flt st req).2.

End Engine.

(** ** The loan store: tables [loans], [profiles], [loan_status_history] *)

Module LoanDb.

Record Profile : Type := mkProfile {
  role : string
}.

(** The columns of a [loans] row that the review routes read or write. *)
Record Loan : Type := mkLoan {
  status : string;
  lender_id : option string;
  reviewed_at : option string;
  approved_at : option string;
  lender_notes : option string;
  approval_conditions : option string
}.

Record History : Type := mkHistory {
  loan_id : nat;
  old_status : string;
  new_status : string;
  changed_by : string;
  notes : option string
}.

(** [profiles] is keyed by the user id of the identity provider. *)
Record Store : Type := mkStore {
  loans : gmap nat Loan;
  profiles : gmap string Profile;
  loan_status_history : list History
}.

Definition set_loans (st : Store) (t : gmap nat Loan) : Store :=
  mkStore t (profiles st) (loan_status_history st).

Definition log_history (failed : bool) (st : Store) (row : History) : Store :=
  if failed then st
  else mkStore (loans st) (profiles st) (loan_status_history st ++ [row]).

Record Response : Type := mkResponse {
  res_status : nat;
  res_error : option string;
  res_currentStatus : option string
}.

Definition ok : Response := mkResponse 200 None None.
Definition fail (code : nat) (error : string) : Response :=
  mkResponse code (Some error) None.

(** The body of a 500 answer carries the message of the store error. *)
Definition store_error : string := "store error".

End LoanDb.

(** ** Lender review, first router (routes/verification-lender.js) *)

Module VerificationLender.
Import Db LoanDb.

(** [authenticateToken] once the identity provider has accepted the token
    of [userId]: the profile row becomes [req.user]. *)
Definition authenticateToken (failed : bool) (st : Store) (userId : string)
  : option Profile :=
  if failed then None else profiles st !! userId.

(** [requireLenderRole]: [true] when the request is let through. *)
Definition requireLenderRole (user : Profile) : bool :=
  if decide (role user <> "lender" /\ role user <> "admin") then false else true.

Definition mark_approved (now userId : string) (notes conditions : option string)
    (l : Loan) : Loan :=
  {| status := "approved";
     lender_id := Some userId;
     reviewed_at := Some now;
     approved_at := Some now;
     lender_notes := MilestoneRoutes.or_keep notes (lender_notes l);
     approval_conditions := MilestoneRoutes.or_keep conditions (approval_conditions l) |}.

(** POST approve-loan/:loanId. *)
Definition approveLoan (now : string) (flt : Faults) (st : Store)
    (userId : string) (loanId : nat) (notes conditions : option string)
  : Response * Store :=
  match authenticateToken (flt 0) st userId with
  | None => (fail 403 "Invalid token", st)
  | Some user =>
      if negb (requireLenderRole user)
      then (fail 403 "Lender access required", st)
      else
        match (if flt 1 then None else loans st !! loanId) with
        | None => (fail 500 store_error, st)
        | Some currentLoan =>
            if decide (status currentLoan <> "requested")
            then (mkResponse 400 (Some "Loan is not pending approval")
                             (Some (status currentLoan)), st)
            else if flt 2 then (fail 500 store_error, st)
            else
              let st1 := set_loans st
                (alter (mark_approved now userId notes conditions) loanId (loans st)) in
              let st2 := log_history (flt 3) st1 {|
                loan_id := loanId;
                old_status := "requested";
                new_status := "approved";
                changed_by := userId;
                notes := notes |} in
              (ok, st2)
        end
  end.

Definition mark_rejected (now userId reason : string) (l : Loan) : Loan :=
  {| status := "rejected";
     lender_id := Some userId;
     reviewed_at := Some now;
     approved_at := approved_at l;
     lender_notes := Some reason;
     approval_conditions := approval_conditions l |}.

(** POST reject-loan/:loanId. *)
Definition rejectLoan (now : string) (flt : Faults) (st : Store)
    (userId : string) (loanId : nat) (reason : option string)
  : Response * Store :=
  match authenticateToken (flt 0) st userId with
  | None => (fail 403 "Invalid token", st)
  | Some user =>
      if negb (requireLenderRole user)
      then (fail 403 "Lender access required", st)
      else
        match reason with
        | None => (fail 400 "Rejection reason is required", st)
        | Some reason =>
            if decide (reason = "")
            then (fail 400 "Rejection reason is required", st)
            else
              match (if flt 1 then None else loans st !! loanId) with
              | None => (fail 500 store_error, st)
              | Some currentLoan =>
                  if decide (status currentLoan <> "requested")
                  then (mkResponse 400 (Some "Loan is not pending approval")
                                   (Some (status currentLoan)), st)
                  else if flt 2 then (fail 500 store_error, st)
                  else
                    let st1 := set_loans st
                      (alter (mark_rejected now userId reason) loanId (loans st)) in
                    let st2 := log_history (flt 3) st1 {|
                      loan_id := loanId;
                      old_status := "requested";
                      new_status := "rejected";
                      changed_by := userId;
                      notes := Some reason |} in
                    (ok, st2)
              end
        end
  end.

End VerificationLender.

(** ** Lender review, second router (routes/lender.js) *)

Module Lender.
Import Db LoanDb.

(** [profileError || !profile || profile.role !== 'lender']. *)
Definition not_a_lender (failed : bool) (st : Store) (userId : string) : bool :=
  if failed then true
  else match profiles st !! userId with
       | None => true
       | Some profile => if decide (role profile <> "lender") then true else false
       end.

(** [value || null]. *)
Definition or_null (value : option string) : option string :=
  match value with
  | Some s => if decide (s = "") then None else Some s
  | None => None
  end.

Definition mark_approved (now userId : string) (conditions : option string)
    (l : Loan) : Loan :=
  {| status := "approved";
     lender_id := Some userId;
     reviewed_at := Some now;
     approved_at := approved_at l;
     lender_notes := lender_notes l;
     approval_conditions := or_null conditions |}.

(** POST /api/lender/loan/:id/approve. *)
Definition approve (now : string) (flt : Faults) (st : Store)
    (userId : string) (loanId : nat) (approval_conditions : option string)
  : Response * Store :=
  if not_a_lender (flt 0) st userId
  then (fail 403 "Access denied - lender role required", st)
  else
    match (if flt 1 then None else loans st !! loanId) with
    | None => (fail 500 "Failed to approve loan", st)
    | Some _ =>
        (ok, set_loans st
               (alter (mark_approved now userId approval_conditions) loanId (loans st)))
    end.

Definition mark_rejected (now userId : string) (rejection_reason : option string)
    (l : Loan) : Loan :=
  {| status := "rejected";
     lender_id := Some userId;
     reviewed_at := Some now;
     approved_at := approved_at l;
     lender_notes := or_null rejection_reason;
     approval_conditions := approval_conditions l |}.

(** POST /api/lender/loan/:id/reject. *)
Definition reject (now : string) (flt : Faults) (st : Store)
    (userId : string) (loanId : nat) (rejection_reason : option string)
  : Response * Store :=
  if not_a_lender (flt 0) st userId
  then (fail 403 "Access denied - lender role required", st)
  else
    match (if flt 1 then None else loans st !! loanId) with
    | None => (fail 500 "Failed to reject loan", st)
    | Some _ =>
        (ok, set_loans st
               (alter (mark_rejected now userId rejection_reason) loanId (loans st)))
    end.

End Lender.

(** ** Example data *)

Module Scenario.
Import Db Engine.

Definition clock : string := "2024-01-01T00:00:00.000Z".

Definition sme : User := mkUser "sme-1" "sme@example.com".
Definition customer : User := mkUser "customer-1" "customer@example.com".
Definition stranger : User := mkUser "user-9" "other@example.com".

(** An escrow of 10000 with a single milestone of 100%. *)
Definition body : EscrowRoutes.CreateBody :=
  EscrowRoutes.mkCreateBody "Site" "New web site" "customer@example.com"
    (Some 10000%float) None
    (Some [EscrowRoutes.mkMilestoneInput "Delivery" "Everything" (Some 100%float)]).

(** Created, accepted by the customer and funded: escrow 1 is 'active'. *)
Definition funded : list Request :=
  [Create "token" sme body; AcceptInvite customer "token"; Deposit customer 1].

Definition submitted : list Request :=
  funded ++ [Submit sme 1 (Some "Delivered") None].

Definition approved_once : list Request :=
  submitted ++ [Approve customer 1].

(** The approved milestone is rejected, submitted again and approved again. *)
Definition approved_twice : list Request :=
  approved_once ++ [Reject customer 1 (Some "Please redo");
                    Submit sme 1 (Some "Delivered again") None;
                    Approve customer 1].

(** The store call number 2 of a request fails. *)
Definition third_call_fails : Faults := fun n => Nat.eqb n 2.

Definition loan_book : LoanDb.Store :=
  LoanDb.mkStore
    (<[1 := LoanDb.mkLoan "funded" (Some "lender-7") None None None None]>
       (<[2 := LoanDb.mkLoan "requested" None None None None None]> ∅))
    (<["lender-1" := LoanDb.mkProfile "lender"]>
       (<["admin-1" := LoanDb.mkProfile "admin"]>
          (<["sme-1" := LoanDb.mkProfile "sme"]> ∅)))
    [].

End Scenario.

(** ** Totals the specification speaks of *)

Module Totals.
Import Db.




End Totals.

(** ** What one request may do to a row, and the shape of reachable stores *)

Module Steps.
Import Db Engine.

(** The four updates the handlers make on a row of [escrows], each with the
    request that makes it and the guards that request has passed. *)
Inductive escrow_step (req : Request) : Escrow.t -> Escrow.t -> Prop :=
| step_invited now user id e :
    req = SendInvite user id ->
    Escrow.sme_id e = user_id user ->
    escrow_step req e (EscrowRoutes.mark_invited now e)
| step_accepted now user token e :
    req = AcceptInvite user token ->
    Escrow.invite_token e = token ->
    Escrow.customer_email e = user_email user ->
    Escrow.status e <> "pending_deposit" -> Escrow.status e <> "active" ->
    escrow_step req e (EscrowRoutes.mark_accepted now (user_id user) e)
| step_deposited now user id e :
    req = Deposit user id ->
    Escrow.customer_id e = Some (user_id user) ->
    Escrow.status e = "pending_deposit" ->
    escrow_step req e (EscrowRoutes.mark_deposited now e)
| step_released user id e amount :
    req = Approve user id ->
    Escrow.customer_id e = Some (user_id user) ->
    escrow_step req e
      (MilestoneRoutes.set_released
         (Number.to_json (MilestoneRoutes.released_or_zero e
                          + Number.parseFloat amount)%float) e).

(** The three updates the handlers make on a row of [escrow_milestones]. *)
Inductive milestone_step (req : Request) : Milestone.t -> Milestone.t -> Prop :=
| step_submitted now user id evidence_description evidence_url m :
    req = Submit user id evidence_description evidence_url ->
    Milestone.status m = "pending" \/ Milestone.status m = "rejected" ->
    milestone_step req m
      (MilestoneRoutes.mark_submitted now (user_id user)
         evidence_description evidence_url m)
| step_approved now user id m :
    req = Approve user id ->
    Milestone.status m = "submitted" ->
    milestone_step req m (MilestoneRoutes.mark_approved now (user_id user) m)
| step_rejected user id reason m :
    req = Reject user id (Some reason) ->
    reason <> "" ->
    milestone_step req m (MilestoneRoutes.mark_rejected reason m).

(** What holds of every escrow row the handlers have written. *)
Definition escrow_ok (e : Escrow.t) : Prop :=
  (Escrow.status e = "draft" \/ Escrow.status e = "invited"
   \/ Escrow.status e = "pending_deposit" \/ Escrow.status e = "active") /\
  (Escrow.status e = "pending_deposit" \/ Escrow.status e = "active" ->
   is_Some (Escrow.customer_id e)) /\
  (Escrow.status e = "active" ->
   Escrow.deposited_amount e = Escrow.total_amount e).

(** What holds of every milestone row the handlers have written. *)
Definition milestone_ok (m : Milestone.t) : Prop :=
  (Milestone.status m = "pending" \/ Milestone.status m = "submitted"
   \/ Milestone.status m = "approved" \/ Milestone.status m = "rejected") /\
  (Milestone.status m = "submitted" ->
   is_Some (Milestone.submitted_by m) /\ is_Some (Milestone.submitted_at m)) /\
  (Milestone.status m = "approved" ->
   is_Some (Milestone.approved_by m) /\ is_Some (Milestone.released_at m)).

(** Keys come from the sequences, every milestone has its parent escrow,
    and the rows are as the handlers write them. *)
Definition well_formed (st : Store) : Prop :=
  (forall k e, escrows st !! k = Some e -> k < escrows_seq st /\ escrow_ok e) /\
  (forall k m, escrow_milestones st !! k = Some m ->
     k < milestones_seq st /\
     is_Some (escrows st !! Milestone.escrow_id m) /\
     milestone_ok m).

(** The row a create request puts into [escrows]. *)
Definition created_by (inviteToken : string) (user : User)
    (body : EscrowRoutes.CreateBody) (e : Escrow.t) : Prop :=
  Escrow.sme_id e = user_id user /\
  Escrow.customer_id e = None /\
  Escrow.customer_email e = EscrowRoutes.customer_email body /\
  Escrow.total_amount e = EscrowRoutes.total_amount body ≫= Number.to_json /\
  Escrow.deposited_amount e = None /\
  Escrow.released_amount e = None /\
  Escrow.status e = "draft" /\
  Escrow.invite_token e = inviteToken.

(** What a request has done at key [k] of [escrows]: nothing, one of the
    four updates, or the insert of a create request at the next key of the
    sequence. *)
Definition escrows_effect (req : Request) (st st' : Store) (k : nat) : Prop :=
  escrows st' !! k = escrows st !! k
  \/ (exists e e',
        escrows st !! k = Some e /\ escrows st' !! k = Some e' /\
        escrow_step req e e')
  \/ (k = escrows_seq st /\ escrows_seq st' = S k /\
      exists inviteToken user body e',
        req = Create inviteToken user body /\
        escrows st' !! k = Some e' /\ created_by inviteToken user body e').

(** The same for [escrow_milestones]; a create request fills the keys from
    the old value of the sequence up to the new one. *)
Definition milestones_effect (req : Request) (st st' : Store) (k : nat) : Prop :=
  escrow_milestones st' !! k = escrow_milestones st !! k
  \/ (exists m m',
        escrow_milestones st !! k = Some m /\
        escrow_milestones st' !! k = Some m' /\
        milestone_step req m m')
  \/ (milestones_seq st <= k < milestones_seq st' /\
      escrows_seq st' = S (escrows_seq st) /\
      exists inviteToken user body m',
        req = Create inviteToken user body /\
        escrow_milestones st' !! k = Some m' /\
        Milestone.escrow_id m' = escrows_seq st /\
        Milestone.status m' = "pending").

End Steps.

(** ** Settling the milestones of an escrow *)

Module Lifecycle.
Import Db Engine.

(** Each milestone in turn is submitted by the owner and approved by the
    customer. *)
Definition settle (sme customer : User) (ids : list nat) : list Request :=
  flat_map (fun id => [Submit sme id None None; Approve customer id]) ids.

(** What an approval writes into [released_amount], from the value it
    reads there and the amount of the milestone. *)
Definition release (released amount : option float) : option float :=
  Number.to_json (Number.parseFloat (Some (Number.or_else released 0%float))
                  + Number.parseFloat amount)%float.

(** The released amount after the milestones stored under the keys [ids]
    were approved in that order. *)
Definition released_after (st : Store) (released : option float) (ids : list nat)
  : option float :=
  fold_left (fun released id =>
               match escrow_milestones st !! id with
               | Some m => release released (Milestone.amount m)
               | None => released
               end) ids released.

End Lifecycle.

(** ** Verification route and log (routes/verification-lender.js) *)

Module VerifyRoute.
Import Db.

(** A row of [assets]: the owner, the columns the oracle reads, and the
    columns the route writes. *)
Record AssetRow : Type := mkAssetRow {
  user_id : string;
  asset : Verification.Asset;
  verification_status : option string;
  verification_method : option string;
  verification_data : option Verification.VerificationData;
  verified_at : option string;
  verified_by : option string
}.

(** A row of [verification_logs]; [created_at] is given by the store at
    insertion, so the log, newest last, is in the order of [created_at]. *)
Record LogRow : Type := mkLogRow {
  asset_id : nat;
  log_method : string;
  log_status : string;
  log_data : Verification.VerificationData;
  error_message : option string
}.

Record Store : Type := mkStore {
  assets : gmap nat AssetRow;
  verification_logs : list LogRow
}.

Record Response : Type := mkResponse {
  res_status : nat;
  res_error : option string;
  res_verification : option Verification.VerificationResult
}.

Definition record_verification (now : string)
    (verificationData : Verification.VerificationResult) (row : AssetRow)
  : AssetRow :=
  {| user_id := user_id row;
     asset := asset row;
     verification_status := Some (Verification.status verificationData);
     verification_method := Some "mock_oracle";
     verification_data := Some (Verification.data verificationData);
     verified_at :=
       if decide (Verification.status verificationData = "verified")
       then Some now else None;
     verified_by := Some "Mock Oracle Service" |}.

(** POST verify-asset/:assetId, after [authenticateToken] has put the
    profile of [userId] in [req.user]. *)
Definition verifyAsset (now : string) (flt : Faults) (st : Store)
    (userId : string) (user : LoanDb.Profile) (assetId : nat)
  : Response * Store :=
  match (if flt 0 then None else assets st !! assetId) with
  | None => (mkResponse 404 (Some "Asset not found") None, st)
  | Some row =>
      if decide (user_id row <> userId /\ LoanDb.role user <> "admin")
      then (mkResponse 403 (Some "Unauthorized") None, st)
      else
        match Verification.performMockVerification now (asset row) with
        | Js.Threw message => (mkResponse 500 (Some message) None, st)
        | Js.Returned verificationData =>
            if flt 1 then (mkResponse 500 (Some LoanDb.store_error) None, st)
            else
              let st1 :=
                mkStore (alter (record_verification now verificationData)
                               assetId (assets st))
                        (verification_logs st) in
              let entry := {|
                asset_id := assetId;
                log_method := "mock_oracle";
                log_status :=
                  if decide (Verification.status verificationData = "verified")
                  then "success" else "failed";
                log_data := Verification.data verificationData;
                error_message := Verification.error verificationData |} in
              let st2 :=
                if flt 2 then st1
                else mkStore (assets st1) (verification_logs st1 ++ [entry]) in
              (mkResponse 200 None (Some verificationData), st2)
        end
  end.

(** GET logs/:assetId: the log rows of the asset, newest first; [None]
    when the store call fails (answered with 500). *)
Definition getLogs (flt : Faults) (st : Store) (assetId : nat)
  : option (list LogRow) :=
  if flt 0 then None
  else Some (reverse (filter (fun row => asset_id row = assetId)
                             (verification_logs st))).

End VerifyRoute.

(** ** Request validation (middleware/validation.js) *)

Module Validation.

(** The white space and line terminators [String.prototype.trim] strips,
    among the code units below 256. *)
Definition is_white_space (c : Ascii.ascii) : bool :=
  let n := Ascii.nat_of_ascii c in
  (Nat.eqb n 9 || Nat.eqb n 10 || Nat.eqb n 11 || Nat.eqb n 12
   || Nat.eqb n 13 || Nat.eqb n 32 || Nat.eqb n 160)%bool.

Fixpoint trim_start (s : string) : string :=
  match s with
  | EmptyString => EmptyString
  | String c rest => if is_white_space c then trim_start rest else s
  end.

(** The string without its trailing white space. *)
Fixpoint trim_end (s : string) : string :=
  match s with
  | EmptyString => EmptyString
  | String c rest =>
      match trim_end rest with
      | EmptyString => if is_white_space c then EmptyString else String c EmptyString
      | kept => String c kept
      end
  end.

(** [s.trim()]. *)
Definition trim (s : string) : string := trim_end (trim_start s).

(** [req.body] of POST /api/assets/create; [None] is an absent field. *)
Record AssetBody : Type := mkAssetBody {
  type : option string;
  value : option Q;
  description : option string
}.

(** [!type || !['deposit', 'purchase_order', 'invoice'].includes(type)]. *)
Definition invalid_type (t : option string) : bool :=
  match t with
  | None => true
  | Some name =>
      negb (existsb (String.eqb name) ["deposit"; "purchase_order"; "invoice"])
  end.

(** [!value || value <= 0]. *)
Definition invalid_value (v : option Q) : bool :=
  match v with
  | None => true
  | Some q => Qle_bool q 0
  end.

(** [!description || description.trim().length < 10]. *)
Definition invalid_description (d : option string) : bool :=
  match d with
  | None => true
  | Some text => (String.length (trim text) <? 10)%nat
  end.

(** The [errors] array of [validateAssetCreation]. *)
Definition errors (body : AssetBody) : list string :=
  (if invalid_type (type body)
   then ["Invalid asset type. Must be: deposit, purchase_order, or invoice"]
   else [])
  ++ (if invalid_value (value body) then ["Value must be a positive number"] else [])
  ++ (if invalid_description (description body)
      then ["Description must be at least 10 characters"] else []).

(** [validateAssetCreation]: [None] when the request goes on to the route,
    else the status and the details of the answer. *)
Definition validateAssetCreation (body : AssetBody) : option (nat * list string) :=
  match errors body with
  | [] => None
  | details => Some (400, details)
  end.

End Validation.

(** ** Funding a loan (routes/loans.js) *)

Module LoansRoutes.
Import Db.

(** The columns of a [loans] row the funding route reads or writes. *)
Record Loan : Type := mkLoan {
  sme_id : string;
  status : string;
  lender_id : option string;
  funded_at : option string
}.

Record Response : Type := mkResponse {
  res_status : nat;
  res_error : option string;
  res_current_status : option string
}.

Definition mark_funded (now lenderId : string) (l : Loan) : Loan :=
  {| sme_id := sme_id l;
     status := "funded";
     lender_id := Some lenderId;
     funded_at := Some now |}.

(** POST /api/loans/:id/fund; the call to the chain service is not awaited
    and its outcome is only logged. *)
Definition fund (supabaseAdmin : bool) (now : string) (flt : Faults)
    (loans : gmap nat Loan) (user : User) (id : nat)
  : Response * gmap nat Loan :=
  let lenderId := Db.user_id user in
  if negb supabaseAdmin then (mkResponse 503 (Some "Service not configured") None, loans)
  else
    match (if flt 0 then None else loans !! id) with
    | None => (mkResponse 404 (Some "Loan not found") None, loans)
    | Some loan =>
        if decide (status loan <> "requested" /\ status loan <> "approved")
        then (mkResponse 400 (Some "Loan is not available for funding")
                         (Some (status loan)), loans)
        else if flt 1 then (mkResponse 500 (Some "Failed to fund loan") None, loans)
        else (mkResponse 200 None None, alter (mark_funded now lenderId) id loans)
    end.

End LoansRoutes.

(** ** Lender statistics (routes/verification-lender.js, routes/lender.js) *)

Module Stats.

(** What [select('status, amount_requested, amount')] returns of a loan. *)
Record Figures : Type := mkFigures {
  status : string;
  amount_requested : option float;
  amount : option float
}.

Record t : Type := mk {
  total_loans : nat;
  pending_approval : nat;
  approved_loans : nat;
  active_loans : nat;
  rejected_loans : nat;
  funded_loans : nat;
  total_amount_deployed : float;
  active_amount : float
}.

(** [parseFloat(first || second || 0)]. *)
Definition first_or (first second : option float) : float :=
  Number.parseFloat
    (Some (Number.or_else first (Number.or_else second 0%float))).

(** [loans.filter(l => l.status === name).length]. *)
Definition count (name : string) (loans : list Figures) : nat :=
  length (filter (fun l => status l = name) loans).

(** [loans.reduce((sum, loan) => sum + f(loan), 0)]. *)
Definition total (f : Figures -> float) (loans : list Figures) : float :=
  fold_left (fun sum loan => (sum + f loan)%float) loans 0%float.

(** The figures of GET stats in routes/verification-lender.js. *)
Definition verification_lender_stats (loans : list Figures) : t :=
  let amount_of loan := first_or (amount_requested loan) (amount loan) in
  {| total_loans := length loans;
     pending_approval := count "requested" loans;
     approved_loans := count "approved" loans;
     active_loans := count "active" loans;
     rejected_loans := count "rejected" loans;
     funded_loans := count "funded" loans;
     total_amount_deployed := total amount_of loans;
     active_amount :=
       total amount_of (filter (fun l => status l = "active") loans) |}.

(** The figures of GET /api/lender/stats in routes/lender.js. *)
Definition lender_stats (allLoans : list Figures) : t :=
  let amount_of loan := first_or (amount loan) (amount_requested loan) in
  {| total_loans := length allLoans;
     pending_approval := count "requested" allLoans;
     approved_loans := count "approved" allLoans;
     active_loans :=
       length (filter (fun l => status l = "active" \/ status l = "funded") allLoans);
     rejected_loans := count "rejected" allLoans;
     funded_loans := count "funded" allLoans;
     total_amount_deployed :=
       total amount_of
         (filter (fun l => status l = "active" \/ status l = "funded") allLoans);
     active_amount :=
       total amount_of (filter (fun l => status l = "active") allLoans) |}.

End Stats.

(** ** Reading the bearer token (middleware/auth.js and the routers) *)

Module Middleware.

(** [s.split(' ')]. *)
Fixpoint split_space (s : string) : list string :=
  match s with
  | EmptyString => [EmptyString]
  | String c rest =>
      if Ascii.eqb c " "%char then EmptyString :: split_space rest
      else match split_space rest with
           | piece :: pieces => String c piece :: pieces
           | [] => [String c EmptyString]
           end
  end.

Fixpoint drop_chars (n : nat) (s : string) : string :=
  match n, s with
  | S n', String _ rest => drop_chars n' rest
  | _, _ => s
  end.

(** [s.replace(pattern, '')] for a string pattern: the first occurrence is
    removed. *)
Fixpoint remove_first (pattern s : string) : string :=
  if String.prefix pattern s then drop_chars (String.length pattern) s
  else match s with
       | EmptyString => EmptyString
       | String c rest => String c (remove_first pattern rest)
       end.

Fixpoint has_space (s : string) : bool :=
  match s with
  | EmptyString => false
  | String c rest => (Ascii.eqb c " "%char || has_space rest)%bool
  end.

(** [!token]. *)
Definition missing (token : option string) : bool :=
  match token with
  | None => true
  | Some t => (t =? "")%string
  end.

(** The token [authenticate] of middleware/auth.js passes to the identity
    provider, [None] when it answers 401 itself:
    [req.headers.authorization?.replace('Bearer ', '')]. *)
Definition authenticate_token (authorization : option string) : option string :=
  let token := remove_first "Bearer " <$> authorization in
  if missing token then None else token.

(** The same for [authenticateToken] of the lender and loan routers:
    [authHeader && authHeader.split(' ')[1]]. *)
Definition authenticateToken_token (authHeader : option string) : option string :=
  let token :=
    match authHeader with
    | None => None
    | Some header => if (header =? "")%string then None else split_space header !! 1
    end in
  if missing token then None else token.

End Middleware.

(** ** Reading escrows (routes/escrow.js) *)

Module EscrowQueries.
Import Db.

Module MilestoneView.
Record t : Type := mk {
  id : nat;
  title : string;
  description : string;
  amount : option float;
  percentage : option float;
  order_index : nat
}.
End MilestoneView.

Module EscrowView.
Record t : Type := mk {
  id : nat;
  project_name : string;
  project_description : string;
  total_amount : option float;
  customer_email : string;
  status : string;
  invite_token : string;
  created_at : string;
  escrow_milestones : list MilestoneView.t
}.
End EscrowView.

Definition milestone_view (row : nat * Milestone.t) : MilestoneView.t :=
  {| MilestoneView.id := row.1;
     MilestoneView.title := Milestone.title row.2;
     MilestoneView.description := Milestone.description row.2;
     MilestoneView.amount := Milestone.amount row.2;
     MilestoneView.percentage := Milestone.percentage row.2;
     MilestoneView.order_index := Milestone.order_index row.2 |}.

(** The milestone rows embedded under an escrow, in the order of the
    table; the query asks for no order. *)
Definition milestones_of (st : Store) (escrow_id : nat) : list (nat * Milestone.t) :=
  filter (fun row => Milestone.escrow_id row.2 = escrow_id)
         (map_to_list (Db.escrow_milestones st)).

Definition escrow_view (st : Store) (row : nat * Escrow.t) : EscrowView.t :=
  {| EscrowView.id := row.1;
     EscrowView.project_name := Escrow.project_name row.2;
     EscrowView.project_description := Escrow.project_description row.2;
     EscrowView.total_amount := Escrow.total_amount row.2;
     EscrowView.customer_email := Escrow.customer_email row.2;
     EscrowView.status := Escrow.status row.2;
     EscrowView.invite_token := Escrow.invite_token row.2;
     EscrowView.created_at := Escrow.created_at row.2;
     EscrowView.escrow_milestones := milestone_view <$> milestones_of st row.1 |}.

(** GET /api/escrow/token/:token, which asks for no authentication. *)
Definition getByToken (supabaseAdmin : bool) (flt : Faults) (st : Store)
    (token : string) : Response * option EscrowView.t :=
  if negb supabaseAdmin then (fail 503 "Service not configured", None)
  else
    match (if flt 0 then None else single (escrows_by_token st token)) with
    | None => (fail 404 "Invitation not found or expired", None)
    | Some row => (ok 200, Some (escrow_view st row))
    end.

(** [order('created_at', { ascending: false })]; the timestamps are
    ISO-8601 UTC text, whose order is the order of the instants. *)
Definition newer_first (a b : nat * Escrow.t) : Prop :=
  String.leb (Escrow.created_at b.2) (Escrow.created_at a.2) = true.

#[global] Instance newer_first_dec a b : Decision (newer_first a b).
Proof. unfold newer_first. apply _. Defined.

(** The filter of GET /api/escrow/invites. *)
Definition pending_for (userEmail : string) (row : nat * Escrow.t) : Prop :=
  Escrow.customer_email row.2 = userEmail /\
  Escrow.customer_id row.2 = None /\
  (Escrow.status row.2 = "draft" \/ Escrow.status row.2 = "invited").

#[global] Instance pending_for_dec userEmail row : Decision (pending_for userEmail row).
Proof. unfold pending_for. apply _. Defined.

Module InviteView.
Record t : Type := mk {
  id : nat;
  project_name : string;
  project_description : string;
  total_amount : option float;
  status : string;
  invite_token : string;
  created_at : string
}.
End InviteView.

Definition invite_view (row : nat * Escrow.t) : InviteView.t :=
  {| InviteView.id := row.1;
     InviteView.project_name := Escrow.project_name row.2;
     InviteView.project_description := Escrow.project_description row.2;
     InviteView.total_amount := Escrow.total_amount row.2;
     InviteView.status := Escrow.status row.2;
     InviteView.invite_token := Escrow.invite_token row.2;
     InviteView.created_at := Escrow.created_at row.2 |}.

(** GET /api/escrow/invites: the invites answered, newest first. *)
Definition listPendingInvites (supabaseAdmin : bool) (flt : Faults) (st : Store)
    (user : User) : Response * list InviteView.t :=
  if negb supabaseAdmin then (fail 503 "Service not configured", [])
  else if flt 0 then (fail 500 "Failed to fetch invites", [])
  else
    (ok 200,
     invite_view <$>
       merge_sort newer_first
         (filter (pending_for (user_email user)) (map_to_list (escrows st)))).

End EscrowQueries.

(** ** Data for the examples of the later sections *)

Module Examples.

Definition invoice : Verification.Asset :=
  Verification.mkAsset (Some "invoice") (Some 50000%Q) (Some "Invoice 2291 to ACME").

(** An unverified asset of the user "sme-1" and an empty log. *)
Definition asset_book : VerifyRoute.Store :=
  VerifyRoute.mkStore
    (<[1 := VerifyRoute.mkAssetRow "sme-1" invoice None None None None None]> ∅)
    [].

Definition asset_owner : LoanDb.Profile := LoanDb.mkProfile "sme".
Definition asset_visitor : LoanDb.Profile := LoanDb.mkProfile "lender".

(** A request whose description is padded with white space. *)
Definition asset_body : Validation.AssetBody :=
  Validation.mkAssetBody (Some "invoice") (Some 50000%Q)
                         (Some "  Invoice 2291 to ACME ").

Definition lender : Db.User := Db.mkUser "lender-1" "lender@example.com".

Definition loans : gmap nat LoansRoutes.Loan :=
  <[1 := LoansRoutes.mkLoan "sme-1" "approved" None None]> ∅.

Definition figures : list Stats.Figures :=
  [ Stats.mkFigures "requested" (Some 1000%float) None;
    Stats.mkFigures "active" (Some 2000%float) (Some 2500%float);
    Stats.mkFigures "funded" None (Some 4000%float);
    Stats.mkFigures "repaid" (Some 500%float) (Some 500%float) ].

(** The store after one create request. *)
Definition invited : Db.Store :=
  Engine.run Scenario.clock Db.empty
    [Engine.Create "token" Scenario.sme Scenario.body].


End Examples.

(** * Properties *)

(** Splits the equation [H] of a handler along the branches of the handler,
    dropping those that contradict a hypothesis. *)
Ltac handler_cases H :=
  cbn in H; repeat case_match; simplify_eq/=; try discriminate.

(** ** Verification oracle adapter *)

Section VerificationFacts.
Import Verification.

#[local] Arguments Nat.leb : simpl never.

Lemma spec_range_cases type lo hi :
  spec_range type = Some (lo, hi) ->
  (type = "deposit" /\ lo = 1000%Q /\ hi = 1000000%Q) \/
  (type = "purchase_order" /\ lo = 5000%Q /\ hi = 5000000%Q) \/
  (type = "invoice" /\ lo = 1000%Q /\ hi = 2000000%Q).
Proof.
  unfold spec_range.
  destruct (String.eqb_spec type "deposit") as [-> | _];
    [intros [= <- <-]; auto |].
  destruct (String.eqb_spec type "purchase_order") as [-> | _];
    [intros [= <- <-]; auto |].
  destruct (String.eqb_spec type "invoice") as [-> | _];
    [intros [= <- <-]; auto 6 | discriminate].
Qed.

(** For a rule set with a positive lower bound, the checks pass exactly
    when the asset meets the pass condition of the specification.  The
    boolean test on [hasValidDescription] never sees a non-boolean there
    without [hasRequiredFields] being false already. *)
Lemma passed_iff now asset lo hi :
  (0 < lo)%Q ->
  passed (make_checks now asset (mkRules lo hi ["description"; "value"])) = true
  <-> spec_passes asset lo hi.
Proof.
  intros Hlo. unfold passed, make_checks, spec_passes.
  destruct asset as [ty v d]. cbn.
  rewrite !andb_true_r.
  destruct d as [d|]; cbn.
  2:{ split; [discriminate | intros (? & ? & [=] & _)]. }
  destruct (String.eqb_spec d "") as [-> | Hd]; cbn.
  { split; [discriminate |].
    intros (? & ? & [= <-] & _ & _ & _ & Hlen). cbn in Hlen. lia. }
  destruct v as [v|]; cbn.
  2:{ split; [discriminate | intros (? & ? & _ & [=] & _)]. }
  unfold value_in_range.
  split.
  - intros H. apply andb_prop in H as [H1 H2]. apply andb_prop in H2 as [H2 H3].
    apply andb_prop in H2 as [H2 H4].
    apply Qle_bool_iff in H2, H4. apply Nat.leb_le in H3.
    exists d, v. auto.
  - intros (d' & v' & [= <-] & [= <-] & H1 & H2 & H3).
    apply Qle_bool_iff in H1 as H1', H2 as H2'. rewrite H1', H2'.
    apply Nat.leb_le in H3. rewrite H3. cbn.
    destruct (Qeq_bool v 0) eqn:E; [| reflexivity].
    apply Qeq_bool_iff in E. rewrite E in H1. lra.
Qed.

Lemma select_rules_known ty v d lo hi :
  spec_range ty = Some (lo, hi) ->
  select_rules (mkAsset (Some ty) v d)
  = Js.Own (mkRules lo hi ["description"; "value"]) /\ (0 < lo)%Q.
Proof.
  intros H. apply spec_range_cases in H as [H | [H | H]];
    destruct H as (-> & -> & ->); split; reflexivity.
Qed.

(** C8. [verify] answers with a verdict for every asset of one of the three
    types, and the verdict is 'verified' with confidence 0.95 and risk
    'low' exactly when description and value are present, the value lies in
    the range of the type and the description has at least ten characters;
    otherwise it is 'verification_failed' with confidence 0.45, risk 'high'
    and an error message. *)
Theorem verify_verdict (now : string) (asset : Asset) (type : string) (lo hi : Q) :
  asset_type asset = Some type ->
  spec_range type = Some (lo, hi) ->
  exists r,
    performMockVerification now asset = Js.Returned r /\
    ((status r = "verified" /\ confidence (data r) = 0.95%Q
      /\ riskScore (data r) = "low")
     <-> spec_passes asset lo hi) /\
    (~ spec_passes asset lo hi ->
     status r = "verification_failed" /\ confidence (data r) = 0.45%Q
     /\ riskScore (data r) = "high" /\ error r <> None).
Proof.
  intros Hty Hrange. destruct asset as [ty v d]. cbn in Hty. subst ty.
  destruct (select_rules_known type v d lo hi Hrange) as [Hsel Hlo].
  unfold performMockVerification. rewrite Hsel.
  pose proof (passed_iff now (mkAsset (Some type) v d) lo hi Hlo) as Hp.
  destruct (passed _) eqn:E; eexists; (split; [reflexivity |]); cbn.
  - split; [split; [intros _; apply Hp; reflexivity | auto] |].
    intros Hn. exfalso. apply Hn, Hp. reflexivity.
  - split; [split; [intros [[=] _] | intros Hs; apply Hp in Hs; discriminate] |].
    intros _. repeat split; discriminate.
Qed.

(** The two cases the specification lists: an invoice of value 50000 with a
    description of twenty characters is verified with confidence 0.95, an
    invoice of value 500 fails verification. *)
Lemma verify_verdict_invoices :
  let good := mkAsset (Some "invoice") (Some 50000%Q) (Some "Invoice 2291 to ACME") in
  let low := mkAsset (Some "invoice") (Some 500%Q) (Some "Invoice 2291 to ACME") in
  String.length "Invoice 2291 to ACME" = 20 /\
  (exists r, performMockVerification "2024-01-01T00:00:00.000Z" good = Js.Returned r
             /\ status r = "verified" /\ confidence (data r) = 0.95%Q) /\
  (exists r, performMockVerification "2024-01-01T00:00:00.000Z" low = Js.Returned r
             /\ status r = "verification_failed").
Proof.
  intros good low. split; [reflexivity |]. split.
  - destruct (verify_verdict "2024-01-01T00:00:00.000Z" good "invoice"
                1000%Q 2000000%Q eq_refl eq_refl) as (r & Hr & Hiff & _).
    exists r. split; [exact Hr |].
    assert (Hp : spec_passes good 1000 2000000).
    { exists "Invoice 2291 to ACME", 50000%Q.
      repeat split; [vm_compute; discriminate .. | vm_compute; lia]. }
    apply Hiff in Hp as (? & ? & _). auto.
  - destruct (verify_verdict "2024-01-01T00:00:00.000Z" low "invoice"
                1000%Q 2000000%Q eq_refl eq_refl) as (r & Hr & _ & Hfail).
    exists r. split; [exact Hr |].
    apply Hfail. intros (d & v & _ & [= <-] & Hlo & _).
    vm_compute in Hlo. apply Hlo. reflexivity.
Defined.

Lemma own_property_unknown key :
  key ∉ ["deposit"; "purchase_order"; "invoice"] ->
  Js.own_property verificationRules key = None.
Proof.
  rewrite !not_elem_of_cons. intros (H1 & H2 & H3 & _).
  unfold verificationRules. cbn [Js.own_property].
  rewrite !(proj2 (String.eqb_neq _ _)) by congruence. reflexivity.
Qed.

Lemma existsb_eqb_elem_of key (names : list string) :
  existsb (String.eqb key) names = true <-> key ∈ names.
Proof.
  rewrite existsb_exists. split.
  - intros (name & Hin & Heq). apply String.eqb_eq in Heq as ->.
    by apply list_elem_of_In.
  - intros Hin. exists key. split; [by apply list_elem_of_In | apply String.eqb_refl].
Qed.

(** What the lookup [verificationRules[asset.type]] finds for a type that
    is none of the three rule sets. *)
Lemma get_unknown key :
  key ∉ ["deposit"; "purchase_order"; "invoice"] ->
  (key ∉ Js.object_prototype_keys -> Js.get verificationRules key = Js.Missing) /\
  (key ∈ Js.object_prototype_keys -> Js.get verificationRules key = Js.Inherited key).
Proof.
  intros Hkey. unfold Js.get. rewrite (own_property_unknown key Hkey).
  destruct (existsb (String.eqb key) Js.object_prototype_keys) eqn:E; split.
  - intros Hn. apply existsb_eqb_elem_of in E. contradiction.
  - reflexivity.
  - reflexivity.
  - intros Hin. apply existsb_eqb_elem_of in Hin. congruence.
Qed.

(** C10, as the code has it.  For an asset whose type is none of 'deposit',
    'purchase_order' and 'invoice' there are two cases.  When the type is
    not the name of a member inherited from [Object.prototype], [verify]
    falls back to the deposit rule set and answers with a verdict under its
    thresholds: 'verified' with confidence 0.95 and risk 'low' exactly when
    description and value are present, the value lies in [1000, 1000000]
    and the description has at least ten characters, else
    'verification_failed' with confidence 0.45, risk 'high' and an error.
    When the type is such a name, [verify] throws. *)
Theorem verify_falls_back_to_deposit (now : string) (asset : Asset) :
  let key := Js.property_key (asset_type asset) in
  key ∉ ["deposit"; "purchase_order"; "invoice"] ->
  (key ∉ Js.object_prototype_keys ->
   select_rules asset = Js.Own deposit_rules /\
   exists r,
     performMockVerification now asset = Js.Returned r /\
     ((status r = "verified" /\ confidence (data r) = 0.95%Q
       /\ riskScore (data r) = "low")
      <-> spec_passes asset 1000 1000000) /\
     (~ spec_passes asset 1000 1000000 ->
      status r = "verification_failed" /\ confidence (data r) = 0.45%Q
      /\ riskScore (data r) = "high" /\ error r <> None)) /\
  (key ∈ Js.object_prototype_keys ->
   exists message, performMockVerification now asset = Js.Threw message).
Proof.
  intros key Hkey. destruct (get_unknown key Hkey) as [Hmissing Hinherited]. split.
  - intros Hn. unfold performMockVerification, select_rules. fold key.
    rewrite (Hmissing Hn). split; [reflexivity |].
    unfold deposit_rules.
    pose proof (passed_iff now asset 1000 1000000 eq_refl) as Hp.
    destruct (passed _) eqn:E; eexists; (split; [reflexivity |]); cbn.
    + split; [split; [intros _; apply Hp; reflexivity | auto] |].
      intros Hnot. exfalso. apply Hnot, Hp. reflexivity.
    + split; [split; [intros [[=] _] | intros Hs; apply Hp in Hs; discriminate] |].
      intros _. repeat split; discriminate.
  - intros Hin. unfold performMockVerification, select_rules. fold key.
    rewrite (Hinherited Hin). by eexists.
Qed.

(** An asset of the unknown type 'equipment' is verified under the deposit
    thresholds, and one of value 500 fails under them. *)
Lemma verify_falls_back_to_deposit_witness :
  let good := mkAsset (Some "equipment") (Some 50000%Q) (Some "Invoice 2291 to ACME") in
  let low := mkAsset (Some "equipment") (Some 500%Q) (Some "Invoice 2291 to ACME") in
  (exists r, performMockVerification "2024-01-01T00:00:00.000Z" good = Js.Returned r
             /\ status r = "verified" /\ confidence (data r) = 0.95%Q) /\
  (exists r, performMockVerification "2024-01-01T00:00:00.000Z" low = Js.Returned r
             /\ status r = "verification_failed").
Proof.
  intros good low.
  assert (Hkey : "equipment" ∉ ["deposit"; "purchase_order"; "invoice"])
    by (rewrite !not_elem_of_cons; repeat split; [discriminate .. | apply not_elem_of_nil]).
  assert (Hown : "equipment" ∉ Js.object_prototype_keys).
  { intros Hin. apply existsb_eqb_elem_of in Hin. vm_compute in Hin. discriminate. }
  split.
  - destruct (verify_falls_back_to_deposit "2024-01-01T00:00:00.000Z" good Hkey)
      as [Hfallback _].
    destruct (Hfallback Hown) as (_ & r & Hr & Hiff & _).
    exists r. split; [exact Hr |].
    assert (Hp : spec_passes good 1000 1000000).
    { exists "Invoice 2291 to ACME", 50000%Q.
      repeat split; [vm_compute; discriminate .. | vm_compute; lia]. }
    apply Hiff in Hp as (? & ? & _). auto.
  - destruct (verify_falls_back_to_deposit "2024-01-01T00:00:00.000Z" low Hkey)
      as [Hfallback _].
    destruct (Hfallback Hown) as (_ & r & Hr & _ & Hfail).
    exists r. split; [exact Hr |].
    apply Hfail. intros (d & v & _ & [= <-] & Hlo & _).
    vm_compute in Hlo. apply Hlo. reflexivity.
Defined.

(** C10 does not hold for every type outside the three: for the type
    'constructor' the lookup yields the member inherited from
    [Object.prototype], the deposit rule set is not taken and [verify]
    throws, although value and description meet the deposit thresholds. *)
Lemma verify_throws_on_inherited_type :
  let asset := mkAsset (Some "constructor") (Some 50000%Q) (Some "Invoice 2291 to ACME") in
  spec_range "constructor" = None /\
  spec_passes asset 1000 1000000 /\
  select_rules asset = Js.Inherited "constructor" /\
  performMockVerification "2024-01-01T00:00:00.000Z" asset
  = Js.Threw "Cannot read properties of undefined (reading 'every')".
Proof.
  intros asset. split; [reflexivity |]. split; [| split; reflexivity].
  exists "Invoice 2291 to ACME", 50000%Q.
  repeat split; [vm_compute; discriminate .. | vm_compute; lia].
Qed.

End VerificationFacts.

(** ** Double-precision numbers *)

Section FloatFacts.
Import SpecFloat.

Lemma prim_of_nan x : FloatOps.Prim2SF x = S754_nan -> x = nan.
Proof. intros H. apply FloatAxioms.Prim2SF_inj. rewrite H. reflexivity. Qed.

(** NaN absorbs sums and products. *)
Lemma add_nan_l x : (nan + x)%float = nan.
Proof. apply prim_of_nan. rewrite FloatAxioms.add_spec. reflexivity. Qed.

Lemma add_nan_r x : (x + nan)%float = nan.
Proof.
  apply prim_of_nan. rewrite FloatAxioms.add_spec.
  change (FloatOps.Prim2SF nan) with S754_nan.
  by destruct (FloatOps.Prim2SF x).
Qed.

Lemma mul_nan_l x : (nan * x)%float = nan.
Proof. apply prim_of_nan. rewrite FloatAxioms.mul_spec. reflexivity. Qed.








End FloatFacts.

(** ** Escrow creation *)

Section CreateFacts.
Import Db EscrowRoutes Totals.

Lemma insert_all_lookup_lt {A} (rows : list A) key (table : gmap nat A) j :
  j < key -> insert_all rows key table !! j = table !! j.
Proof.
  revert key table. induction rows as [|row rows IH]; intros key table Hj; cbn.
  - reflexivity.
  - rewrite IH by lia. apply lookup_insert_ne. lia.
Qed.

Lemma insert_all_lookup {A} (rows : list A) key (table : gmap nat A) i row :
  rows !! i = Some row -> insert_all rows key table !! (key + i) = Some row.
Proof.
  revert key table i. induction rows as [|r rows IH]; intros key table i H.
  - discriminate.
  - destruct i as [|i]; cbn in *.
    + injection H as ->. rewrite Nat.add_0_r, insert_all_lookup_lt by lia.
      apply lookup_insert_eq.
    + replace (key + S i) with (S key + i) by lia. apply IH, H.
Qed.

Lemma mapi_from_lookup {A B} (f : A -> nat -> B) index (l : list A) i a :
  l !! i = Some a -> mapi_from f index l !! i = Some (f a (index + i)).
Proof.
  revert index i. induction l as [|x l IH]; intros index i H.
  - discriminate.
  - destruct i as [|i]; cbn in *.
    + injection H as ->. by rewrite Nat.add_0_r.
    + replace (index + S i) with (S index + i) by lia. apply IH, H.
Qed.

Lemma milestonesData_lookup escrow_id total ms i m :
  ms !! i = Some m ->
  exists row,
    milestonesData escrow_id total ms !! i = Some row /\
    Milestone.escrow_id row = escrow_id /\
    Milestone.amount row
    = Number.to_json (Number.parseFloat (percentage m) / 100
                      * Number.parseFloat total)%float /\
    Milestone.percentage row = Number.to_json (Number.parseFloat (percentage m)) /\
    Milestone.order_index row = i + 1 /\
    Milestone.status row = "pending".
Proof.
  intros Hi. unfold milestonesData, mapi.
  eexists. split; [apply mapi_from_lookup, Hi |]. cbn. repeat split.
Qed.

Lemma mapi_from_length {A B} (f : A -> nat -> B) index (l : list A) :
  length (mapi_from f index l) = length l.
Proof.
  revert index. induction l as [|a l IH]; intros index; cbn; [reflexivity |].
  by rewrite IH.
Qed.

Lemma milestonesData_length escrow_id total ms :
  length (milestonesData escrow_id total ms) = length ms.
Proof. apply mapi_from_length. Qed.


Lemma log_activity_milestones failed st row :
  escrow_milestones (log_activity failed st row) = escrow_milestones st.
Proof. by destruct failed. Qed.

Lemma log_activity_escrows failed st row :
  escrows (log_activity failed st row) = escrows st.
Proof. by destruct failed. Qed.




(** A milestone without a percentage is not turned away either:
    [parseFloat] answers NaN, every comparison with NaN is false, and the
    milestone is stored with NULL for amount and percentage. *)
Lemma create_accepts_missing_percentage :
  let ms := [mkMilestoneInput "Design" "Wireframes" None] in
  let body := mkCreateBody "Site" "New web site" "customer@example.com"
                           (Some 10000%float) None (Some ms) in
  let res := create true "2024-01-01T00:00:00.000Z" no_faults "token" Db.empty
                    (mkUser "sme-1" "sme@example.com") body in
  res_status res.1 = 201 /\
  exists row,
    escrow_milestones res.2 !! 1 = Some row /\
    Milestone.amount row = None /\ Milestone.percentage row = None.
Proof.
  intros ms body res. split; [vm_compute; reflexivity |].
  eexists. split; [vm_compute; reflexivity |]. split; reflexivity.
Qed.





End CreateFacts.

(** ** Accepting an invite *)

Section InviteFacts.
Import Db EscrowRoutes.

Lemma single_Some {A} (rows : list A) (row : A) :
  single rows = Some row -> rows = [row].
Proof. destruct rows as [|r [|]]; cbn; congruence. Qed.

(** A token that locates an escrow locates a row of the table that carries
    it. *)
Lemma escrows_by_token_single st token id escrow :
  single (escrows_by_token st token) = Some (id, escrow) ->
  escrows st !! id = Some escrow /\ Escrow.invite_token escrow = token.
Proof.
  intros H. apply single_Some in H.
  assert (Hin : (id, escrow) ∈ escrows_by_token st token)
    by (rewrite H; apply list_elem_of_here).
  unfold escrows_by_token in Hin.
  apply list_elem_of_filter in Hin as [Htoken Hin].
  apply elem_of_map_to_list in Hin. auto.
Qed.

(** C6, as the code has it.  When the token locates an escrow and the email
    of the caller is not the customer_email of that escrow, the call is
    answered with 403 whatever the status of the escrow, and nothing is
    written; when the token locates no escrow the call is answered with
    404, whatever the email of the caller. *)
Theorem acceptInvite_wrong_email
    (now : string) (flt : Faults) (st : Store) (user : User) (token : string) :
  (forall id escrow,
     flt 0 = false ->
     single (escrows_by_token st token) = Some (id, escrow) ->
     Escrow.customer_email escrow <> user_email user ->
     acceptInvite true now flt st user token
     = (fail 403 "This invitation was sent to a different email address", st)) /\
  (single (escrows_by_token st token) = None ->
   acceptInvite true now flt st user token
   = (fail 404 "Invalid or expired invite", st)).
Proof.
  unfold acceptInvite. cbn. split.
  - intros id escrow -> -> Hemail. by rewrite decide_True.
  - intros ->. by destruct (flt 0).
Qed.

End InviteFacts.

Section InviteExamples.
Import Db EscrowRoutes Engine Scenario.

Lemma acceptInvite_wrong_email_witness :
  let st := run clock Db.empty funded in
  (Escrow.status <$> escrows st !! 1) = Some "active" /\
  acceptInvite true clock no_faults st stranger "token"
  = (fail 403 "This invitation was sent to a different email address", st).
Proof.
  intros st. split; [vm_compute; reflexivity |].
  assert (Hescrow : exists escrow,
             single (escrows_by_token st "token") = Some (1, escrow) /\
             Escrow.customer_email escrow = "customer@example.com").
  { eexists. split; vm_compute; reflexivity. }
  destruct Hescrow as (escrow & Hsingle & Hemail).
  apply (proj1 (acceptInvite_wrong_email clock no_faults st stranger "token")
               1 escrow eq_refl Hsingle).
  rewrite Hemail. discriminate.
Defined.

(** C6 does not hold for a token that matches no escrow: the caller, whose
    email is the customer_email of no escrow in the store, is answered with
    404, not 403. *)
Lemma acceptInvite_unknown_token_not_found :
  let st := run clock Db.empty funded in
  let res := acceptInvite true clock no_faults st stranger "no-such-token" in
  (forall id escrow, escrows st !! id = Some escrow ->
     Escrow.customer_email escrow <> user_email stranger) /\
  escrows_by_token st "no-such-token" = [] /\
  res = (fail 404 "Invalid or expired invite", st) /\
  res_status res.1 <> 403.
Proof.
  intros st res. split; [| split; [| split]].
  - intros id escrow H.
    assert (Hall : map_Forall (fun _ e => Escrow.customer_email e
                                          = "customer@example.com") (escrows st)).
    { apply map_Forall_to_list. vm_compute. repeat constructor. }
    rewrite (Hall id escrow H). discriminate.
  - vm_compute. reflexivity.
  - vm_compute. reflexivity.
  - vm_compute. discriminate.
Qed.

End InviteExamples.

(** ** The milestone routes, one request at a time *)

Section MilestoneFacts.
Import Db MilestoneRoutes.

(** A submit request answered with 200 found the milestone 'pending' or
    'rejected', under an escrow of the caller, and left it 'submitted'. *)
Lemma submit_success now flt st user id evidence_description evidence_url r st' :
  submit true now flt st user id evidence_description evidence_url = (r, st') ->
  res_status r = 200 ->
  exists milestone escrow,
    escrow_milestones st !! id = Some milestone /\
    escrows st !! Milestone.escrow_id milestone = Some escrow /\
    Escrow.sme_id escrow = user_id user /\
    (Milestone.status milestone = "pending"
     \/ Milestone.status milestone = "rejected") /\
    escrow_milestones st'
    = alter (mark_submitted now (user_id user) evidence_description evidence_url)
            id (escrow_milestones st) /\
    escrows st' = escrows st.
Proof.
  unfold submit, fetch_milestone. intros H Hok. handler_cases H.
  eexists _, _. rewrite log_activity_milestones, log_activity_escrows. cbn.
  repeat split; try eassumption.
  - by apply dec_stable.
  - destruct (decide (Milestone.status t = "pending")) as [|Hp]; [by left |].
    destruct (decide (Milestone.status t = "rejected")) as [|Hr]; [by right |].
    exfalso. naive_solver.
Qed.

(** An approve request answered with 200 found the milestone 'submitted',
    under an escrow whose customer is the caller, left it 'approved' and
    wrote the previous released amount plus the amount of the milestone
    into the escrow. *)
Lemma approve_success now flt st user id r st' :
  approve true now flt st user id = (r, st') ->
  res_status r = 200 ->
  exists milestone escrow,
    escrow_milestones st !! id = Some milestone /\
    escrows st !! Milestone.escrow_id milestone = Some escrow /\
    Escrow.customer_id escrow = Some (user_id user) /\
    Milestone.status milestone = "submitted" /\
    escrow_milestones st'
    = alter (mark_approved now (user_id user)) id (escrow_milestones st) /\
    escrows st'
    = alter (set_released
               (Number.to_json (released_or_zero escrow
                                + Number.parseFloat (Milestone.amount milestone))%float))
            (Milestone.escrow_id milestone) (escrows st).
Proof.
  unfold approve, fetch_milestone. intros H Hok. handler_cases H.
  eexists _, _. rewrite log_activity_milestones, log_activity_escrows. cbn.
  repeat split; try eassumption; by apply dec_stable.
Qed.

(** The first half of C1: a successful approval writes into released_amount
    the released amount it read plus the amount of the milestone, added in
    double precision. *)
Lemma approve_releases_amount now flt st user id r st' :
  approve true now flt st user id = (r, st') ->
  res_status r = 200 ->
  exists milestone escrow escrow',
    escrow_milestones st !! id = Some milestone /\
    escrows st !! Milestone.escrow_id milestone = Some escrow /\
    escrows st' !! Milestone.escrow_id milestone = Some escrow' /\
    Escrow.released_amount escrow'
    = Number.to_json (released_or_zero escrow
                      + Number.parseFloat (Milestone.amount milestone))%float /\
    Escrow.total_amount escrow' = Escrow.total_amount escrow /\
    (Milestone.status <$> escrow_milestones st' !! id) = Some "approved".
Proof.
  intros H Hok.
  destruct (approve_success _ _ _ _ _ _ _ H Hok)
    as (milestone & escrow & Hm & He & _ & _ & Hms' & Hes').
  exists milestone, escrow. eexists.
  split; [exact Hm |]. split; [exact He |].
  rewrite Hes', Hms', !lookup_alter_eq, He, Hm. cbn. repeat split.
Qed.

(** A reject request answered with 200 leaves the milestone 'rejected'
    whatever its status was: the handler reads no status. *)
Lemma reject_success now flt st user id rejection_reason r st' :
  reject true now flt st user id rejection_reason = (r, st') ->
  res_status r = 200 ->
  exists milestone escrow reason,
    rejection_reason = Some reason /\
    escrow_milestones st !! id = Some milestone /\
    escrows st !! Milestone.escrow_id milestone = Some escrow /\
    Escrow.customer_id escrow = Some (user_id user) /\
    escrow_milestones st' = alter (mark_rejected reason) id (escrow_milestones st) /\
    escrows st' = escrows st.
Proof.
  unfold reject, fetch_milestone. intros H Hok. handler_cases H.
  eexists _, _, _. rewrite log_activity_milestones, log_activity_escrows. cbn.
  repeat split; try eassumption; by apply dec_stable.
Qed.

(** C9. When the first two store calls of an approve request succeed and
    the third, the update of released_amount, fails, the request is
    answered with 500 while the milestone is stored as 'approved' and the
    escrows table, released_amount included, is as it was. *)
Theorem approve_partial_write
    (now : string) (flt : Faults) (st : Store) (user : User) (id : nat)
    (milestone : Milestone.t) (escrow : Escrow.t) :
  escrow_milestones st !! id = Some milestone ->
  escrows st !! Milestone.escrow_id milestone = Some escrow ->
  Escrow.customer_id escrow = Some (user_id user) ->
  Milestone.status milestone = "submitted" ->
  flt 0 = false -> flt 1 = false -> flt 2 = true ->
  exists r st',
    approve true now flt st user id = (r, st') /\
    res_status r = 500 /\ res_success r = false /\
    (Milestone.status <$> escrow_milestones st' !! id) = Some "approved" /\
    escrows st' = escrows st /\
    escrows st' !! Milestone.escrow_id milestone = Some escrow /\
    escrow_activities st' = escrow_activities st.
Proof.
  intros Hm He Hcustomer Hstatus F0 F1 F2.
  unfold approve, fetch_milestone. cbn. rewrite F0, Hm, He, F1, F2.
  rewrite decide_False by (intros Hne; by apply Hne).
  rewrite decide_False by (intros Hne; by apply Hne).
  eexists _, _. split; [reflexivity |]. cbn.
  rewrite lookup_alter_eq, Hm. cbn. repeat split. exact He.
Qed.

End MilestoneFacts.

(** ** The escrow routes, one request at a time *)

Section EscrowFacts.
Import Db EscrowRoutes.

(** An accept request answered with 200 found the escrow in a status other
    than 'pending_deposit' and 'active' and left it 'pending_deposit'. *)
Lemma acceptInvite_success now flt st user token r st' :
  acceptInvite true now flt st user token = (r, st') ->
  res_status r = 200 ->
  exists id escrow,
    escrows st !! id = Some escrow /\
    Escrow.invite_token escrow = token /\
    Escrow.customer_email escrow = user_email user /\
    Escrow.status escrow <> "pending_deposit" /\ Escrow.status escrow <> "active" /\
    escrows st' = alter (mark_accepted now (user_id user)) id (escrows st).
Proof.
  unfold acceptInvite. intros H Hok. handler_cases H.
  match goal with
  | Hs : single _ = Some (?id, ?e) |- _ =>
      apply escrows_by_token_single in Hs as [Hrow Htoken]; exists id, e
  end.
  rewrite log_activity_escrows. cbn.
  repeat split; try eassumption; try by apply dec_stable.
  all: naive_solver.
Qed.

(** A deposit request answered with 200 found the escrow 'pending_deposit'
    and left it 'active' with deposited_amount set to total_amount. *)
Lemma deposit_success now flt st user id r st' :
  deposit true now flt st user id = (r, st') ->
  res_status r = 200 ->
  exists escrow,
    escrows st !! id = Some escrow /\
    Escrow.customer_id escrow = Some (user_id user) /\
    Escrow.status escrow = "pending_deposit" /\
    escrows st' = alter (mark_deposited now) id (escrows st).
Proof.
  unfold deposit. intros H Hok. handler_cases H.
  eexists. rewrite log_activity_escrows. cbn.
  repeat split; try eassumption; by apply dec_stable.
Qed.

(** An invite request answered with 200 leaves the escrow 'invited'
    whatever its status was: the handler reads no status. *)
Lemma sendInvite_success now flt st user id r st' :
  sendInvite true now flt st user id = (r, st') ->
  res_status r = 200 ->
  exists escrow,
    escrows st !! id = Some escrow /\
    Escrow.sme_id escrow = user_id user /\
    escrows st' = alter (mark_invited now) id (escrows st).
Proof.
  unfold sendInvite. intros H Hok. handler_cases H.
  eexists. rewrite log_activity_escrows. cbn.
  repeat split; try eassumption.
Qed.

End EscrowFacts.

(** ** Sequences of requests *)

Section EngineFacts.
Import Db Engine Scenario.

Lemma run_reachable now st reqs :
  reachable st -> reachable (run now st reqs).
Proof.
  unfold run. revert st. induction reqs as [|req reqs IH]; intros st Hst; cbn.
  - exact Hst.
  - apply IH. by constructor.
Qed.

Lemma approve_partial_write_witness :
  let st := run clock Db.empty submitted in
  let res := MilestoneRoutes.approve true clock third_call_fails st customer 1 in
  (Milestone.status <$> escrow_milestones st !! 1) = Some "submitted" /\
  (Escrow.released_amount <$> escrows st !! 1) = Some None /\
  res_status res.1 = 500 /\
  (Milestone.status <$> escrow_milestones res.2 !! 1) = Some "approved" /\
  (Escrow.released_amount <$> escrows res.2 !! 1) = Some None.
Proof.
  intros st res.
  split; [vm_compute; reflexivity |]. split; [vm_compute; reflexivity |].
  assert (Hrows : exists milestone escrow,
             escrow_milestones st !! 1 = Some milestone /\
             Milestone.escrow_id milestone = 1 /\
             escrows st !! 1 = Some escrow /\
             Escrow.customer_id escrow = Some (user_id customer) /\
             Milestone.status milestone = "submitted" /\
             Escrow.released_amount escrow = None).
  { eexists _, _. repeat split; vm_compute; reflexivity. }
  destruct Hrows as (milestone & escrow & Hm & Hid & He & Hc & Hs & Hr).
  rewrite <- Hid in He.
  destruct (approve_partial_write
              clock third_call_fails st customer 1 milestone escrow
              Hm He Hc Hs eq_refl eq_refl eq_refl)
    as (r & st' & Hres & H500 & _ & Happroved & _ & Hescrow & _).
  rewrite Hid in Hescrow.
  unfold res. rewrite Hres. cbn [fst snd].
  split; [exact H500 |]. split; [exact Happroved |].
  by rewrite Hescrow, <- Hr.
Defined.

(** C1. The bound released_amount <= total_amount is broken by a reachable
    state: a milestone of 10000, the whole of the escrow, is approved,
    rejected, submitted again and approved again, every request being
    answered with success, and the escrow of total 10000 ends with a
    released amount of 20000. *)
Theorem released_amount_exceeds_total :
  let st := run clock Db.empty approved_twice in
  reachable st /\
  serve clock Db.empty approved_twice = [201; 200; 200; 200; 200; 200; 200; 200] /\
  exists escrow,
    escrows st !! 1 = Some escrow /\
    Escrow.total_amount escrow = Some 10000%float /\
    Escrow.released_amount escrow = Some 20000%float /\
    MilestoneRoutes.released_or_zero escrow = 20000%float /\
    (MilestoneRoutes.released_or_zero escrow
     <=? Number.parseFloat (Escrow.total_amount escrow))%float = false /\
    Number.exact 10000%float = Some 10000%Q /\
    Number.exact 20000%float = Some 20000%Q.
Proof.
  intros st. split; [apply run_reachable; constructor |].
  split; [vm_compute; reflexivity |].
  eexists. split; [vm_compute; reflexivity |].
  repeat split; vm_compute; reflexivity.
Qed.

(** C2. 'approved' is not terminal: in a reachable state whose milestone 1
    is 'approved', a reject request of the customer is answered with
    success and leaves the milestone 'rejected'. *)
Theorem reject_reopens_approved_milestone :
  let st := run clock Db.empty approved_once in
  let res := MilestoneRoutes.reject true clock no_faults st customer 1
               (Some "Please redo") in
  reachable st /\
  (Milestone.status <$> escrow_milestones st !! 1) = Some "approved" /\
  res_status res.1 = 200 /\
  (Milestone.status <$> escrow_milestones res.2 !! 1) = Some "rejected".
Proof.
  intros st res. split; [apply run_reachable; constructor |].
  repeat split; vm_compute; reflexivity.
Qed.

(** C3. 'active' is not terminal: in a reachable state whose escrow 1 is
    'active', an invite request of its owner is answered with success and
    leaves the escrow 'invited'. *)
Theorem sendInvite_moves_escrow_out_of_active :
  let st := run clock Db.empty funded in
  let res := EscrowRoutes.sendInvite true clock no_faults st sme 1 in
  reachable st /\
  (Escrow.status <$> escrows st !! 1) = Some "active" /\
  res_status res.1 = 200 /\
  (Escrow.status <$> escrows res.2 !! 1) = Some "invited".
Proof.
  intros st res. split; [apply run_reachable; constructor |].
  repeat split; vm_compute; reflexivity.
Qed.

End EngineFacts.

(** ** Lender review *)

Section LenderFacts.
Import Db LoanDb Scenario.

Lemma requireLenderRole_true user :
  VerificationLender.requireLenderRole user = true
  <-> role user = "lender" \/ role user = "admin".
Proof.
  unfold VerificationLender.requireLenderRole.
  destruct (decide (role user <> "lender" /\ role user <> "admin")) as [[Hl Ha]|Hn].
  - split; [discriminate | intros [|]; contradiction].
  - split; [intros _ | reflexivity].
    destruct (decide (role user = "lender")) as [|Hl]; [by left |].
    destruct (decide (role user = "admin")) as [|Ha]; [by right |].
    exfalso. by apply Hn.
Qed.

(** The first router turns away a caller who is neither lender nor admin. *)
Lemma approveLoan_requires_role now flt st userId loanId notes conditions user :
  flt 0 = false ->
  profiles st !! userId = Some user ->
  role user <> "lender" -> role user <> "admin" ->
  VerificationLender.approveLoan now flt st userId loanId notes conditions
  = (fail 403 "Lender access required", st) /\
  forall reason,
    VerificationLender.rejectLoan now flt st userId loanId reason
    = (fail 403 "Lender access required", st).
Proof.
  intros F0 Hp Hl Ha.
  assert (Hrole : VerificationLender.requireLenderRole user = false).
  { apply not_true_is_false. intros E.
    apply requireLenderRole_true in E as [|]; contradiction. }
  unfold VerificationLender.approveLoan, VerificationLender.rejectLoan,
    VerificationLender.authenticateToken.
  by rewrite F0, Hp, Hrole.
Qed.

(** The first router turns away a review of a loan that is not 'requested'
    and reports the status the loan has. *)
Lemma approveLoan_requires_requested now flt st userId loanId notes conditions
    user loan :
  flt 0 = false -> flt 1 = false ->
  profiles st !! userId = Some user ->
  role user = "lender" \/ role user = "admin" ->
  loans st !! loanId = Some loan ->
  status loan <> "requested" ->
  VerificationLender.approveLoan now flt st userId loanId notes conditions
  = (mkResponse 400 (Some "Loan is not pending approval") (Some (status loan)), st) /\
  forall reason,
    reason <> "" ->
    VerificationLender.rejectLoan now flt st userId loanId (Some reason)
    = (mkResponse 400 (Some "Loan is not pending approval") (Some (status loan)), st).
Proof.
  intros F0 F1 Hp Hrole Hl Hs.
  apply requireLenderRole_true in Hrole.
  unfold VerificationLender.approveLoan, VerificationLender.rejectLoan,
    VerificationLender.authenticateToken.
  split; [| intros reason Hreason]; rewrite F0, Hp, Hrole; cbn.
  - by rewrite F1, Hl, decide_True.
  - by rewrite decide_False, F1, Hl, decide_True.
Qed.

(** An approval answered with 200 by the first router was asked by a lender
    or an admin for a 'requested' loan; it stores the reviewer, the time of
    the review and the notes and conditions given, and, when the insert
    into the history goes through, appends one history row. *)
Lemma approveLoan_success now flt st userId loanId notes conditions r st' :
  VerificationLender.approveLoan now flt st userId loanId notes conditions = (r, st') ->
  res_status r = 200 ->
  exists user loan loan',
    profiles st !! userId = Some user /\
    (role user = "lender" \/ role user = "admin") /\
    loans st !! loanId = Some loan /\ status loan = "requested" /\
    loans st' !! loanId = Some loan' /\
    status loan' = "approved" /\ lender_id loan' = Some userId /\
    reviewed_at loan' = Some now /\
    lender_notes loan' = MilestoneRoutes.or_keep notes (lender_notes loan) /\
    approval_conditions loan'
    = MilestoneRoutes.or_keep conditions (approval_conditions loan) /\
    (flt 3 = false ->
     loan_status_history st'
     = (loan_status_history st
        ++ [mkHistory loanId "requested" "approved" userId notes])%list).
Proof.
  unfold VerificationLender.approveLoan, VerificationLender.authenticateToken.
  intros H Hok. handler_cases H.
  match goal with
  | Hp : profiles st !! userId = Some ?u, Hl : loans st !! loanId = Some ?l |- _ =>
      exists u, l; eexists
  end.
  split; [done |].
  split; [apply requireLenderRole_true; by apply negb_false_iff |].
  split; [done |]. split; [by apply dec_stable |].
  split.
  { unfold log_history. case_match; cbn; rewrite lookup_alter_eq;
      match goal with Hl : loans st !! loanId = Some _ |- _ => by rewrite Hl end. }
  cbn. repeat split. intros ->. reflexivity.
Qed.

(** The same for a rejection, whose reason must be given. *)
Lemma rejectLoan_success now flt st userId loanId reason r st' :
  VerificationLender.rejectLoan now flt st userId loanId reason = (r, st') ->
  res_status r = 200 ->
  exists user loan loan' text,
    reason = Some text /\
    profiles st !! userId = Some user /\
    (role user = "lender" \/ role user = "admin") /\
    loans st !! loanId = Some loan /\ status loan = "requested" /\
    loans st' !! loanId = Some loan' /\
    status loan' = "rejected" /\ lender_id loan' = Some userId /\
    reviewed_at loan' = Some now /\ lender_notes loan' = Some text /\
    (flt 3 = false ->
     loan_status_history st'
     = (loan_status_history st
        ++ [mkHistory loanId "requested" "rejected" userId (Some text)])%list).
Proof.
  unfold VerificationLender.rejectLoan, VerificationLender.authenticateToken.
  intros H Hok. handler_cases H.
  match goal with
  | Hp : profiles st !! userId = Some ?u, Hl : loans st !! loanId = Some ?l |- _ =>
      exists u, l; eexists; eexists
  end.
  split; [done |]. split; [done |].
  split; [apply requireLenderRole_true; by apply negb_false_iff |].
  split; [done |]. split; [by apply dec_stable |].
  split.
  { unfold log_history. case_match; cbn; rewrite lookup_alter_eq;
      match goal with Hl : loans st !! loanId = Some _ |- _ => by rewrite Hl end. }
  cbn. repeat split. intros ->. reflexivity.
Qed.

(** C7. The second router does not review as the claim says.  On the loan
    store of the example, loan 1 being 'funded': a lender who approves or
    rejects loan 1 through it is answered with 200, the loan becomes
    'approved' or 'rejected' and no history row is written, where the first
    router answers 400 and reports 'funded'; and an admin who approves the
    'requested' loan 2 through it is turned away with 403, where the first
    router lets the admin approve. *)
Theorem lender_router_skips_review_checks :
  let approved := Lender.approve clock no_faults loan_book "lender-1" 1 (Some "Insured") in
  let rejected := Lender.reject clock no_faults loan_book "lender-1" 1 (Some "Too late") in
  (status <$> loans loan_book !! 1) = Some "funded" /\
  (res_status approved.1 = 200 /\
   (status <$> loans approved.2 !! 1) = Some "approved" /\
   loan_status_history approved.2 = []) /\
  (res_status rejected.1 = 200 /\
   (status <$> loans rejected.2 !! 1) = Some "rejected" /\
   loan_status_history rejected.2 = []) /\
  VerificationLender.approveLoan clock no_faults loan_book "lender-1" 1
    (Some "ok") (Some "Insured")
  = (mkResponse 400 (Some "Loan is not pending approval") (Some "funded"), loan_book) /\
  (Lender.approve clock no_faults loan_book "admin-1" 2 (Some "Insured")).1
  = fail 403 "Access denied - lender role required" /\
  res_status (VerificationLender.approveLoan clock no_faults loan_book "admin-1" 2
                (Some "ok") (Some "Insured")).1 = 200.
Proof.
  intros approved rejected. repeat split; vm_compute; reflexivity.
Qed.

End LenderFacts.

(** ** What one request does to the tables, key by key *)

Section StepFacts.
Import Db Engine Steps.


Lemma log_activity_seqs failed st row :
  escrows_seq (log_activity failed st row) = escrows_seq st /\
  milestones_seq (log_activity failed st row) = milestones_seq st.
Proof. by destruct failed. Qed.

Lemma insert_all_lookup_ge {A} (rows : list A) key (table : gmap nat A) j :
  key + length rows <= j -> insert_all rows key table !! j = table !! j.
Proof.
  revert key table. induction rows as [|row rows IH]; intros key table Hj; cbn in *.
  - reflexivity.
  - rewrite IH by lia. apply lookup_insert_ne. lia.
Qed.

#[local] Arguments EscrowRoutes.milestonesData : simpl never.
#[local] Arguments insert_all : simpl never.

Ltac unchanged :=
  left; rewrite ?log_activity_escrows, ?log_activity_milestones; reflexivity.

Ltac split_handler :=
  repeat case_match; simplify_eq/=; try unchanged;
  rewrite ?log_activity_escrows, ?log_activity_milestones; cbn.

(** An [alter] at key [id], seen from key [k]. *)
Ltac altered k id :=
  destruct (decide (k = id)) as [-> | ?];
  [ right; left; eexists _, _; rewrite lookup_alter_eq;
    split; [eassumption |];
    split; [match goal with H : _ !! _ = Some _ |- _ => rewrite H; reflexivity end |];
    econstructor; eauto
  | left; by apply lookup_alter_ne ].

Lemma sendInvite_escrows admin now flt st user id k :
  escrows_effect (SendInvite user id) st
    (EscrowRoutes.sendInvite admin now flt st user id).2 k.
Proof.
  unfold EscrowRoutes.sendInvite, escrows_effect. split_handler.
  altered k id.
Qed.

Lemma deposit_escrows admin now flt st user id k :
  escrows_effect (Deposit user id) st
    (EscrowRoutes.deposit admin now flt st user id).2 k.
Proof.
  unfold EscrowRoutes.deposit, escrows_effect. split_handler.
  altered k id. all: by apply dec_stable.
Qed.

Lemma acceptInvite_escrows admin now flt st user token k :
  escrows_effect (AcceptInvite user token) st
    (EscrowRoutes.acceptInvite admin now flt st user token).2 k.
Proof.
  unfold EscrowRoutes.acceptInvite, escrows_effect. split_handler.
  match goal with
  | H : single _ = Some _ |- _ => apply escrows_by_token_single in H as [? ?]
  end.
  match goal with |- context [alter _ ?id _] => altered k id end.
  all: try (by apply dec_stable); naive_solver.
Qed.

Lemma approve_escrows admin now flt st user id k :
  escrows_effect (Approve user id) st
    (MilestoneRoutes.approve admin now flt st user id).2 k.
Proof.
  unfold MilestoneRoutes.approve, MilestoneRoutes.fetch_milestone, escrows_effect.
  split_handler.
  match goal with |- context [alter _ ?id _] => altered k id end.
  all: by apply dec_stable.
Qed.

Lemma submit_escrows admin now flt st user id ed eu k :
  escrows_effect (Submit user id ed eu) st
    (MilestoneRoutes.submit admin now flt st user id ed eu).2 k.
Proof.
  unfold MilestoneRoutes.submit, MilestoneRoutes.fetch_milestone, escrows_effect.
  split_handler.
Qed.

Lemma reject_escrows admin now flt st user id reason k :
  escrows_effect (Reject user id reason) st
    (MilestoneRoutes.reject admin now flt st user id reason).2 k.
Proof.
  unfold MilestoneRoutes.reject, MilestoneRoutes.fetch_milestone, escrows_effect.
  split_handler.
Qed.

Lemma create_escrows admin now flt inviteToken st user body k :
  escrows_effect (Create inviteToken user body) st
    (EscrowRoutes.create admin now flt inviteToken st user body).2 k.
Proof.
  unfold EscrowRoutes.create, insert_escrow, insert_milestones, escrows_effect.
  cbn. split_handler.
  all: destruct (decide (k = escrows_seq st)) as [-> | ?];
    [ right; right; rewrite ?(proj1 (log_activity_seqs _ _ _)); cbn;
      split; [reflexivity |]; split; [reflexivity |];
      eexists _, _, _, _; split; [reflexivity |];
      rewrite lookup_insert_eq; split; [reflexivity |];
      repeat split
    | left; by apply lookup_insert_ne ].
Qed.

Lemma handle_escrows admin now flt st req k :
  escrows_effect req st (handle admin now flt st req).2 k.
Proof.
  destruct req; cbn [handle].
  - apply create_escrows.
  - apply sendInvite_escrows.
  - apply acceptInvite_escrows.
  - apply deposit_escrows.
  - apply submit_escrows.
  - apply approve_escrows.
  - apply reject_escrows.
Qed.

Lemma submit_milestones admin now flt st user id ed eu k :
  milestones_effect (Submit user id ed eu) st
    (MilestoneRoutes.submit admin now flt st user id ed eu).2 k.
Proof.
  unfold MilestoneRoutes.submit, MilestoneRoutes.fetch_milestone, milestones_effect.
  split_handler. altered k id.
  match goal with
  | H : ~ (Milestone.status ?m <> _ /\ _) |- _ =>
      destruct (decide (Milestone.status m = "pending")); [by left |];
      destruct (decide (Milestone.status m = "rejected")); [by right |];
      exfalso; naive_solver
  end.
Qed.

Lemma approve_milestones admin now flt st user id k :
  milestones_effect (Approve user id) st
    (MilestoneRoutes.approve admin now flt st user id).2 k.
Proof.
  unfold MilestoneRoutes.approve, MilestoneRoutes.fetch_milestone, milestones_effect.
  split_handler.
  all: altered k id; by apply dec_stable.
Qed.

Lemma reject_milestones admin now flt st user id reason k :
  milestones_effect (Reject user id reason) st
    (MilestoneRoutes.reject admin now flt st user id reason).2 k.
Proof.
  unfold MilestoneRoutes.reject, MilestoneRoutes.fetch_milestone, milestones_effect.
  split_handler. altered k id.
Qed.

Lemma sendInvite_milestones admin now flt st user id k :
  milestones_effect (SendInvite user id) st
    (EscrowRoutes.sendInvite admin now flt st user id).2 k.
Proof. unfold EscrowRoutes.sendInvite, milestones_effect. split_handler. Qed.

Lemma acceptInvite_milestones admin now flt st user token k :
  milestones_effect (AcceptInvite user token) st
    (EscrowRoutes.acceptInvite admin now flt st user token).2 k.
Proof. unfold EscrowRoutes.acceptInvite, milestones_effect. split_handler. Qed.

Lemma deposit_milestones admin now flt st user id k :
  milestones_effect (Deposit user id) st
    (EscrowRoutes.deposit admin now flt st user id).2 k.
Proof. unfold EscrowRoutes.deposit, milestones_effect. split_handler. Qed.

Lemma create_milestones admin now flt inviteToken st user body k :
  milestones_effect (Create inviteToken user body) st
    (EscrowRoutes.create admin now flt inviteToken st user body).2 k.
Proof.
  unfold EscrowRoutes.create, milestones_effect.
  destruct admin; [| unchanged].
  destruct (EscrowRoutes.milestones body) as [[|m0 ms0]|]; try unchanged.
  cbv beta iota zeta delta [negb insert_escrow].
  generalize (m0 :: ms0). intros ms.
  destruct (EscrowRoutes.percentages_off ms); [unchanged |].
  destruct (flt 0); [unchanged |]. destruct (flt 1); [unchanged |].
  cbv beta iota zeta delta [snd].
  rewrite log_activity_milestones,
    (proj1 (log_activity_seqs _ _ _)), (proj2 (log_activity_seqs _ _ _)).
  unfold insert_milestones. cbn [escrow_milestones milestones_seq escrows_seq].
  set (rows := EscrowRoutes.milestonesData _ _ ms).
  assert (Hlen : length rows = length ms) by apply milestonesData_length.
  destruct (decide (k < milestones_seq st)) as [Hlt | Hge];
    [left; by apply insert_all_lookup_lt |].
  destruct (decide (milestones_seq st + length ms <= k)) as [Hbig | Hin];
    [left; apply insert_all_lookup_ge; rewrite Hlen; lia |].
  right; right.
  destruct (lookup_lt_is_Some_2 ms (k - milestones_seq st)) as [m' Hm']; [lia |].
  destruct (milestonesData_lookup (escrows_seq st) (EscrowRoutes.total_amount body)
              ms _ _ Hm') as (row & Hrow & Hid & _ & _ & _ & Hst).
  split; [rewrite Hlen; lia |]. split; [reflexivity |].
  eexists _, _, _, row. split; [reflexivity |].
  split; [| split; [exact Hid | exact Hst]].
  replace k with (milestones_seq st + (k - milestones_seq st)) at 1 by lia.
  by apply insert_all_lookup.
Qed.

Lemma handle_milestones admin now flt st req k :
  milestones_effect req st (handle admin now flt st req).2 k.
Proof.
  destruct req; cbn [handle].
  - apply create_milestones.
  - apply sendInvite_milestones.
  - apply acceptInvite_milestones.
  - apply deposit_milestones.
  - apply submit_milestones.
  - apply approve_milestones.
  - apply reject_milestones.
Qed.

(** Only a create request moves the sequences, and when it moves the
    sequence of [escrows] it has stored a row at the old value. *)
Lemma handle_seqs admin now flt st req :
  let st' := (handle admin now flt st req).2 in
  milestones_seq st <= milestones_seq st' /\
  (escrows_seq st' = escrows_seq st
   \/ escrows_seq st' = S (escrows_seq st)
      /\ is_Some (escrows st' !! escrows_seq st)).
Proof.
  destruct req; cbn [handle];
    unfold EscrowRoutes.create, EscrowRoutes.sendInvite, EscrowRoutes.acceptInvite,
      EscrowRoutes.deposit, MilestoneRoutes.submit, MilestoneRoutes.approve,
      MilestoneRoutes.reject, MilestoneRoutes.fetch_milestone,
      insert_escrow, insert_milestones; cbn;
    repeat case_match; simplify_eq/=;
    rewrite ?(proj1 (log_activity_seqs _ _ _)), ?(proj2 (log_activity_seqs _ _ _)),
      ?log_activity_escrows; cbn;
    (split; [lia |]); try (by left).
  all: right; split; [reflexivity |]; rewrite lookup_insert_eq; by eexists.
Qed.

Lemma escrow_step_ok req e e' : escrow_step req e e' -> escrow_ok e -> escrow_ok e'.
Proof.
  intros Hstep (Hstatus & Hcustomer & Hdeposit).
  destruct Hstep; unfold escrow_ok; cbn.
  - split; [auto |]. split; [intros [|]; discriminate | discriminate].
  - split; [auto |]. split; [by eexists | discriminate].
  - split; [auto 6 |]. split; [intros _; by eexists | reflexivity].
  - auto.
Qed.

Lemma milestone_step_ok req m m' :
  milestone_step req m m' -> milestone_ok m -> milestone_ok m'.
Proof.
  intros Hstep (Hstatus & Hsub & Happ).
  destruct Hstep; unfold milestone_ok; cbn.
  - split; [auto |]. split; [intros _; split; by eexists | discriminate].
  - split; [auto |]. split; [discriminate | intros _; split; by eexists].
  - split; [auto 6 |]. split; discriminate.
Qed.

Lemma milestone_step_parent req m m' :
  milestone_step req m m' -> Milestone.escrow_id m' = Milestone.escrow_id m.
Proof. by destruct 1. Qed.

Lemma escrows_persist admin now flt st req k :
  is_Some (escrows st !! k) ->
  is_Some (escrows (handle admin now flt st req).2 !! k).
Proof.
  intros Hk.
  destruct (handle_escrows admin now flt st req k)
    as [-> | [(e & e' & _ & -> & _) | (_ & _ & tok & u & b & e' & _ & -> & _)]];
    [exact Hk | by eexists | by eexists].
Qed.

Lemma handle_well_formed admin now flt st req :
  well_formed st -> well_formed (handle admin now flt st req).2.
Proof.
  intros [Hes Hms].
  destruct (handle_seqs admin now flt st req) as [Hmseq Heseq].
  split.
  - intros k e' Hk.
    destruct (handle_escrows admin now flt st req k)
      as [Hsame | [(e & e'' & He & He' & Hstep)
                  | (-> & Hseq & tok & u & b & e'' & _ & He' & Hc)]].
    + rewrite Hsame in Hk. destruct (Hes k e' Hk) as [Hlt Hok].
      split; [destruct Heseq as [-> | [-> _]]; lia | exact Hok].
    + rewrite He' in Hk. injection Hk as <-.
      destruct (Hes k e He) as [Hlt Hok].
      split; [destruct Heseq as [-> | [-> _]]; lia |].
      eapply escrow_step_ok; eauto.
    + rewrite He' in Hk. injection Hk as <-.
      split; [lia |].
      destruct Hc as (_ & Hcust & _ & _ & _ & _ & Hst & _).
      unfold escrow_ok. rewrite Hst.
      split; [auto |]. split; [intros [|]; discriminate | discriminate].
  - intros k m' Hk.
    destruct (handle_milestones admin now flt st req k)
      as [Hsame | [(m & m'' & Hm & Hm' & Hstep)
                  | (Hrange & Hseq & tok & u & b & m'' & _ & Hm' & Hid & Hst)]].
    + rewrite Hsame in Hk. destruct (Hms k m' Hk) as (Hlt & Hparent & Hok).
      split; [lia |]. split; [by apply escrows_persist | exact Hok].
    + rewrite Hm' in Hk. injection Hk as <-.
      destruct (Hms k m Hm) as (Hlt & Hparent & Hok).
      split; [lia |].
      split; [rewrite (milestone_step_parent _ _ _ Hstep); by apply escrows_persist |].
      eapply milestone_step_ok; eauto.
    + rewrite Hm' in Hk. injection Hk as <-.
      split; [lia |]. split.
      * rewrite Hid. destruct Heseq as [Heq | [_ Hrow]]; [lia | exact Hrow].
      * unfold milestone_ok. rewrite Hst.
        split; [auto |]. split; discriminate.
Qed.

Lemma empty_well_formed : well_formed Db.empty.
Proof. split; intros k x Hk; cbn in Hk; by rewrite lookup_empty in Hk. Qed.

(** Every reachable store is well formed. *)
Lemma reachable_well_formed st : reachable st -> well_formed st.
Proof.
  induction 1 as [| st admin now flt req _ IH].
  - apply empty_well_formed.
  - by apply handle_well_formed.
Qed.
End StepFacts.

(** ** What every request keeps, and what it takes to change a column *)

Section EngineInvariants.
Import Db Engine Steps Scenario.

Lemma log_activity_activities failed st row :
  escrow_activities (log_activity failed st row)
  = (escrow_activities st ++ (if failed then [] else [row]))%list.
Proof. destruct failed; cbn; [by rewrite app_nil_r | reflexivity]. Qed.

Ltac unfold_handlers :=
  unfold EscrowRoutes.create, EscrowRoutes.sendInvite, EscrowRoutes.acceptInvite,
    EscrowRoutes.deposit, MilestoneRoutes.submit, MilestoneRoutes.approve,
    MilestoneRoutes.reject, MilestoneRoutes.fetch_milestone,
    insert_escrow, insert_milestones.

(** X1. A request to the escrow and milestone routes that is answered with
    400, 403, 404 or 503 has written nothing: the store is as it was. *)
Theorem client_error_writes_nothing
    (supabaseAdmin : bool) (now : string) (flt : Faults) (st : Store)
    (req : Request) (r : Response) (st' : Store) :
  handle supabaseAdmin now flt st req = (r, st') ->
  res_status r = 400 \/ res_status r = 403 \/ res_status r = 404
  \/ res_status r = 503 ->
  st' = st.
Proof.
  intros H Hcode. destruct req; cbn [handle] in H; revert H; unfold_handlers;
    cbn; intros H; repeat case_match; simplify_eq/=; try reflexivity;
    destruct Hcode as [?|[?|[?|?]]]; discriminate.
Qed.

(** X2. A request leaves the activity log as it was or adds one row at its
    end, and a row is added only by a request answered with 200 or 201. *)
Theorem activities_append_only
    (supabaseAdmin : bool) (now : string) (flt : Faults) (st : Store)
    (req : Request) :
  let res := handle supabaseAdmin now flt st req in
  exists rows,
    escrow_activities res.2 = (escrow_activities st ++ rows)%list /\
    length rows <= 1 /\
    (rows <> [] -> res_status res.1 = 200 \/ res_status res.1 = 201).
Proof.
  destruct req; cbn [handle]; unfold_handlers; cbn;
    repeat case_match; simplify_eq/=;
    rewrite ?log_activity_activities; cbn.
  all: try (exists []; rewrite app_nil_r; split; [reflexivity |]; split; [cbn; lia | done]).
  all: try (eexists; split; [reflexivity |]; split; [case_match; cbn; lia | auto]).
Qed.

(** The escrow columns no update writes. *)
Lemma escrow_step_frame req e e' :
  escrow_step req e e' ->
  Escrow.sme_id e' = Escrow.sme_id e /\
  Escrow.customer_email e' = Escrow.customer_email e /\
  Escrow.total_amount e' = Escrow.total_amount e /\
  Escrow.invite_token e' = Escrow.invite_token e /\
  Escrow.project_name e' = Escrow.project_name e /\
  Escrow.created_at e' = Escrow.created_at e.
Proof. by destruct 1. Qed.

Lemma milestone_step_frame req m m' :
  milestone_step req m m' ->
  Milestone.escrow_id m' = Milestone.escrow_id m /\
  Milestone.title m' = Milestone.title m /\
  Milestone.description m' = Milestone.description m /\
  Milestone.amount m' = Milestone.amount m /\
  Milestone.percentage m' = Milestone.percentage m /\
  Milestone.order_index m' = Milestone.order_index m.
Proof. by destruct 1. Qed.

(** X3. No request deletes an escrow of a reachable store or changes its
    owner, customer email, total amount, invite token, project name or
    creation time. *)
Theorem escrow_terms_are_immutable
    (supabaseAdmin : bool) (now : string) (flt : Faults) (st : Store)
    (req : Request) (k : nat) (e : Escrow.t) :
  reachable st ->
  escrows st !! k = Some e ->
  exists e',
    escrows (handle supabaseAdmin now flt st req).2 !! k = Some e' /\
    Escrow.sme_id e' = Escrow.sme_id e /\
    Escrow.customer_email e' = Escrow.customer_email e /\
    Escrow.total_amount e' = Escrow.total_amount e /\
    Escrow.invite_token e' = Escrow.invite_token e /\
    Escrow.project_name e' = Escrow.project_name e /\
    Escrow.created_at e' = Escrow.created_at e.
Proof.
  intros Hreach He. apply reachable_well_formed in Hreach as [Hes _].
  destruct (handle_escrows supabaseAdmin now flt st req k)
    as [Hsame | [(e0 & e' & He0 & He' & Hstep) | (-> & _)]].
  - exists e. rewrite Hsame. auto 10.
  - rewrite He in He0. injection He0 as <-.
    exists e'. split; [exact He' |]. by apply escrow_step_frame in Hstep.
  - apply Hes in He as [Hlt _]. lia.
Qed.

(** X4. No request deletes a milestone of a reachable store or changes its
    escrow, title, description, amount, percentage or position. *)
Theorem milestone_terms_are_immutable
    (supabaseAdmin : bool) (now : string) (flt : Faults) (st : Store)
    (req : Request) (k : nat) (m : Milestone.t) :
  reachable st ->
  escrow_milestones st !! k = Some m ->
  exists m',
    escrow_milestones (handle supabaseAdmin now flt st req).2 !! k = Some m' /\
    Milestone.escrow_id m' = Milestone.escrow_id m /\
    Milestone.title m' = Milestone.title m /\
    Milestone.description m' = Milestone.description m /\
    Milestone.amount m' = Milestone.amount m /\
    Milestone.percentage m' = Milestone.percentage m /\
    Milestone.order_index m' = Milestone.order_index m.
Proof.
  intros Hreach Hm. apply reachable_well_formed in Hreach as [_ Hms].
  destruct (handle_milestones supabaseAdmin now flt st req k)
    as [Hsame | [(m0 & m' & Hm0 & Hm' & Hstep) | ([Hge _] & _)]].
  - exists m. rewrite Hsame. auto 10.
  - rewrite Hm in Hm0. injection Hm0 as <-.
    exists m'. split; [exact Hm' |]. by apply milestone_step_frame in Hstep.
  - apply Hms in Hm as [Hlt _]. lia.
Qed.

(** X5. In every reachable store an escrow has one of the statuses 'draft',
    'invited', 'pending_deposit' and 'active', has a customer when it is
    'pending_deposit' or 'active', and has its total as deposited amount
    when it is 'active'; a milestone has one of the statuses 'pending',
    'submitted', 'approved' and 'rejected', carries who submitted it and
    when once it is 'submitted', who approved it and when it was released
    once it is 'approved', and its escrow exists. *)
Theorem reachable_rows_are_consistent (st : Store) :
  reachable st ->
  (forall k e, escrows st !! k = Some e -> escrow_ok e) /\
  (forall k m, escrow_milestones st !! k = Some m ->
     milestone_ok m /\ is_Some (escrows st !! Milestone.escrow_id m)).
Proof.
  intros Hreach. apply reachable_well_formed in Hreach as [Hes Hms]. split.
  - intros k e He. by apply Hes in He as [_ ?].
  - intros k m Hm. by apply Hms in Hm as (_ & ? & ?).
Qed.

Lemma approve_failure_keeps_escrows admin now flt st user id r st' :
  MilestoneRoutes.approve admin now flt st user id = (r, st') ->
  res_status r <> 200 -> escrows st' = escrows st.
Proof.
  unfold MilestoneRoutes.approve, MilestoneRoutes.fetch_milestone.
  intros H Hcode. cbn in H. repeat case_match; simplify_eq/=; done.
Qed.

(** X6. In a reachable store the released amount of an escrow changes only
    through an approve request answered with 200, made by the customer of
    the escrow for a 'submitted' milestone of that escrow; the new value is
    the old one plus the amount of the milestone, in double precision. *)
Theorem release_needs_customer_approval
    (supabaseAdmin : bool) (now : string) (flt : Faults) (st : Store)
    (req : Request) (k : nat) (e e' : Escrow.t) :
  reachable st ->
  escrows st !! k = Some e ->
  escrows (handle supabaseAdmin now flt st req).2 !! k = Some e' ->
  Escrow.released_amount e' <> Escrow.released_amount e ->
  exists user id milestone,
    req = Approve user id /\
    res_status (handle supabaseAdmin now flt st req).1 = 200 /\
    Escrow.customer_id e = Some (user_id user) /\
    escrow_milestones st !! id = Some milestone /\
    Milestone.escrow_id milestone = k /\
    Milestone.status milestone = "submitted" /\
    Escrow.released_amount e'
    = Number.to_json (MilestoneRoutes.released_or_zero e
                      + Number.parseFloat (Milestone.amount milestone))%float.
Proof.
  intros Hreach He He' Hdiff.
  apply reachable_well_formed in Hreach as [Hes _].
  assert (Hreq : exists user id, req = Approve user id).
  { destruct (handle_escrows supabaseAdmin now flt st req k)
      as [Hsame | [(e0 & e0' & He0 & He0' & Hstep) | (-> & _)]].
    - rewrite Hsame, He in He'. by injection He' as <-.
    - rewrite He in He0. rewrite He' in He0'. simplify_eq.
      destruct Hstep; try done. eauto.
    - apply Hes in He as [Hlt _]. lia. }
  destruct Hreq as (user & id & ->). exists user, id. cbn [handle] in *.
  destruct supabaseAdmin.
  2:{ cbn in He'. rewrite He in He'. by injection He' as <-. }
  destruct (MilestoneRoutes.approve true now flt st user id) as [r st'] eqn:Happ.
  cbn [fst snd] in *.
  destruct (decide (res_status r = 200)) as [Hok | Hfail].
  - destruct (approve_success _ _ _ _ _ _ _ Happ Hok)
      as (milestone & escrow & Hm & Hescrow & Hcust & Hstatus & _ & Hes').
    exists milestone. rewrite Hes' in He'.
    destruct (decide (Milestone.escrow_id milestone = k)) as [Hk | Hk].
    + rewrite Hk in *. rewrite lookup_alter_eq, He in He'.
      rewrite He in Hescrow. simplify_eq/=. auto 10.
    + rewrite lookup_alter_ne, He in He' by done. by injection He' as <-.
  - rewrite (approve_failure_keeps_escrows _ _ _ _ _ _ _ _ Happ Hfail), He in He'.
    by injection He' as <-.
Qed.

(** X7. In a reachable store the customer of an escrow changes only through
    an accept request that carries the token of the escrow and comes from
    the email the escrow names, the escrow being neither 'pending_deposit'
    nor 'active'; the deposited amount changes only through a deposit
    request of the customer on a 'pending_deposit' escrow, and becomes the
    total. *)
Theorem customer_and_deposit_are_guarded
    (supabaseAdmin : bool) (now : string) (flt : Faults) (st : Store)
    (req : Request) (k : nat) (e e' : Escrow.t) :
  reachable st ->
  escrows st !! k = Some e ->
  escrows (handle supabaseAdmin now flt st req).2 !! k = Some e' ->
  (Escrow.customer_id e' <> Escrow.customer_id e ->
   exists user token,
     req = AcceptInvite user token /\
     Escrow.invite_token e = token /\
     Escrow.customer_email e = user_email user /\
     Escrow.status e <> "pending_deposit" /\ Escrow.status e <> "active" /\
     Escrow.customer_id e' = Some (user_id user)) /\
  (Escrow.deposited_amount e' <> Escrow.deposited_amount e ->
   exists user id,
     req = Deposit user id /\
     Escrow.customer_id e = Some (user_id user) /\
     Escrow.status e = "pending_deposit" /\
     Escrow.deposited_amount e' = Escrow.total_amount e).
Proof.
  intros Hreach He He'.
  apply reachable_well_formed in Hreach as [Hes _].
  destruct (handle_escrows supabaseAdmin now flt st req k)
    as [Hsame | [(e0 & e0' & He0 & He0' & Hstep) | (-> & _)]].
  - rewrite Hsame, He in He'. injection He' as <-. by split.
  - rewrite He in He0. rewrite He' in He0'. simplify_eq.
    destruct Hstep; subst; split; intros Hdiff; try done; eauto 10.
  - apply Hes in He as [Hlt _]. lia.
Qed.


(** [.single()] on the rows that carry a token: the row found is a row of
    the table and the only one with that token, and conversely. *)
Lemma escrows_by_token_single_iff st token id e :
  single (escrows_by_token st token) = Some (id, e)
  <-> escrows st !! id = Some e /\ Escrow.invite_token e = token /\
      forall j e2, escrows st !! j = Some e2 ->
                   Escrow.invite_token e2 = token -> j = id.
Proof.
  unfold escrows_by_token. split.
  - intros H. apply single_Some in H.
    assert (Hin : forall j e2, (j, e2) ∈ filter
              (fun row => Escrow.invite_token row.2 = token)
              (map_to_list (escrows st))
            <-> escrows st !! j = Some e2 /\ Escrow.invite_token e2 = token).
    { intros j e2. rewrite list_elem_of_filter, elem_of_map_to_list. cbn. tauto. }
    rewrite H in Hin.
    destruct (proj1 (Hin id e) (list_elem_of_here _ _)) as [He Ht].
    split; [exact He |]. split; [exact Ht |].
    intros j e2 Hj Hjt.
    assert (Hje : (j, e2) ∈ [(id, e)]) by (apply Hin; auto).
    apply list_elem_of_singleton in Hje. by injection Hje.
  - intros (He & Ht & Huniq).
    set (l := filter (fun row => Escrow.invite_token row.2 = token)
                     (map_to_list (escrows st))).
    assert (Hnd : NoDup l) by apply NoDup_filter, NoDup_map_to_list.
    assert (Hall : forall x, x ∈ l -> x = (id, e)).
    { intros [j e2] Hx. apply list_elem_of_filter in Hx as [Hxt Hx].
      apply elem_of_map_to_list in Hx. cbn in Hxt.
      assert (j = id) by eauto. subst j. congruence. }
    assert (Hmem : (id, e) ∈ l).
    { apply list_elem_of_filter. split; [exact Ht |].
      by apply elem_of_map_to_list. }
    destruct l as [|a [|b l']].
    + by apply not_elem_of_nil in Hmem.
    + cbn. f_equal. apply Hall, list_elem_of_here.
    + exfalso. apply NoDup_cons in Hnd as [Hnotin _]. apply Hnotin.
      rewrite (Hall a), <- (Hall b); [apply list_elem_of_here | | apply list_elem_of_here].
      apply list_elem_of_further, list_elem_of_here.
Qed.

(** X9. Once an accept request has been answered with 200, and the escrow
    is 'pending_deposit' with the caller as customer, a second accept with
    the same token is not answered with 200 and writes nothing, whoever
    sends it; from the same email it is answered with 400 'Invite already
    accepted'. *)
Theorem acceptInvite_is_not_idempotent
    (now now2 : string) (flt flt2 : Faults) (st : Store) (user user2 : User)
    (token : string) (r : Response) (st' : Store) :
  EscrowRoutes.acceptInvite true now flt st user token = (r, st') ->
  res_status r = 200 ->
  let res2 := EscrowRoutes.acceptInvite true now2 flt2 st' user2 token in
  res_status res2.1 <> 200 /\ res2.2 = st' /\
  (flt2 0 = false -> user_email user2 = user_email user ->
   res2.1 = fail 400 "Invite already accepted") /\
  exists id e',
    escrows st' !! id = Some e' /\ Escrow.invite_token e' = token /\
    Escrow.customer_id e' = Some (user_id user) /\
    Escrow.status e' = "pending_deposit".
Proof.
  intros H Hok.
  assert (Hfirst : exists id e,
    single (escrows_by_token st token) = Some (id, e) /\
    Escrow.customer_email e = user_email user /\
    escrows st' = alter (EscrowRoutes.mark_accepted now (user_id user)) id (escrows st)).
  { revert H. unfold EscrowRoutes.acceptInvite. cbn. intros H.
    repeat case_match; simplify_eq/=.
    match goal with
    | Hs : single _ = Some (?j, ?x) |- _ => exists j, x; split; [exact Hs |]
    end.
    rewrite log_activity_escrows. cbn.
    split; [by apply dec_stable | reflexivity]. }
  destruct Hfirst as (id & e & Hsingle & Hemail & Hes').
  apply escrows_by_token_single_iff in Hsingle as (He & Ht & Huniq).
  set (e' := EscrowRoutes.mark_accepted now (user_id user) e).
  assert (He' : escrows st' !! id = Some e').
  { by rewrite Hes', lookup_alter_eq, He. }
  assert (Hsingle' : single (escrows_by_token st' token) = Some (id, e')).
  { apply escrows_by_token_single_iff. split; [exact He' |]. split; [exact Ht |].
    intros j e2 Hj Hjt. rewrite Hes' in Hj.
    destruct (decide (j = id)) as [| Hne]; [done |].
    rewrite lookup_alter_ne in Hj by done. eauto. }
  intros res2. subst res2. unfold EscrowRoutes.acceptInvite. cbn.
  rewrite Hsingle'. unfold e' in *. cbn.
  split; [| split; [| split]].
  - destruct (flt2 0); cbn; [discriminate |]. repeat case_decide; cbn; try discriminate.
    exfalso; naive_solver.
  - destruct (flt2 0); cbn; [reflexivity |]. repeat case_decide; cbn; try reflexivity.
    exfalso; naive_solver.
  - intros -> Hsame. unfold EscrowRoutes.mark_accepted. cbn.
    rewrite decide_False by (rewrite Hemail, Hsame; auto).
    by rewrite decide_True by auto.
  - eexists id, _. split; [exact He' |]. auto.
Qed.

(** X10. A deposit answered with 200 has moved the escrow from
    'pending_deposit' to 'active' with its total as deposited amount; a
    second deposit on the same escrow is answered with 400 or 404 and writes
    nothing. *)
Theorem deposit_is_not_repeatable
    (now now2 : string) (flt flt2 : Faults) (st : Store) (user user2 : User)
    (id : nat) (r : Response) (st' : Store) :
  EscrowRoutes.deposit true now flt st user id = (r, st') ->
  res_status r = 200 ->
  let res2 := EscrowRoutes.deposit true now2 flt2 st' user2 id in
  (exists e e',
     escrows st !! id = Some e /\ escrows st' !! id = Some e' /\
     Escrow.status e = "pending_deposit" /\ Escrow.status e' = "active" /\
     Escrow.deposited_amount e' = Escrow.total_amount e /\
     Escrow.total_amount e' = Escrow.total_amount e) /\
  (res_status res2.1 = 400 \/ res_status res2.1 = 404) /\ res2.2 = st' /\
  (flt2 0 = false -> user_id user2 = user_id user ->
   res2.1 = fail 400 "Escrow not ready for deposit").
Proof.
  intros H Hok.
  destruct (deposit_success _ _ _ _ _ _ _ H Hok) as (e & He & Hcust & Hstatus & Hes').
  set (e' := EscrowRoutes.mark_deposited now e).
  assert (He' : escrows st' !! id = Some e') by (by rewrite Hes', lookup_alter_eq, He).
  intros res2. subst res2. split; [exists e, e'; auto 10 |].
  unfold EscrowRoutes.deposit. cbn. rewrite He'. unfold e'. cbn.
  split; [| split].
  - destruct (flt2 0); cbn; [auto |]. repeat case_decide; cbn; auto. done.
  - destruct (flt2 0); cbn; [auto |]. repeat case_decide; cbn; auto. done.
  - intros -> Hsame. unfold EscrowRoutes.mark_deposited. cbn.
    rewrite Hsame, decide_True by done. by rewrite decide_True.
Qed.
End EngineInvariants.

(** ** From creation to the last approval *)

Section LifecycleFacts.
Import Db Engine Steps Lifecycle.

(** A submit request that passes every guard, the store calls succeeding. *)
Lemma submit_ok now st user id ed eu m e :
  escrow_milestones st !! id = Some m ->
  escrows st !! Milestone.escrow_id m = Some e ->
  Escrow.sme_id e = user_id user ->
  Milestone.status m = "pending" \/ Milestone.status m = "rejected" ->
  exists st',
    MilestoneRoutes.submit true now no_faults st user id ed eu = (ok 200, st') /\
    escrow_milestones st'
    = alter (MilestoneRoutes.mark_submitted now (user_id user) ed eu) id
            (escrow_milestones st) /\
    escrows st' = escrows st.
Proof.
  intros Hm He Hsme Hstatus.
  unfold MilestoneRoutes.submit, MilestoneRoutes.fetch_milestone. cbn.
  rewrite Hm, He. rewrite decide_False by (intros Hne; by apply Hne).
  rewrite decide_False by (intros [? ?]; destruct Hstatus; done).
  eexists. split; [reflexivity |]. by split.
Qed.

(** An approve request that passes every guard, the store calls
    succeeding. *)
Lemma approve_ok now st user id m e :
  escrow_milestones st !! id = Some m ->
  escrows st !! Milestone.escrow_id m = Some e ->
  Escrow.customer_id e = Some (user_id user) ->
  Milestone.status m = "submitted" ->
  exists st',
    MilestoneRoutes.approve true now no_faults st user id = (ok 200, st') /\
    escrow_milestones st'
    = alter (MilestoneRoutes.mark_approved now (user_id user)) id
            (escrow_milestones st) /\
    escrows st'
    = alter (MilestoneRoutes.set_released
               (release (Escrow.released_amount e) (Milestone.amount m)))
            (Milestone.escrow_id m) (escrows st).
Proof.
  intros Hm He Hcust Hstatus.
  unfold MilestoneRoutes.approve, MilestoneRoutes.fetch_milestone. cbn.
  rewrite Hm, He. rewrite decide_False by (intros Hne; by apply Hne).
  rewrite decide_False by (intros Hne; by apply Hne).
  eexists. split; [reflexivity |]. by split.
Qed.

Lemma released_after_ext st st' ids : forall released,
  (forall id m, id ∈ ids -> escrow_milestones st !! id = Some m ->
     exists m', escrow_milestones st' !! id = Some m'
                /\ Milestone.amount m' = Milestone.amount m) ->
  (forall id, id ∈ ids -> escrow_milestones st !! id = None ->
     escrow_milestones st' !! id = None) ->
  released_after st' released ids = released_after st released ids.
Proof.
  unfold released_after.
  induction ids as [|id ids IH]; intros released Hsome Hnone; cbn; [reflexivity |].
  destruct (escrow_milestones st !! id) as [m|] eqn:Hm.
  - destruct (Hsome id m (list_elem_of_here _ _) Hm) as (m' & -> & ->).
    apply IH; intros j; intros; [eapply Hsome | eapply Hnone];
      eauto using list_elem_of_further.
  - rewrite (Hnone id (list_elem_of_here _ _) Hm).
    apply IH; intros j; intros; [eapply Hsome | eapply Hnone];
      eauto using list_elem_of_further.
Qed.

(** Settling the milestones [ids] of an escrow, each of them 'pending' or
    'rejected': every request is answered with 200, the milestones end
    'approved', and the escrow holds the released amount that the approvals
    have added up in turn. *)
Lemma settle_releases now sme customer k ids : forall st e,
  escrows st !! k = Some e ->
  Escrow.sme_id e = user_id sme ->
  Escrow.customer_id e = Some (user_id customer) ->
  NoDup ids ->
  (forall id, id ∈ ids ->
     exists m, escrow_milestones st !! id = Some m /\ Milestone.escrow_id m = k /\
               (Milestone.status m = "pending" \/ Milestone.status m = "rejected")) ->
  let st' := run now st (settle sme customer ids) in
  serve now st (settle sme customer ids) = replicate (2 * length ids) 200 /\
  (exists e',
     escrows st' !! k = Some e' /\
     Escrow.released_amount e'
     = released_after st (Escrow.released_amount e) ids /\
     Escrow.total_amount e' = Escrow.total_amount e /\
     Escrow.deposited_amount e' = Escrow.deposited_amount e /\
     Escrow.status e' = Escrow.status e) /\
  (forall id, id ∈ ids ->
     (Milestone.status <$> escrow_milestones st' !! id) = Some "approved") /\
  (forall id, id ∉ ids ->
     escrow_milestones st' !! id = escrow_milestones st !! id).
Proof.
  induction ids as [|id ids IH]; intros st e He Hsme Hcust Hnd Hms.
  - cbn. split; [reflexivity |]. split; [| split].
    + exists e. auto.
    + intros id Hid. by apply not_elem_of_nil in Hid.
    + reflexivity.
  - apply NoDup_cons in Hnd as [Hnotin Hnd].
    destruct (Hms id (list_elem_of_here _ _)) as (m & Hm & Hk & Hstatus).
    subst k.
    destruct (submit_ok now st sme id None None m e Hm He Hsme Hstatus)
      as (st1 & Hsub & Hms1 & Hes1).
    assert (Hm1 : escrow_milestones st1 !! id
                  = Some (MilestoneRoutes.mark_submitted now (user_id sme) None None m)).
    { by rewrite Hms1, lookup_alter_eq, Hm. }
    assert (He1 : escrows st1 !! Milestone.escrow_id m = Some e) by (by rewrite Hes1).
    destruct (approve_ok now st1 customer id _ e Hm1 He1 Hcust eq_refl)
      as (st2 & Happ & Hms2 & Hes2).
    cbn [Milestone.escrow_id Milestone.amount MilestoneRoutes.mark_submitted] in Hes2.
    set (e2 := MilestoneRoutes.set_released
                 (release (Escrow.released_amount e) (Milestone.amount m)) e) in *.
    assert (He2 : escrows st2 !! Milestone.escrow_id m = Some e2).
    { by rewrite Hes2, lookup_alter_eq, He1. }
    assert (Hother : forall j, j <> id ->
              escrow_milestones st2 !! j = escrow_milestones st !! j).
    { intros j Hj. rewrite Hms2, lookup_alter_ne by done.
      by rewrite Hms1, lookup_alter_ne by done. }
    assert (Hms' : forall j, j ∈ ids ->
              exists m', escrow_milestones st2 !! j = Some m' /\
                         Milestone.escrow_id m' = Milestone.escrow_id m /\
                         (Milestone.status m' = "pending"
                          \/ Milestone.status m' = "rejected")).
    { intros j Hj. rewrite Hother by (intros ->; done).
      apply Hms. by apply list_elem_of_further. }
    specialize (IH st2 e2 He2 Hsme Hcust Hnd Hms').
    cbn zeta in IH.
    destruct IH as (Hserve & (e' & He' & Hrel & Htot & Hdep & Hst) & Happroved & Hframe).
    change (settle sme customer (id :: ids))
      with (Submit sme id None None :: Approve customer id :: settle sme customer ids).
    cbn [run serve fold_left handle]. rewrite Hsub. cbn [fst snd]. rewrite Happ.
    cbn [fst snd]. fold (run now st2 (settle sme customer ids)).
    split; [| split; [| split]].
    + rewrite Hserve. cbn [length].
      replace (2 * S (length ids)) with (S (S (2 * length ids))) by lia.
      reflexivity.
    + exists e'. split; [exact He' |]. split; [| auto].
      rewrite Hrel. unfold released_after at 2. cbn [fold_left]. rewrite Hm.
      fold (released_after st (release (Escrow.released_amount e) (Milestone.amount m)) ids).
      apply released_after_ext.
      * intros j mj Hj Hmj. exists mj.
        by rewrite Hother by (intros ->; done).
      * intros j Hj Hmj. by rewrite Hother by (intros ->; done).
    + intros j Hj. apply elem_of_cons in Hj as [-> | Hj]; [| by apply Happroved].
      rewrite Hframe by done. by rewrite Hms2, lookup_alter_eq, Hm1.
    + intros j Hj. apply not_elem_of_cons in Hj as [Hne Hj].
      rewrite Hframe by done. by apply Hother.
Qed.

(** A create request that passes the checks, the store calls succeeding. *)
Lemma create_ok now inviteToken st user body ms :
  EscrowRoutes.milestones body = Some ms -> ms <> [] ->
  EscrowRoutes.percentages_off ms = false ->
  exists st' e,
    EscrowRoutes.create true now no_faults inviteToken st user body = (ok 201, st') /\
    escrows st' = <[escrows_seq st := e]> (escrows st) /\
    created_by inviteToken user body e /\
    escrow_milestones st'
    = insert_all (EscrowRoutes.milestonesData (escrows_seq st)
                    (EscrowRoutes.total_amount body) ms)
                 (milestones_seq st) (escrow_milestones st).
Proof.
  intros Hms Hne Hoff. unfold EscrowRoutes.create. cbn. rewrite Hms.
  destruct ms as [|m ms]; [done |]. rewrite Hoff. cbn.
  eexists _, _. split; [reflexivity |]. cbn.
  split; [reflexivity |]. split; [| reflexivity]. repeat split.
Qed.

Lemma acceptInvite_ok now st user token id e :
  single (escrows_by_token st token) = Some (id, e) ->
  Escrow.customer_email e = user_email user ->
  Escrow.status e <> "pending_deposit" -> Escrow.status e <> "active" ->
  exists st',
    EscrowRoutes.acceptInvite true now no_faults st user token = (ok 200, st') /\
    escrows st' = alter (EscrowRoutes.mark_accepted now (user_id user)) id (escrows st) /\
    escrow_milestones st' = escrow_milestones st.
Proof.
  intros Hsingle Hemail Hpd Hact. unfold EscrowRoutes.acceptInvite. cbn.
  rewrite Hsingle. cbn.
  rewrite decide_False by (intros Hne; by apply Hne).
  rewrite decide_False by (intros [|]; done).
  eexists. split; [reflexivity |]. by split.
Qed.

Lemma deposit_ok now st user id e :
  escrows st !! id = Some e ->
  Escrow.customer_id e = Some (user_id user) ->
  Escrow.status e = "pending_deposit" ->
  exists st',
    EscrowRoutes.deposit true now no_faults st user id = (ok 200, st') /\
    escrows st' = alter (EscrowRoutes.mark_deposited now) id (escrows st) /\
    escrow_milestones st' = escrow_milestones st.
Proof.
  intros He Hcust Hstatus. unfold EscrowRoutes.deposit. cbn. rewrite He.
  rewrite decide_True by done. rewrite decide_False by (intros Hne; by apply Hne).
  eexists. split; [reflexivity |]. by split.
Qed.

Lemma released_after_seq st rows : forall key released,
  (forall i row, rows !! i = Some row ->
     escrow_milestones st !! (key + i) = Some row) ->
  released_after st released (seq key (length rows))
  = fold_left (fun released row => release released (Milestone.amount row))
              rows released.
Proof.
  unfold released_after.
  induction rows as [|row rows IH]; intros key released Hrows; cbn; [reflexivity |].
  specialize (Hrows 0 row eq_refl) as Hrow. rewrite Nat.add_0_r in Hrow.
  rewrite Hrow. apply IH. intros i r Hi.
  replace (S key + i) with (key + S i) by lia. by apply Hrows.
Qed.

Lemma fold_release_mapi_from {A} (f : A -> nat -> Milestone.t)
    (amount_of : A -> option float) (l : list A) : forall index released,
  (forall a i, Milestone.amount (f a i) = amount_of a) ->
  fold_left (fun released row => release released (Milestone.amount row))
            (mapi_from f index l) released
  = fold_left (fun released a => release released (amount_of a)) l released.
Proof.
  induction l as [|a l IH]; intros index released Hf; cbn; [reflexivity |].
  rewrite Hf. by apply IH.
Qed.

(** X11. An escrow that has just been created can be carried to its end:
    the customer named in the request accepts the invite and deposits, the
    owner submits and the customer approves each milestone in turn, and
    every request is answered with success.  The escrow is then 'active',
    its deposited amount is its total, and its released amount is what the
    approvals have added up in double precision, milestone after
    milestone. *)
Theorem new_escrow_can_be_settled
    (now : string) (inviteToken : string) (st : Store) (sme customer : User)
    (body : EscrowRoutes.CreateBody) (ms : list EscrowRoutes.MilestoneInput) :
  (forall j e, escrows st !! j = Some e -> Escrow.invite_token e <> inviteToken) ->
  EscrowRoutes.milestones body = Some ms -> ms <> [] ->
  EscrowRoutes.percentages_off ms = false ->
  EscrowRoutes.customer_email body = user_email customer ->
  let reqs :=
    Create inviteToken sme body :: AcceptInvite customer inviteToken
    :: Deposit customer (escrows_seq st)
    :: settle sme customer (seq (milestones_seq st) (length ms)) in
  let amount_of m :=
    Number.to_json (Number.parseFloat (EscrowRoutes.percentage m) / 100
                    * Number.parseFloat (EscrowRoutes.total_amount body))%float in
  serve now st reqs = 201 :: replicate (2 + 2 * length ms) 200 /\
  (exists e,
     escrows (run now st reqs) !! escrows_seq st = Some e /\
     Escrow.status e = "active" /\
     Escrow.total_amount e = EscrowRoutes.total_amount body ≫= Number.to_json /\
     Escrow.deposited_amount e = Escrow.total_amount e /\
     Escrow.released_amount e
     = fold_left (fun released m => release released (amount_of m)) ms None) /\
  (forall i, i < length ms ->
     (Milestone.status <$> escrow_milestones (run now st reqs) !! (milestones_seq st + i))
     = Some "approved").
Proof.
  intros Hfresh Hms Hne Hoff Hemail reqs amount_of. subst reqs.
  set (k := escrows_seq st).
  destruct (create_ok now inviteToken st sme body ms Hms Hne Hoff)
    as (st1 & e0 & Hcreate & Hes1 & Hc & Hms1).
  destruct Hc as (Hsme & Hcust0 & Hmail & Htotal & Hdep0 & Hrel0 & Hdraft & Htok).
  assert (Hsingle : single (escrows_by_token st1 inviteToken) = Some (k, e0)).
  { apply escrows_by_token_single_iff. rewrite Hes1.
    split; [apply lookup_insert_eq |]. split; [exact Htok |].
    intros j e2 Hj Hjt. destruct (decide (j = k)) as [| Hjk]; [done |].
    rewrite lookup_insert_ne in Hj by done. by apply Hfresh in Hj. }
  destruct (acceptInvite_ok now st1 customer inviteToken k e0 Hsingle)
    as (st2 & Haccept & Hes2 & Hms2);
    [congruence | rewrite Hdraft; discriminate | rewrite Hdraft; discriminate |].
  set (e2 := EscrowRoutes.mark_accepted now (user_id customer) e0) in *.
  assert (He2 : escrows st2 !! k = Some e2).
  { by rewrite Hes2, lookup_alter_eq, Hes1, lookup_insert_eq. }
  destruct (deposit_ok now st2 customer k e2 He2 eq_refl eq_refl)
    as (st3 & Hdeposit & Hes3 & Hms3).
  set (e3 := EscrowRoutes.mark_deposited now e2) in *.
  assert (He3 : escrows st3 !! k = Some e3) by (by rewrite Hes3, lookup_alter_eq, He2).
  set (rows := EscrowRoutes.milestonesData k (EscrowRoutes.total_amount body) ms) in *.
  assert (Hrows : forall i row, rows !! i = Some row ->
            escrow_milestones st3 !! (milestones_seq st + i) = Some row).
  { intros i row Hi. rewrite Hms3, Hms2, Hms1. by apply insert_all_lookup. }
  assert (Hlen : length rows = length ms) by apply milestonesData_length.
  assert (Hpending : forall id, id ∈ seq (milestones_seq st) (length ms) ->
            exists m, escrow_milestones st3 !! id = Some m /\
                      Milestone.escrow_id m = k /\
                      (Milestone.status m = "pending"
                       \/ Milestone.status m = "rejected")).
  { intros id Hid. apply elem_of_seq in Hid.
    destruct (lookup_lt_is_Some_2 ms (id - milestones_seq st)) as [m Hm]; [lia |].
    destruct (milestonesData_lookup k (EscrowRoutes.total_amount body) ms _ _ Hm)
      as (row & Hrow & Hid' & _ & _ & _ & Hst).
    exists row. split; [| auto].
    replace id with (milestones_seq st + (id - milestones_seq st)) by lia.
    by apply Hrows. }
  destruct (settle_releases now sme customer k
              (seq (milestones_seq st) (length ms)) st3 e3 He3 Hsme eq_refl
              (NoDup_seq _ _) Hpending)
    as (Hserve & (e & He & Hrel & Htot & Hdep & Hstatus) & Happroved & _).
  assert (Hrun : run now st
                   (Create inviteToken sme body :: AcceptInvite customer inviteToken
                    :: Deposit customer k
                    :: settle sme customer (seq (milestones_seq st) (length ms)))
                 = run now st3 (settle sme customer (seq (milestones_seq st) (length ms)))).
  { unfold run. cbn [fold_left handle]. rewrite Hcreate. cbn [fst snd].
    rewrite Haccept. cbn [fst snd]. by rewrite Hdeposit. }
  rewrite Hrun. split; [| split].
  - cbn [serve handle]. rewrite Hcreate. cbn [fst snd]. rewrite Haccept.
    cbn [fst snd]. rewrite Hdeposit. cbn [fst snd]. rewrite Hserve.
    rewrite length_seq. reflexivity.
  - exists e. split; [exact He |].
    split; [by rewrite Hstatus |].
    split; [rewrite Htot; exact Htotal |].
    split; [by rewrite Hdep, Htot |].
    rewrite Hrel. rewrite <- Hlen, (released_after_seq st3 rows _ _ Hrows).
    cbn [Escrow.released_amount e3 e2 EscrowRoutes.mark_deposited
         EscrowRoutes.mark_accepted]. rewrite Hrel0.
    unfold rows, EscrowRoutes.milestonesData, mapi.
    by apply fold_release_mapi_from.
  - intros i Hi. apply Happroved. apply elem_of_seq. lia.
Qed.
End LifecycleFacts.

(** ** The invariants at work on the example escrow *)

Section EngineWitnesses.
Import Db Engine Steps Lifecycle Scenario.

Lemma client_error_writes_nothing_witness :
  let st := run clock Db.empty submitted in
  let res := handle true clock no_faults st (Approve stranger 1) in
  res_status res.1 = 403 /\ res.2 = st.
Proof.
  intros st res.
  assert (Hcode : res_status res.1 = 403) by (vm_compute; reflexivity).
  split; [exact Hcode |].
  apply (client_error_writes_nothing true clock no_faults st (Approve stranger 1)
           res.1 res.2 (surjective_pairing res)).
  right; left. exact Hcode.
Defined.

Lemma escrow_terms_are_immutable_witness :
  let st := run clock Db.empty funded in
  exists e e',
    escrows st !! 1 = Some e /\
    escrows (handle true clock no_faults st (SendInvite sme 1)).2 !! 1 = Some e' /\
    Escrow.status e = "active" /\ Escrow.status e' = "invited" /\
    Escrow.total_amount e' = Escrow.total_amount e /\
    Escrow.invite_token e' = Escrow.invite_token e.
Proof.
  intros st.
  assert (He : exists e, escrows st !! 1 = Some e /\ Escrow.status e = "active").
  { eexists. split; vm_compute; reflexivity. }
  destruct He as (e & He & Hactive).
  destruct (escrow_terms_are_immutable true clock no_faults st (SendInvite sme 1) 1 e
              (run_reachable _ _ _ reachable_empty) He)
    as (e' & He' & _ & _ & Htotal & Htoken & _).
  exists e, e'. split; [exact He |]. split; [exact He' |]. split; [exact Hactive |].
  split; [| auto].
  assert (He'' : exists e2,
    escrows (handle true clock no_faults st (SendInvite sme 1)).2 !! 1 = Some e2
    /\ Escrow.status e2 = "invited").
  { eexists. split; vm_compute; reflexivity. }
  destruct He'' as (e2 & He2 & Hinv). rewrite He' in He2. by injection He2 as <-.
Defined.

Lemma milestone_terms_are_immutable_witness :
  let st := run clock Db.empty submitted in
  exists m m',
    escrow_milestones st !! 1 = Some m /\
    escrow_milestones (handle true clock no_faults st (Approve customer 1)).2 !! 1
    = Some m' /\
    Milestone.amount m' = Milestone.amount m /\
    Milestone.percentage m' = Milestone.percentage m.
Proof.
  intros st.
  assert (Hm : exists m, escrow_milestones st !! 1 = Some m).
  { eexists. vm_compute; reflexivity. }
  destruct Hm as (m & Hm).
  destruct (milestone_terms_are_immutable true clock no_faults st (Approve customer 1)
              1 m (run_reachable _ _ _ reachable_empty) Hm)
    as (m' & Hm' & _ & _ & _ & Hamount & Hpct & _).
  exists m, m'. auto.
Defined.

Lemma reachable_rows_are_consistent_witness :
  let st := run clock Db.empty approved_twice in
  exists e m,
    escrows st !! 1 = Some e /\ escrow_milestones st !! 1 = Some m /\
    escrow_ok e /\ milestone_ok m.
Proof.
  intros st.
  destruct (reachable_rows_are_consistent st (run_reachable _ _ _ reachable_empty))
    as [Hes Hms].
  assert (He : exists e, escrows st !! 1 = Some e) by (eexists; vm_compute; reflexivity).
  assert (Hm : exists m, escrow_milestones st !! 1 = Some m)
    by (eexists; vm_compute; reflexivity).
  destruct He as (e & He). destruct Hm as (m & Hm).
  exists e, m. split; [exact He |]. split; [exact Hm |].
  split; [by eapply Hes | by eapply Hms].
Defined.

Lemma release_needs_customer_approval_witness :
  let st := run clock Db.empty submitted in
  let req := Approve customer 1 in
  exists e e' user id,
    escrows st !! 1 = Some e /\
    escrows (handle true clock no_faults st req).2 !! 1 = Some e' /\
    Escrow.released_amount e' <> Escrow.released_amount e /\
    req = Approve user id /\ Escrow.customer_id e = Some (user_id user).
Proof.
  intros st req.
  assert (He : exists e, escrows st !! 1 = Some e /\ Escrow.released_amount e = None).
  { eexists. split; vm_compute; reflexivity. }
  destruct He as (e & He & Hnone).
  assert (He' : exists e' q,
    escrows (handle true clock no_faults st req).2 !! 1 = Some e'
    /\ Escrow.released_amount e' = Some q).
  { eexists _, _. split; vm_compute; reflexivity. }
  destruct He' as (e' & q & He' & Hsome).
  assert (Hdiff : Escrow.released_amount e' <> Escrow.released_amount e)
    by (rewrite Hnone, Hsome; discriminate).
  destruct (release_needs_customer_approval true clock no_faults st req 1 e e'
              (run_reachable _ _ _ reachable_empty) He He' Hdiff)
    as (user & id & milestone & Hreq & _ & Hcust & _).
  exists e, e', user, id. auto.
Defined.

Lemma customer_and_deposit_are_guarded_witness :
  let st := run clock Db.empty [Create "token" sme body] in
  let req := AcceptInvite customer "token" in
  exists e e' user token,
    escrows st !! 1 = Some e /\
    escrows (handle true clock no_faults st req).2 !! 1 = Some e' /\
    Escrow.customer_id e' <> Escrow.customer_id e /\
    req = AcceptInvite user token /\
    Escrow.customer_email e = user_email user.
Proof.
  intros st req.
  assert (He : exists e, escrows st !! 1 = Some e /\ Escrow.customer_id e = None).
  { eexists. split; vm_compute; reflexivity. }
  destruct He as (e & He & Hnone).
  assert (He' : exists e' c,
    escrows (handle true clock no_faults st req).2 !! 1 = Some e'
    /\ Escrow.customer_id e' = Some c).
  { eexists _, _. split; vm_compute; reflexivity. }
  destruct He' as (e' & c & He' & Hsome).
  assert (Hdiff : Escrow.customer_id e' <> Escrow.customer_id e)
    by (rewrite Hnone, Hsome; discriminate).
  destruct (proj1 (customer_and_deposit_are_guarded true clock no_faults st req 1 e e'
              (run_reachable _ _ _ reachable_empty) He He') Hdiff)
    as (user & token & Hreq & _ & Hmail & _).
  exists e, e', user, token. auto.
Defined.


Lemma acceptInvite_is_not_idempotent_witness :
  let st := run clock Db.empty [Create "token" sme body] in
  let res := EscrowRoutes.acceptInvite true clock no_faults st customer "token" in
  res_status res.1 = 200 /\
  (EscrowRoutes.acceptInvite true clock no_faults res.2 customer "token").1
  = fail 400 "Invite already accepted".
Proof.
  intros st res.
  assert (Hok : res_status res.1 = 200) by (vm_compute; reflexivity).
  split; [exact Hok |].
  destruct (acceptInvite_is_not_idempotent clock clock no_faults no_faults st
              customer customer "token" res.1 res.2 (surjective_pairing res) Hok)
    as (_ & _ & Hsecond & _).
  by apply Hsecond.
Defined.

Lemma deposit_is_not_repeatable_witness :
  let st := run clock Db.empty [Create "token" sme body; AcceptInvite customer "token"] in
  let res := EscrowRoutes.deposit true clock no_faults st customer 1 in
  res_status res.1 = 200 /\
  (EscrowRoutes.deposit true clock no_faults res.2 customer 1).1
  = fail 400 "Escrow not ready for deposit".
Proof.
  intros st res.
  assert (Hok : res_status res.1 = 200) by (vm_compute; reflexivity).
  split; [exact Hok |].
  destruct (deposit_is_not_repeatable clock clock no_faults no_faults st
              customer customer 1 res.1 res.2 (surjective_pairing res) Hok)
    as (_ & _ & _ & Hsecond).
  by apply Hsecond.
Defined.

Lemma new_escrow_can_be_settled_witness :
  let ms := [EscrowRoutes.mkMilestoneInput "Design" "Wireframes" (Some 50%float);
             EscrowRoutes.mkMilestoneInput "Build" "Implementation" (Some 30%float);
             EscrowRoutes.mkMilestoneInput "Launch" "Go live" (Some 20%float)] in
  let body := EscrowRoutes.mkCreateBody "Site" "New web site" "customer@example.com"
                (Some 10000%float) None (Some ms) in
  let reqs := Create "token" sme body :: AcceptInvite customer "token"
              :: Deposit customer 1 :: settle sme customer [1; 2; 3] in
  serve clock Db.empty reqs = [201; 200; 200; 200; 200; 200; 200; 200; 200] /\
  exists e,
    escrows (run clock Db.empty reqs) !! 1 = Some e /\
    Escrow.status e = "active" /\
    Escrow.released_amount e = Some 10000%float.
Proof.
  intros ms body reqs.
  destruct (new_escrow_can_be_settled clock "token" Db.empty
              sme customer body ms) as (Hserve & (e & He & Hactive & _ & _ & Hrel) & _).
  - intros j e Hj. cbn in Hj. by rewrite lookup_empty in Hj.
  - reflexivity.
  - discriminate.
  - vm_compute. reflexivity.
  - reflexivity.
  - split; [exact Hserve |]. exists e. split; [exact He |].
    split; [exact Hactive |]. rewrite Hrel. vm_compute. reflexivity.
Defined.
End EngineWitnesses.

(** ** The verification route and its log *)

Section VerifyRouteFacts.
Import Db Verification VerifyRoute Scenario Examples.

(** X13. For an asset of one of the three types, the verification route,
    called by the owner of the asset or by an admin with the store calls
    succeeding, answers 200 with the verdict of the oracle and records it on
    the asset: the status is the verdict, and verified_at is the time of the
    call exactly when the verdict is 'verified', NULL otherwise; owner and
    asset columns are untouched. *)
Theorem verifyAsset_records_verdict
    (now : string) (flt : Faults) (st : Store) (userId : string)
    (user : LoanDb.Profile) (assetId : nat) (row : AssetRow)
    (type : string) (lo hi : Q) :
  assets st !! assetId = Some row ->
  user_id row = userId \/ LoanDb.role user = "admin" ->
  asset_type (asset row) = Some type ->
  spec_range type = Some (lo, hi) ->
  flt 0 = false -> flt 1 = false ->
  exists v st' row',
    verifyAsset now flt st userId user assetId = (mkResponse 200 None (Some v), st') /\
    assets st' !! assetId = Some row' /\
    user_id row' = user_id row /\ asset row' = asset row /\
    verification_status row' = Some (Verification.status v) /\
    (spec_passes (asset row) lo hi ->
     Verification.status v = "verified" /\ verified_at row' = Some now) /\
    (~ spec_passes (asset row) lo hi ->
     Verification.status v = "verification_failed" /\ verified_at row' = None).
Proof.
  intros Hrow Hauth Hty Hrange F0 F1.
  unfold verifyAsset. rewrite F0, Hrow.
  rewrite decide_False by (intros [? ?]; destruct Hauth; done).
  destruct (asset row) as [ty v d] eqn:Hasset. cbn in Hty. subst ty.
  destruct (select_rules_known type v d lo hi Hrange) as [Hsel Hlo].
  unfold performMockVerification. rewrite Hsel.
  pose proof (passed_iff now (mkAsset (Some type) v d) lo hi Hlo) as Hp.
  rewrite F1.
  destruct (passed _) eqn:E.
  - eexists _, _, _. split; [reflexivity |].
    split; [destruct (flt 2); cbn; by rewrite lookup_alter_eq, Hrow |].
    cbn. rewrite Hasset.
    split; [reflexivity |]. split; [reflexivity |]. split; [reflexivity |].
    split; [intros _; split; reflexivity |].
    intros Hn. exfalso. apply Hn, Hp. reflexivity.
  - eexists _, _, _. split; [reflexivity |].
    split; [destruct (flt 2); cbn; by rewrite lookup_alter_eq, Hrow |].
    cbn. rewrite Hasset.
    split; [reflexivity |]. split; [reflexivity |]. split; [reflexivity |].
    split; [intros Hs; apply Hp in Hs; discriminate |].
    intros _; split; reflexivity.
Qed.

Lemma verifyAsset_records_verdict_witness :
  exists v st' row',
    verifyAsset clock no_faults asset_book "sme-1" asset_owner 1
    = (mkResponse 200 None (Some v), st') /\
    assets st' !! 1 = Some row' /\
    verification_status row' = Some "verified" /\
    verified_at row' = Some clock.
Proof.
  assert (Hrow : assets asset_book !! 1
                 = Some (mkAssetRow "sme-1" invoice None None None None None))
    by (vm_compute; reflexivity).
  destruct (verifyAsset_records_verdict clock no_faults asset_book "sme-1"
              asset_owner 1 _ "invoice" 1000%Q 2000000%Q Hrow
              (or_introl eq_refl) eq_refl eq_refl eq_refl eq_refl)
    as (v & st' & row' & Hres & Hrow' & _ & _ & Hstatus & Hpass & _).
  assert (Hp : spec_passes invoice 1000 2000000).
  { exists "Invoice 2291 to ACME", 50000%Q.
    repeat split; [vm_compute; discriminate .. | vm_compute; lia]. }
  destruct (Hpass Hp) as [Hv Hat].
  exists v, st', row'. rewrite Hstatus, Hv. auto.
Defined.

(** X14. A verification answered with 200 shows up first in the log of the
    asset, when the insert into the log goes through: the log route then
    returns the earlier entries of the asset with the new one in front,
    which carries the data and the error of the verdict and the status
    'success' for a 'verified' verdict, 'failed' for any other. *)
Theorem verifyAsset_then_logs
    (now : string) (flt : Faults) (st : Store) (userId : string)
    (user : LoanDb.Profile) (assetId : nat)
    (v : VerificationResult) (st' : Store) (earlier : list LogRow) :
  verifyAsset now flt st userId user assetId = (mkResponse 200 None (Some v), st') ->
  flt 2 = false ->
  getLogs no_faults st assetId = Some earlier ->
  exists entry,
    getLogs no_faults st' assetId = Some (entry :: earlier) /\
    log_data entry = Verification.data v /\
    error_message entry = Verification.error v /\
    (log_status entry = "success" <-> Verification.status v = "verified") /\
    (log_status entry = "failed" <-> Verification.status v <> "verified").
Proof.
  unfold verifyAsset, getLogs. cbn. intros H F2 [= <-].
  repeat case_match; simplify_eq/=.
  all: rewrite filter_app, reverse_app; cbn; rewrite decide_True by done; cbn.
  all: eexists; split; [reflexivity |]; cbn; repeat split; try done.
Qed.

Lemma verifyAsset_then_logs_witness :
  let res := verifyAsset clock no_faults asset_book "sme-1" asset_owner 1 in
  res_status res.1 = 200 /\
  exists entry,
    getLogs no_faults res.2 1 = Some [entry] /\ log_status entry = "success".
Proof.
  intros res. split; [vm_compute; reflexivity |].
  assert (Hres : exists v, res = (mkResponse 200 None (Some v), res.2)
                           /\ Verification.status v = "verified").
  { eexists. split; vm_compute; reflexivity. }
  destruct Hres as (v & Hres & Hv).
  destruct (verifyAsset_then_logs clock no_faults asset_book "sme-1" asset_owner 1
              v res.2 [] Hres eq_refl eq_refl)
    as (entry & Hlogs & _ & _ & Hsuccess & _).
  exists entry. split; [exact Hlogs | by apply Hsuccess].
Defined.

(** X15. A caller who neither owns the asset nor has the role 'admin' gets
    no verdict: the verification route answers 403, or 404 when the fetch
    fails, and the store is as it was. *)
Theorem verifyAsset_needs_owner_or_admin
    (now : string) (flt : Faults) (st : Store) (userId : string)
    (user : LoanDb.Profile) (assetId : nat) (row : AssetRow) :
  assets st !! assetId = Some row ->
  user_id row <> userId ->
  LoanDb.role user <> "admin" ->
  let res := verifyAsset now flt st userId user assetId in
  res.2 = st /\ res_verification res.1 = None /\
  (res_status res.1 = 403 \/ res_status res.1 = 404).
Proof.
  intros Hrow Howner Hrole. unfold verifyAsset.
  destruct (flt 0); cbn; [auto |]. rewrite Hrow.
  rewrite decide_True by done. cbn. auto.
Qed.

Lemma verifyAsset_needs_owner_or_admin_witness :
  let res := verifyAsset clock no_faults asset_book "lender-1" asset_visitor 1 in
  res.2 = asset_book /\ res_verification res.1 = None /\ res_status res.1 = 403.
Proof.
  intros res.
  assert (Hrow : assets asset_book !! 1
                 = Some (mkAssetRow "sme-1" invoice None None None None None))
    by (vm_compute; reflexivity).
  destruct (verifyAsset_needs_owner_or_admin clock no_faults asset_book "lender-1"
              asset_visitor 1 _ Hrow) as (Hsame & Hnone & _).
  - cbn. discriminate.
  - cbn. discriminate.
  - split; [exact Hsame |]. split; [exact Hnone | vm_compute; reflexivity].
Defined.

End VerifyRouteFacts.

(** ** Asset requests, loan funding and loan review *)

Section ValidationFacts.
Import Verification Validation Scenario Examples.

Lemma trim_start_length s : String.length (trim_start s) <= String.length s.
Proof.
  induction s as [|c s IH]; cbn; [lia |].
  destruct (is_white_space c); cbn; lia.
Qed.

Lemma trim_end_length s : String.length (trim_end s) <= String.length s.
Proof.
  induction s as [|c s IH]; cbn; [lia |].
  destruct (trim_end s); [destruct (is_white_space c) |]; cbn in *; lia.
Qed.

Lemma trim_length s : String.length (trim s) <= String.length s.
Proof.
  unfold trim. etrans; [apply trim_end_length | apply trim_start_length].
Qed.

#[local] Arguments Nat.leb : simpl never.
#[local] Arguments Nat.ltb : simpl never.

(** X16. What passes the validation of an asset request (a type among the
    three, a positive value, a description of at least ten characters after
    trimming) never fails the oracle on its type or description: for an
    asset with the type, value and description of the request the oracle
    returns a verdict, and the verdict is 'verified' exactly when the value
    lies within the range of the type. *)
Theorem validated_asset_is_verified_by_value_alone
    (now : string) (body : AssetBody) :
  validateAssetCreation body = None ->
  exists name lo hi v d r,
    type body = Some name /\ value body = Some v /\ description body = Some d /\
    spec_range name = Some (lo, hi) /\ (0 < v)%Q /\
    performMockVerification now
      (mkAsset (type body) (value body) (description body)) = Js.Returned r /\
    (Verification.status r = "verified" <-> (lo <= v)%Q /\ (v <= hi)%Q).
Proof.
  unfold validateAssetCreation, errors. destruct body as [ty v d]. cbn.
  destruct (invalid_type ty) eqn:Hty; [discriminate |].
  destruct (invalid_value v) eqn:Hv; [discriminate |].
  destruct (invalid_description d) eqn:Hd; [discriminate |]. intros _.
  destruct ty as [name|]; [| discriminate].
  destruct v as [v|]; [| discriminate].
  destruct d as [d|]; [| discriminate].
  cbn in Hty, Hv, Hd.
  assert (Hpos : (0 < v)%Q).
  { destruct (Qlt_le_dec 0 v) as [|Hle]; [done |].
    apply Qle_bool_iff in Hle. congruence. }
  assert (Hlen : 10 <= String.length d).
  { apply Nat.ltb_ge in Hd. pose proof (trim_length d). lia. }
  assert (Hrange : exists lo hi, spec_range name = Some (lo, hi)).
  { apply negb_false_iff in Hty. cbn in Hty. unfold spec_range.
    destruct (String.eqb_spec name "deposit") as [-> | _]; [by eexists _, _ |].
    destruct (String.eqb_spec name "purchase_order") as [-> | _]; [by eexists _, _ |].
    destruct (String.eqb_spec name "invoice") as [-> | _]; [by eexists _, _ |].
    discriminate. }
  destruct Hrange as (lo & hi & Hrange).
  destruct (select_rules_known name (Some v) (Some d) lo hi Hrange) as [Hsel Hlo].
  pose proof (passed_iff now (mkAsset (Some name) (Some v) (Some d)) lo hi Hlo) as Hp.
  unfold performMockVerification. rewrite Hsel.
  eexists name, lo, hi, v, d, _.
  repeat (split; [reflexivity || assumption |]).
  cbn [Verification.status]. destruct (passed _) eqn:E.
  - split; [intros _ | reflexivity].
    destruct (proj1 Hp eq_refl) as (d' & v' & [= <-] & [= <-] & ? & ? & _). auto.
  - split; [discriminate |]. intros [H1 H2].
    assert (Hs : spec_passes (mkAsset (Some name) (Some v) (Some d)) lo hi)
      by (exists d, v; auto).
    apply Hp in Hs. discriminate.
Qed.
Lemma validated_asset_is_verified_by_value_alone_witness :
  validateAssetCreation asset_body = None /\
  exists r,
    performMockVerification clock
      (mkAsset (type asset_body) (value asset_body) (description asset_body))
    = Js.Returned r /\
    Verification.status r = "verified".
Proof.
  assert (Hvalid : validateAssetCreation asset_body = None) by (vm_compute; reflexivity).
  split; [exact Hvalid |].
  destruct (validated_asset_is_verified_by_value_alone clock asset_body Hvalid)
    as (name & lo & hi & v & d & r & Hty & Hv & _ & Hrange & _ & Hr & Hiff).
  exists r. split; [exact Hr |]. apply Hiff.
  injection Hty as <-. injection Hv as <-. injection Hrange as <- <-.
  split; vm_compute; discriminate.
Defined.
End ValidationFacts.

Section FundFacts.
Import Db LoansRoutes Scenario Examples.

(** A funding answered with 200 found the loan 'requested' or 'approved'
    and left it 'funded' by the caller. *)
Lemma fund_success now flt loans user id r loans' :
  fund true now flt loans user id = (r, loans') ->
  res_status r = 200 ->
  exists loan,
    loans !! id = Some loan /\
    (status loan = "requested" \/ status loan = "approved") /\
    loans' = alter (mark_funded now (user_id user)) id loans.
Proof.
  unfold fund. cbn. intros H Hok. repeat case_match; simplify_eq/=.
  eexists. split; [done |]. split; [| done].
  match goal with
  | Hn : ~ (status ?l <> _ /\ _) |- _ =>
      destruct (decide (status l = "requested")); [by left |];
      destruct (decide (status l = "approved")); [by right |];
      exfalso; apply Hn; by split
  end.
Qed.

(** X17. A funding answered with 200 found the loan 'requested' or
    'approved' and left it 'funded' by the caller; a second funding of the
    same loan is not answered with 200 and writes nothing: when the fetch
    goes through it is answered with 400 and the current status
    'funded'. *)
Theorem fund_is_not_repeatable
    (now now2 : string) (flt flt2 : Faults) (loans : gmap nat Loan)
    (user user2 : User) (id : nat) (r : Response) (loans' : gmap nat Loan) :
  fund true now flt loans user id = (r, loans') ->
  res_status r = 200 ->
  (exists loan,
     loans !! id = Some loan /\
     (status loan = "requested" \/ status loan = "approved") /\
     loans' !! id = Some (mark_funded now (user_id user) loan)) /\
  let res2 := fund true now2 flt2 loans' user2 id in
  res2.2 = loans' /\ res_status res2.1 <> 200 /\
  (flt2 0 = false ->
   res2.1 = mkResponse 400 (Some "Loan is not available for funding") (Some "funded")).
Proof.
  intros H Hok.
  destruct (fund_success _ _ _ _ _ _ _ H Hok) as (loan & Hl & Hstatus & ->).
  assert (Hl' : alter (mark_funded now (user_id user)) id loans !! id
                = Some (mark_funded now (user_id user) loan))
    by (by rewrite lookup_alter_eq, Hl).
  split; [by exists loan |].
  intros res2. subst res2. unfold fund. cbn. rewrite Hl'.
  destruct (flt2 0); cbn; [by repeat split |].
  rewrite decide_True by (split; discriminate). cbn. by repeat split.
Qed.
Lemma fund_is_not_repeatable_witness :
  let res := fund true clock no_faults loans lender 1 in
  res_status res.1 = 200 /\
  (fund true clock no_faults res.2 lender 1).1
  = mkResponse 400 (Some "Loan is not available for funding") (Some "funded").
Proof.
  intros res.
  assert (Hok : res_status res.1 = 200) by (vm_compute; reflexivity).
  split; [exact Hok |].
  destruct (fund_is_not_repeatable clock clock no_faults no_faults loans lender
              lender 1 res.1 res.2 (surjective_pairing res) Hok)
    as (_ & _ & _ & Hsecond).
  by apply Hsecond.
Defined.
End FundFacts.

Section ReviewFacts.
Import Db LoanDb Scenario.

(** X18. In routes/verification-lender.js a loan is reviewed once: after an
    approval answered with 200, a further approval or rejection by any
    lender or admin is answered with 400 'Loan is not pending approval' and
    the current status 'approved', and writes nothing. *)
Theorem review_is_final
    (now now2 : string) (flt flt2 : Faults) (st : Store) (userId userId2 : string)
    (loanId : nat) (notes conditions notes2 conditions2 : option string)
    (reason2 : string) (user2 : Profile) (r : Response) (st' : Store) :
  VerificationLender.approveLoan now flt st userId loanId notes conditions = (r, st') ->
  res_status r = 200 ->
  profiles st !! userId2 = Some user2 ->
  role user2 = "lender" \/ role user2 = "admin" ->
  reason2 <> "" ->
  flt2 0 = false -> flt2 1 = false ->
  VerificationLender.approveLoan now2 flt2 st' userId2 loanId notes2 conditions2
  = (mkResponse 400 (Some "Loan is not pending approval") (Some "approved"), st') /\
  VerificationLender.rejectLoan now2 flt2 st' userId2 loanId (Some reason2)
  = (mkResponse 400 (Some "Loan is not pending approval") (Some "approved"), st').
Proof.
  intros H Hok Hp Hrole Hreason F0 F1.
  destruct (approveLoan_success _ _ _ _ _ _ _ _ _ H Hok)
    as (user & loan & loan' & _ & _ & _ & _ & Hl' & Hs' & _).
  assert (Hprofiles : profiles st' = profiles st).
  { revert H. unfold VerificationLender.approveLoan. intros H.
    repeat case_match; simplify_eq/=; try done. unfold log_history.
    by case_match. }
  rewrite <- Hprofiles in Hp.
  destruct (approveLoan_requires_requested now2 flt2 st' userId2 loanId notes2
              conditions2 user2 loan' F0 F1 Hp Hrole Hl') as [Ha Hr].
  { rewrite Hs'. discriminate. }
  rewrite Hs' in Ha, Hr. split; [exact Ha | by apply Hr].
Qed.
Lemma review_is_final_witness :
  let res := VerificationLender.approveLoan clock no_faults loan_book "lender-1" 2
               (Some "Sound") None in
  res_status res.1 = 200 /\
  (VerificationLender.rejectLoan clock no_faults res.2 "admin-1" 2
     (Some "Changed my mind")).1
  = mkResponse 400 (Some "Loan is not pending approval") (Some "approved").
Proof.
  intros res.
  assert (Hok : res_status res.1 = 200) by (vm_compute; reflexivity).
  split; [exact Hok |].
  destruct (review_is_final clock clock no_faults no_faults loan_book
              "lender-1" "admin-1" 2 (Some "Sound") None None None
              "Changed my mind" (mkProfile "admin") res.1 res.2
              (surjective_pairing res) Hok)
    as [_ Hreject];
    [vm_compute; reflexivity | by right | discriminate | reflexivity | reflexivity |].
  by rewrite Hreject.
Defined.
End ReviewFacts.

(** ** Lender statistics and the reading of the bearer token *)

Section StatsFacts.
Import Stats.

Lemma count_cons name loan loans :
  count name (loan :: loans)
  = (if decide (status loan = name) then 1 else 0) + count name loans.
Proof. unfold count. rewrite filter_cons. by case_decide. Qed.

(** X19. In the statistics of routes/verification-lender.js the five
    counts by status sum to at most the number of loans, and to exactly
    that number when and only when every loan has one of the statuses
    'requested', 'approved', 'active', 'rejected' and 'funded'. *)
Theorem verification_lender_stats_add_up (loans : list Figures) :
  let s := verification_lender_stats loans in
  pending_approval s + approved_loans s + active_loans s + rejected_loans s
  + funded_loans s <= total_loans s /\
  (pending_approval s + approved_loans s + active_loans s + rejected_loans s
   + funded_loans s = total_loans s
   <-> Forall (fun l => status l ∈ ["requested"; "approved"; "active";
                                    "rejected"; "funded"]) loans).
Proof.
  cbn. induction loans as [|l loans [IHle IHeq]].
  - cbn. split; [lia |]. split; [constructor | reflexivity].
  - rewrite !count_cons. cbn [length]. split.
    + repeat case_decide; try congruence; lia.
    + rewrite Forall_cons, !elem_of_cons, elem_of_nil.
      repeat case_decide; try congruence; split.
      all: try (intros Hsum; split; [solve [auto 10] | apply IHeq; lia]).
      all: try (intros [_ Hall]; apply IHeq in Hall; lia).
      * intros Hsum. exfalso. lia.
      * intros [Hin _]. exfalso. intuition.
Qed.

(** X20. The two statistics routes disagree on active_loans: the one in
    routes/lender.js counts the funded loans as active too, so its
    active_loans is the active_loans of routes/verification-lender.js plus
    funded_loans; the other five counts are the same. *)
Theorem lender_stats_count_funded_as_active (loans : list Figures) :
  let here := lender_stats loans in
  let there := verification_lender_stats loans in
  active_loans here = active_loans there + funded_loans here /\
  total_loans here = total_loans there /\
  pending_approval here = pending_approval there /\
  approved_loans here = approved_loans there /\
  rejected_loans here = rejected_loans there /\
  funded_loans here = funded_loans there.
Proof.
  cbn. split; [| by repeat split].
  induction loans as [|l loans IH]; [reflexivity |].
  rewrite !count_cons, filter_cons. repeat case_decide; cbn [length];
    try lia; try congruence; exfalso; intuition congruence.
Qed.

End StatsFacts.

Section MiddlewareFacts.
Import Middleware.

Lemma split_space_no_space t :
  has_space t = false -> split_space t = [t].
Proof.
  induction t as [|c t IH]; cbn; [reflexivity |].
  destruct (Ascii.eqb c " "); cbn; [intros [=] |].
  intros H. by rewrite IH.
Qed.

Lemma prefix_has_space pattern : forall s,
  String.prefix pattern s = true -> has_space pattern = true -> has_space s = true.
Proof.
  induction pattern as [|a pattern IH]; intros s Hp Hs; [discriminate |].
  destruct s as [|b s]; [discriminate |]. cbn in Hp, Hs |- *.
  destruct (Ascii.ascii_dec a b) as [<- |]; [| discriminate].
  destruct (Ascii.eqb a " "); [reflexivity |]. cbn in Hs |- *. by apply IH.
Qed.

Lemma prefix_bearer_has_space s :
  String.prefix "Bearer " s = true -> has_space s = true.
Proof. intros Hp. by apply (prefix_has_space "Bearer "). Qed.

Lemma remove_first_absent s :
  has_space s = false -> remove_first "Bearer " s = s.
Proof.
  induction s as [|c s IH]; intros Hs; [reflexivity |].
  cbn [remove_first].
  destruct (String.prefix "Bearer " (String c s)) eqn:Hp.
  { apply prefix_bearer_has_space in Hp. congruence. }
  f_equal. apply IH. cbn in Hs. apply orb_false_elim in Hs as [_ Hs]. exact Hs.
Qed.

Ltac spell_bearer t :=
  let spelled := eval cbv beta iota zeta delta [String.append] in ("Bearer " ++ t) in
  change ("Bearer " ++ t) with spelled.

Lemma remove_first_bearer t : remove_first "Bearer " ("Bearer " ++ t) = t.
Proof. spell_bearer t. cbn. by destruct t. Qed.

Lemma split_space_bearer t :
  has_space t = false -> split_space ("Bearer " ++ t) = ["Bearer"; t].
Proof. intros Hs. spell_bearer t. cbn. by rewrite split_space_no_space. Qed.

(** X21. From a header 'Bearer ' followed by a non-empty token without
    spaces, [authenticate] and [authenticateToken] both read the token. *)
Theorem bearer_header_is_read_alike (t : string) :
  t <> "" -> has_space t = false ->
  authenticate_token (Some ("Bearer " ++ t)) = Some t /\
  authenticateToken_token (Some ("Bearer " ++ t)) = Some t.
Proof.
  intros Hne Hs. unfold authenticate_token, authenticateToken_token.
  cbn [fmap option_fmap option_map].
  rewrite remove_first_bearer, split_space_bearer by done.
  assert (Hheader : ("Bearer " ++ t =? "") = false) by (by spell_bearer t).
  rewrite Hheader. cbn.
  by destruct (String.eqb_spec t "").
Qed.

Lemma bearer_header_is_read_alike_witness :
  authenticate_token (Some "Bearer abc") = Some "abc" /\
  authenticateToken_token (Some "Bearer abc") = Some "abc".
Proof. apply (bearer_header_is_read_alike "abc"); [discriminate | reflexivity]. Defined.

(** X22. From a header that is just a non-empty token without spaces,
    [authenticate] reads the token, while [authenticateToken] reads none
    and answers 401. *)
Theorem bare_token_is_read_differently (t : string) :
  t <> "" -> has_space t = false ->
  authenticate_token (Some t) = Some t /\
  authenticateToken_token (Some t) = None.
Proof.
  intros Hne Hs. unfold authenticate_token, authenticateToken_token.
  cbn [fmap option_fmap option_map missing].
  rewrite remove_first_absent by done.
  destruct (String.eqb_spec t "") as [| _]; [done |].
  by rewrite split_space_no_space.
Qed.
Lemma bare_token_is_read_differently_witness :
  authenticate_token (Some "abc") = Some "abc" /\
  authenticateToken_token (Some "abc") = None.
Proof. apply (bare_token_is_read_differently "abc"); [discriminate | reflexivity]. Defined.
End MiddlewareFacts.

(** ** Reading escrows and invites *)

Section QueryFacts.
Import Db Engine Steps Lifecycle EscrowQueries Scenario Examples.

Lemma elem_of_listPendingInvites st user v :
  v ∈ (listPendingInvites true no_faults st user).2
  <-> exists id e,
        escrows st !! id = Some e /\ pending_for (user_email user) (id, e) /\
        v = invite_view (id, e).
Proof.
  unfold listPendingInvites. cbn. rewrite list_elem_of_fmap. split.
  - intros ([id e] & -> & Hin). rewrite merge_sort_Permutation in Hin.
    apply list_elem_of_filter in Hin as [Hp Hin].
    apply elem_of_map_to_list in Hin. by exists id, e.
  - intros (id & e & He & Hp & ->). exists (id, e). split; [done |].
    rewrite merge_sort_Permutation. apply list_elem_of_filter. split; [done |].
    by apply elem_of_map_to_list.
Qed.

(** X23. An invite that the invites route lists for a user can be accepted
    by that user with the token shown, when no other escrow carries that
    token: the accept is answered with 200, the escrow becomes
    'pending_deposit' with the user as customer, and from then on the
    invites route lists that escrow for nobody. *)
Theorem listed_invite_is_accepted_once
    (now : string) (st : Store) (user : User) (v : InviteView.t) :
  v ∈ (listPendingInvites true no_faults st user).2 ->
  (forall j e, escrows st !! j = Some e ->
               Escrow.invite_token e = InviteView.invite_token v ->
               j = InviteView.id v) ->
  exists st' e',
    EscrowRoutes.acceptInvite true now no_faults st user (InviteView.invite_token v)
    = (ok 200, st') /\
    escrows st' !! InviteView.id v = Some e' /\
    Escrow.customer_id e' = Some (user_id user) /\
    Escrow.status e' = "pending_deposit" /\
    forall (other : User) (w : InviteView.t),
      w ∈ (listPendingInvites true no_faults st' other).2 ->
      InviteView.id w <> InviteView.id v.
Proof.
  intros Hv Huniq.
  apply elem_of_listPendingInvites in Hv as (id & e & He & (Hmail & Hcust & Hstatus) & ->).
  cbn in *.
  assert (Hsingle : single (escrows_by_token st (Escrow.invite_token e)) = Some (id, e)).
  { apply escrows_by_token_single_iff. auto. }
  destruct (acceptInvite_ok now st user _ id e Hsingle) as (st' & Hacc & Hes' & _);
    [done | destruct Hstatus as [-> | ->]; discriminate
          | destruct Hstatus as [-> | ->]; discriminate |].
  exists st', (EscrowRoutes.mark_accepted now (user_id user) e).
  split; [exact Hacc |].
  assert (He' : escrows st' !! id
                = Some (EscrowRoutes.mark_accepted now (user_id user) e))
    by (by rewrite Hes', lookup_alter_eq, He).
  split; [exact He' |]. split; [reflexivity |]. split; [reflexivity |].
  intros other w Hw Hid.
  apply elem_of_listPendingInvites in Hw as (j & e2 & Hj & (_ & Hnone & _) & ->).
  cbn in Hid. subst j. rewrite He' in Hj. injection Hj as <-. discriminate.
Qed.

Lemma listed_invite_is_accepted_once_witness :
  exists v st',
    (listPendingInvites true no_faults invited customer).2 = [v] /\
    InviteView.id v = 1 /\
    EscrowRoutes.acceptInvite true clock no_faults invited customer
      (InviteView.invite_token v) = (ok 200, st') /\
    forall (other : User) (w : InviteView.t),
      w ∈ (listPendingInvites true no_faults st' other).2 -> InviteView.id w <> 1.
Proof.
  assert (Hlist : exists v,
            (listPendingInvites true no_faults invited customer).2 = [v]
            /\ InviteView.id v = 1 /\ InviteView.invite_token v = "token").
  { eexists. repeat split; vm_compute; reflexivity. }
  destruct Hlist as (v & Hlist & Hid & Htoken).
  assert (Hes : exists e, escrows invited = {[1 := e]})
    by (eexists; vm_compute; reflexivity).
  destruct Hes as (e0 & Hes).
  destruct (listed_invite_is_accepted_once clock invited customer v)
    as (st' & e' & Haccept & _ & _ & _ & Hgone).
  - rewrite Hlist. apply list_elem_of_here.
  - intros j e Hj _. rewrite Hes in Hj.
    apply lookup_singleton_Some in Hj as [<- _]. by rewrite Hid.
  - exists v, st'. rewrite Hid in Hgone. auto.
Defined.

(** The rows a create request has put under its escrow, with their keys. *)
Lemma milestones_of_created st st' rows :
  well_formed st ->
  escrow_milestones st' = insert_all rows (milestones_seq st) (escrow_milestones st) ->
  (forall row, row ∈ rows -> Milestone.escrow_id row = escrows_seq st) ->
  milestones_of st' (escrows_seq st)
  ≡ₚ imap (fun i row => (milestones_seq st + i, row)) rows.
Proof.
  intros [Hes Hms] Hst' Hrows. unfold milestones_of.
  apply NoDup_Permutation.
  - apply NoDup_filter, NoDup_map_to_list.
  - apply NoDup_alt. intros i j [k row] Hi Hj.
    rewrite list_lookup_imap in Hi, Hj.
    destruct (rows !! i) eqn:Ei; [| discriminate].
    destruct (rows !! j) eqn:Ej; [| discriminate].
    cbn in Hi, Hj. injection Hi as Hi _. injection Hj as Hj _. lia.
  - intros [k row]. rewrite list_elem_of_filter, elem_of_map_to_list, Hst'. cbn.
    rewrite elem_of_lookup_imap. split.
    + intros [Hid Hk].
      destruct (decide (k < milestones_seq st)) as [Hlt | Hge].
      { rewrite insert_all_lookup_lt in Hk by done.
        destruct (Hms k row Hk) as (_ & [e He] & _).
        destruct (Hes _ e He) as [Hparent _]. lia. }
      destruct (decide (milestones_seq st + length rows <= k)) as [Hhigh | Hlow].
      { rewrite insert_all_lookup_ge in Hk by done.
        destruct (Hms k row Hk) as (Hlt & _). lia. }
      assert (Hi : is_Some (rows !! (k - milestones_seq st)))
        by (apply lookup_lt_is_Some; lia).
      destruct Hi as [row2 Hi].
      pose proof (insert_all_lookup rows (milestones_seq st) (escrow_milestones st)
                    _ _ Hi) as Hk2.
      replace (milestones_seq st + (k - milestones_seq st)) with k in Hk2 by lia.
      rewrite Hk in Hk2. injection Hk2 as <-.
      exists (k - milestones_seq st), row. split; [f_equal; lia | exact Hi].
    + intros (i & row2 & [= -> <-] & Hi). split.
      * apply Hrows. by eapply list_elem_of_lookup_2.
      * by apply insert_all_lookup.
Qed.

Lemma milestonesData_escrow_id escrow_id total ms row :
  row ∈ EscrowRoutes.milestonesData escrow_id total ms ->
  Milestone.escrow_id row = escrow_id.
Proof.
  intros Hin. apply list_elem_of_lookup in Hin as [i Hi].
  assert (Hlen : i < length ms).
  { rewrite <- (milestonesData_length escrow_id total). by eapply lookup_lt_Some. }
  apply lookup_lt_is_Some in Hlen as [m Hm].
  destruct (milestonesData_lookup escrow_id total ms i m Hm) as (row2 & Hrow2 & Hid & _).
  congruence.
Qed.

(** X24. In a reachable store a create request whose milestones pass the
    check, with a token no escrow carries yet and the store calls
    succeeding, is answered with 201, and the token route then shows the
    new escrow: a 'draft' for the customer email and total of the request,
    with one milestone per entry of the request and the amount, percentage
    and position create has stored for it; the order of the milestones is
    that of the table. *)
Theorem created_escrow_is_shown_by_token
    (now : string) (inviteToken : string) (st : Store) (user : User)
    (body : EscrowRoutes.CreateBody) (ms : list EscrowRoutes.MilestoneInput) :
  reachable st ->
  (forall j e, escrows st !! j = Some e -> Escrow.invite_token e <> inviteToken) ->
  EscrowRoutes.milestones body = Some ms -> ms <> [] ->
  EscrowRoutes.percentages_off ms = false ->
  exists st' view,
    EscrowRoutes.create true now no_faults inviteToken st user body = (ok 201, st') /\
    getByToken true no_faults st' inviteToken = (ok 200, Some view) /\
    EscrowView.id view = escrows_seq st /\
    EscrowView.status view = "draft" /\
    EscrowView.customer_email view = EscrowRoutes.customer_email body /\
    EscrowView.total_amount view
    = EscrowRoutes.total_amount body ≫= Number.to_json /\
    EscrowView.escrow_milestones view
    ≡ₚ imap (fun i m => {|
         MilestoneView.id := milestones_seq st + i;
         MilestoneView.title := EscrowRoutes.title m;
         MilestoneView.description := EscrowRoutes.description m;
         MilestoneView.amount :=
           Number.to_json (Number.parseFloat (EscrowRoutes.percentage m) / 100
                           * Number.parseFloat (EscrowRoutes.total_amount body))%float;
         MilestoneView.percentage :=
           Number.to_json (Number.parseFloat (EscrowRoutes.percentage m));
         MilestoneView.order_index := i + 1 |}) ms.
Proof.
  intros Hreach Hfresh Hms Hne Hoff.
  pose proof (reachable_well_formed st Hreach) as Hwf.
  destruct (create_ok now inviteToken st user body ms Hms Hne Hoff)
    as (st' & e & Hcreate & Hes' & Hc & Hms').
  destruct Hc as (_ & _ & Hmail & Htotal & _ & _ & Hdraft & Htok).
  assert (Hsingle : single (escrows_by_token st' inviteToken)
                    = Some (escrows_seq st, e)).
  { apply escrows_by_token_single_iff. rewrite Hes'.
    split; [apply lookup_insert_eq |]. split; [exact Htok |].
    intros j e2 Hj Hjt. destruct (decide (j = escrows_seq st)) as [| Hjk]; [done |].
    rewrite lookup_insert_ne in Hj by done. by apply Hfresh in Hj. }
  exists st', (escrow_view st' (escrows_seq st, e)).
  split; [exact Hcreate |].
  split; [unfold getByToken; cbn; by rewrite Hsingle |].
  cbn. repeat (split; [done |]).
  rewrite (milestones_of_created st st' _ Hwf Hms')
    by (intros row; apply milestonesData_escrow_id).
  apply reflexive_eq. apply list_eq. intros i.
  rewrite list_lookup_fmap, !list_lookup_imap.
  destruct (ms !! i) as [m|] eqn:Hi.
  - destruct (milestonesData_lookup (escrows_seq st) (EscrowRoutes.total_amount body)
                ms i m Hi) as (row & Hrow & _).
    unfold EscrowRoutes.milestonesData, mapi in Hrow |- *.
    rewrite (mapi_from_lookup _ 0 ms i m Hi). reflexivity.
  - apply lookup_ge_None in Hi.
    rewrite (proj2 (lookup_ge_None _ i)); [reflexivity |].
    by rewrite milestonesData_length.
Qed.

Lemma created_escrow_is_shown_by_token_witness :
  exists st' view,
    EscrowRoutes.create true clock no_faults "token" Db.empty sme body = (ok 201, st') /\
    getByToken true no_faults st' "token" = (ok 200, Some view) /\
    EscrowView.id view = 1 /\ EscrowView.status view = "draft" /\
    EscrowView.total_amount view = Some 10000%float /\
    length (EscrowView.escrow_milestones view) = 1.
Proof.
  destruct (created_escrow_is_shown_by_token clock "token" Db.empty sme body
              [EscrowRoutes.mkMilestoneInput "Delivery" "Everything" (Some 100%float)]
              reachable_empty)
    as (st' & view & Hcreate & Hget & Hid & Hdraft & _ & Htotal & Hperm).
  - intros j e Hj. cbn in Hj. by rewrite lookup_empty in Hj.
  - reflexivity.
  - discriminate.
  - vm_compute. reflexivity.
  - exists st', view. split; [exact Hcreate |]. split; [exact Hget |].
    split; [exact Hid |]. split; [exact Hdraft |].
    split; [rewrite Htotal; vm_compute; reflexivity |].
    by rewrite Hperm.
Defined.

End QueryFacts.

(** ** Percentages that are no numbers *)

Section NotANumberFacts.
Import Db EscrowRoutes Scenario.

Lemma fold_percentages_nan (ms : list MilestoneInput) :
  fold_left (fun sum m => (sum + Number.parseFloat (percentage m))%float) ms nan = nan.
Proof. induction ms as [|m ms IH]; cbn; [reflexivity |]. by rewrite add_nan_l. Qed.

(** One percentage that is no number makes the running total NaN. *)
Lemma totalPercentage_nan ms m :
  m ∈ ms -> percentage m = None -> totalPercentage ms = nan.
Proof.
  unfold totalPercentage. generalize 0%float as start.
  induction ms as [|m0 ms IH]; intros start Hin Hnone;
    [by apply not_elem_of_nil in Hin |].
  cbn. apply elem_of_cons in Hin as [<- | Hin].
  - rewrite Hnone. change (Number.parseFloat None) with nan.
    rewrite add_nan_r. apply fold_percentages_nan.
  - by apply IH.
Qed.

(** X25. A milestone whose percentage is absent, null or a text that starts
    with no number defeats the check of create: the running total is NaN,
    which no comparison finds more than 0.01 away from 100, so with the
    store calls succeeding the request is answered with 201 whatever the
    other percentages are, and that milestone is stored with NULL for
    amount and percentage. *)
Theorem create_accepts_percentage_that_is_no_number
    (now : string) (inviteToken : string) (st : Store) (user : User)
    (body : CreateBody) (ms : list MilestoneInput) (i : nat) (m : MilestoneInput) :
  milestones body = Some ms ->
  ms !! i = Some m ->
  percentage m = None ->
  exists st' row,
    create true now no_faults inviteToken st user body = (ok 201, st') /\
    escrow_milestones st' !! (milestones_seq st + i) = Some row /\
    Milestone.title row = title m /\
    Milestone.amount row = None /\ Milestone.percentage row = None.
Proof.
  intros Hms Hi Hnone.
  assert (Hne : ms <> []) by (intros ->; discriminate).
  assert (Hoff : percentages_off ms = false).
  { unfold percentages_off.
    rewrite (totalPercentage_nan ms m) by (eauto using list_elem_of_lookup_2).
    reflexivity. }
  destruct (create_ok now inviteToken st user body ms Hms Hne Hoff)
    as (st' & e & Hcreate & _ & _ & Hrows).
  unfold milestonesData, mapi in Hrows.
  eexists st', _. split; [exact Hcreate |].
  split; [rewrite Hrows; apply insert_all_lookup, mapi_from_lookup, Hi |].
  cbn. rewrite Hnone. change (Number.parseFloat None) with nan.
  change (nan / 100)%float with nan. rewrite mul_nan_l. by repeat split.
Qed.

Lemma create_accepts_percentage_that_is_no_number_witness :
  let ms := [mkMilestoneInput "Design" "Wireframes" (Some 60%float);
             mkMilestoneInput "Build" "Implementation" None] in
  let body := mkCreateBody "Site" "New web site" "customer@example.com"
                           (Some 10000%float) None (Some ms) in
  exists st' row,
    create true clock no_faults "token" Db.empty sme body = (ok 201, st') /\
    escrow_milestones st' !! 2 = Some row /\
    Milestone.title row = "Build" /\
    Milestone.amount row = None /\ Milestone.percentage row = None.
Proof.
  intros ms body.
  apply (create_accepts_percentage_that_is_no_number clock "token" Db.empty sme body
           ms 1 _ eq_refl eq_refl eq_refl).
Defined.
End NotANumberFacts.
